(** * Supermodel, SDL port: the session driver of [Src/OSD/SDL/Main.cpp]

    A shallow embedding of the display set-up ([CreateGLScreen]), of the
    save-state and NVRAM managers ([SaveState], [LoadState], [SaveNVRAM],
    [LoadNVRAM]) and of the main program driver ([Supermodel]), followed by
    the properties of the driver that the specification states.

    Conventions.
    - [unsigned] is a 32-bit integer, kept as a [Z] with its wrap-around
      written out ([U32.wrap]).
    - [float] is IEEE 754 binary32 with round-to-nearest-even, taken from
      the Standard Library's [SpecFloat] at precision 24; every operation of
      a [float] expression rounds to binary32 (the evaluation of an SSE
      build).
    - The emulated machine ([CModel3]) and the block file ([CBlockFile]) are
      declared in headers outside this file: they are interfaces here
      (type classes), and every theorem holds for all their implementations.
    - The non-debugger build is modelled ([SUPERMODEL_DEBUGGER] undefined). *)

From Stdlib Require Import ZArith Bool List String Ascii Lia.
From Stdlib Require Import DecimalString.
From Stdlib Require Import Floats.SpecFloat.
Import ListNotations.
Local Open Scope Z_scope.

(** ** Machine arithmetic *)

Module U32.

Definition modulus : Z := 2 ^ 32.

Definition wrap (z : Z) : Z := z mod modulus.

Definition add (a b : Z) : Z := wrap (a + b).
Definition sub (a b : Z) : Z := wrap (a - b).
Definition incr (a : Z) : Z := wrap (a + 1).

Definition in_range (z : Z) : Prop := 0 <= z < modulus.

End U32.

Module F32.

Definition prec : Z := 24.
Definition emax : Z := 128.

Definition float : Type := spec_float.

(** [(float) n] for an [unsigned] n. *)
Definition of_unsigned (n : Z) : float := binary_normalize prec emax n 0 false.

Definition mul : float -> float -> float := SFmul prec emax.
Definition div : float -> float -> float := SFdiv prec emax.
Definition ltb : float -> float -> bool := SFltb.

(** The integral part of the magnitude of a finite float. *)
Definition trunc_mag (m : positive) (e : Z) : Z :=
  if 0 <=? e then Z.shiftl (Zpos m) e else Z.shiftr (Zpos m) (- e).

(** [(unsigned) f]: the fractional part is discarded; C leaves the
    conversion undefined when the integral part is not an [unsigned]
    value, which is [None] here. *)
Definition to_unsigned (f : float) : option Z :=
  match f with
  | S754_zero _ => Some 0
  | S754_finite false m e =>
      let v := trunc_mag m e in
      if v <? U32.modulus then Some v else None
  | S754_finite true m e =>
      if trunc_mag m e =? 0 then Some 0 else None
  | S754_infinity _ | S754_nan => None
  end.

(** The value of a non-negative float of exponent -24 at least (so of
    every normal float from 1/2 on), scaled by [2^24]. *)
Definition scaled (f : float) : Z :=
  match f with
  | S754_finite false m e => Zpos m * 2 ^ (e + 24)
  | _ => 0
  end.

(** A positive normal number in canonical form, of exponent -24 at
    least. *)
Definition normal_pos (f : float) : bool :=
  match f with
  | S754_finite false m e =>
      (Zpos (digits2_pos m) =? prec) && (-24 <=? e) && (e <=? emax - prec)
  | _ => false
  end.

End F32.

(** ** Outcomes of fallible code *)

Inductive Outcome (A : Type) : Type :=
| Okay (a : A)       (* the function returned OKAY *)
| Fail               (* the function returned FAIL *)
| Undefined.         (* the C code has no defined behaviour on this input *)

Arguments Okay {A} a.
Arguments Fail {A}.
Arguments Undefined {A}.

(** ** Display management *)

(** What SDL and GLEW answer to [CreateGLScreen]: whether the video
    subsystem starts, whether the video mode is set, the resolution of the
    mode obtained ([SDL_GetVideoInfo]) and whether GLEW initialises. *)
Record VideoEnv : Type := {
  video_init_ok : bool;
  video_mode_ok : bool;
  current_w : Z;
  current_h : Z;
  glew_ok : bool
}.

(** What [CreateGLScreen] passes back through its four pointers. *)
Record Geometry : Type := {
  g_xOffset : Z;
  g_yOffset : Z;
  g_xRes : Z;
  g_yRes : Z
}.

Definition model3Ratio : F32.float :=
  F32.div (F32.of_unsigned 496) (F32.of_unsigned 384).

(** The two [if]s under [keepAspectRatio], on the float copies of the
    requested resolution. *)
Definition fix_aspect (xRes yRes : F32.float) : F32.float * F32.float :=
  let xRes := if F32.ltb yRes (F32.div xRes model3Ratio)
              then F32.mul yRes model3Ratio else xRes in
  let yRes := if F32.ltb xRes (F32.mul yRes model3Ratio)
              then F32.div xRes model3Ratio else yRes in
  (xRes, yRes).

(** Centring: [( *xResPtr - (unsigned) xRes)/2], then the second centring
    when the mode obtained is larger than the one asked for. *)
Definition center_offset (requested resolved current : Z) : Z :=
  let off := U32.sub requested resolved / 2 in
  if requested <? U32.wrap current
  then U32.add off (U32.sub (U32.wrap current) requested / 2)
  else off.

Definition CreateGLScreen (env : VideoEnv) (xResIn yResIn : Z)
    (keepAspectRatio fullScreen : bool) : Outcome Geometry :=
  if negb (video_init_ok env) then Fail
  else if negb (video_mode_ok env) then Fail
  else
    let xRes := F32.of_unsigned xResIn in
    let yRes := F32.of_unsigned yResIn in
    let '(xRes, yRes) :=
      if keepAspectRatio then fix_aspect xRes yRes else (xRes, yRes) in
    match F32.to_unsigned xRes, F32.to_unsigned yRes with
    | Some xr, Some yr =>
        if negb (glew_ok env) then Fail
        else Okay {| g_xOffset := center_offset xResIn xr (current_w env);
                     g_yOffset := center_offset yResIn yr (current_h env);
                     g_xRes := xr;
                     g_yRes := yr |}
    | _, _ => Undefined
    end.

(** ** Collaborators declared outside this file *)

(** [CBlockFile]: [FS] is the file system, [BF] a block file object with an
    open file.  [bf_Create] and [bf_Load] answer [None] when the call does
    not return OKAY; [bf_FindBlock] answers whether the block was found. *)
Class BlockFileOps (FS BF : Type) : Type := {
  bf_Create : FS -> string -> string -> string -> option BF;
  bf_Load : FS -> string -> option BF;
  bf_FindBlock : BF -> string -> bool * BF;
  bf_ReadInt : BF -> Z * BF;
  bf_WriteInt : BF -> Z -> BF;
  bf_WriteString : BF -> string -> BF;
  bf_Close : FS -> BF -> FS
}.

(** [CModel3]: the emulated machine.  [m3_Init] and [m3_LoadROMSet] answer
    whether the call returned OKAY, with the machine after the call. *)
Class Model3Ops (M BF : Type) : Type := {
  m3_new : M;
  m3_Init : M -> bool * M;
  m3_LoadROMSet : M -> string -> bool * M;
  m3_id : M -> string;
  m3_title : M -> string;
  m3_Reset : M -> M;
  m3_RunFrame : M -> M;
  m3_SaveState : M -> BF -> BF;
  m3_LoadState : M -> BF -> M * BF;
  m3_SaveNVRAM : M -> BF -> BF;
  m3_LoadNVRAM : M -> BF -> M * BF;
  m3_ClearNVRAM : M -> M
}.

(** ** Observable calls *)

(** An event is a call that the code of Main.cpp writes out.  The
    destructor of the automatic [CBlockFile] of a manager, which C++ runs
    at every return of the manager and whose code is outside this file, is
    not an event: [EvFileClose] is a call of [Close()] and nothing else,
    and no statement says whether a file is still open once a manager has
    returned. *)

Inductive Obj : Type := ObjModel3 | ObjRender2D | ObjRender3D.

Inductive Event : Type :=
| EvNew (o : Obj)
| EvDelete (o : Obj)
| EvOpenAudio
| EvCloseAudio
| EvFileOpen (path : string)      (* CBlockFile::Create or Load returned OKAY *)
| EvFileClose (path : string)     (* CBlockFile::Close *)
| EvSaveState                     (* Model3->SaveState *)
| EvLoadState                     (* Model3->LoadState *)
| EvSaveNVRAM                     (* Model3->SaveNVRAM *)
| EvLoadNVRAM                     (* Model3->LoadNVRAM *)
| EvCallSaveNVRAM                 (* entry of the driver's SaveNVRAM() *)
| EvErrorLog (msg : string)
| EvPrint (msg : string)
| EvRunFrame
| EvSwapBuffers
| EvReset
| EvDumpState
| EvClearNVRAM
| EvMouseVisibility (visible : bool)
| EvCaption (title : string) (fps : F32.float)
| EvDelay (ms : Z).

Definition Obj_eqb (a b : Obj) : bool :=
  match a, b with
  | ObjModel3, ObjModel3 | ObjRender2D, ObjRender2D
  | ObjRender3D, ObjRender3D => true
  | _, _ => false
  end.

(** ** Configuration and session state *)

(** The fields of [g_Config] the driver reads. *)
Record Config : Type := {
  xRes : Z;
  yRes : Z;
  fullScreen : bool;
  throttle : bool;
  showFPS : bool
}.

Definition set_throttle (b : bool) (c : Config) : Config :=
  {| xRes := xRes c; yRes := yRes c; fullScreen := fullScreen c;
     throttle := b; showFPS := showFPS c |}.

(** The four locals of [Supermodel] that keep time. *)
Record FrameClock : Type := {
  prevFPSTicks : Z;
  fpsFramesElapsed : Z;
  framesElapsed : Z;
  startTicks : Z
}.

(** What one pass of the main loop reads from outside: the answer of
    [Inputs->Poll], the [Pressed()] state of each UI control and the value
    of [SDL_GetTicks()]. *)
Record Frame : Type := {
  poll_ok : bool;
  uiExit : bool;
  uiReset : bool;
  uiPause : bool;
  uiSaveState : bool;
  uiChangeSlot : bool;
  uiLoadState : bool;
  uiDumpInpState : bool;
  uiToggleCursor : bool;
  uiClearNVRAM : bool;
  uiToggleFrLimit : bool;
  ticks : Z
}.

(** What the start-up code of [Supermodel] reads from outside. *)
Record Startup : Type := {
  zipFile : string;
  video : VideoEnv;
  audio_ok : bool;       (* OpenAudio() returned OKAY *)
  render2D_ok : bool;    (* Render2D->Init returned OKAY *)
  render3D_ok : bool;    (* Render3D->Init returned OKAY *)
  ticks0 : Z             (* SDL_GetTicks() before the loop *)
}.

Record Session (M FS : Type) : Type := {
  Model3 : M;
  files : FS;
  g_Config : Config;
  quit : bool;
  paused : bool;
  showCursor : bool;
  saveSlot : Z;
  clock : FrameClock;
  trace : list Event
}.

Arguments Model3 {M FS} _.
Arguments files {M FS} _.
Arguments g_Config {M FS} _.
Arguments quit {M FS} _.
Arguments paused {M FS} _.
Arguments showCursor {M FS} _.
Arguments saveSlot {M FS} _.
Arguments clock {M FS} _.
Arguments trace {M FS} _.

(** The session states of the specification, read off the two flags. *)
Inductive SessionState : Type := Running | Paused | Quit.

Definition state_of {M FS} (s : Session M FS) : SessionState :=
  if quit s then Quit else if paused s then Paused else Running.

Section Setters.
Context {M FS : Type}.
Definition set_Model3 (m : M) (s : Session M FS) : Session M FS :=
  {| Model3 := m; files := files s; g_Config := g_Config s; quit := quit s;
     paused := paused s; showCursor := showCursor s; saveSlot := saveSlot s;
     clock := clock s; trace := trace s |}.

Definition set_files (f : FS) (s : Session M FS) : Session M FS :=
  {| Model3 := Model3 s; files := f; g_Config := g_Config s; quit := quit s;
     paused := paused s; showCursor := showCursor s; saveSlot := saveSlot s;
     clock := clock s; trace := trace s |}.

Definition set_config (c : Config) (s : Session M FS) : Session M FS :=
  {| Model3 := Model3 s; files := files s; g_Config := c; quit := quit s;
     paused := paused s; showCursor := showCursor s; saveSlot := saveSlot s;
     clock := clock s; trace := trace s |}.

Definition set_quit (b : bool) (s : Session M FS) : Session M FS :=
  {| Model3 := Model3 s; files := files s; g_Config := g_Config s; quit := b;
     paused := paused s; showCursor := showCursor s; saveSlot := saveSlot s;
     clock := clock s; trace := trace s |}.

Definition set_paused (b : bool) (s : Session M FS) : Session M FS :=
  {| Model3 := Model3 s; files := files s; g_Config := g_Config s;
     quit := quit s; paused := b; showCursor := showCursor s;
     saveSlot := saveSlot s; clock := clock s; trace := trace s |}.

Definition set_showCursor (b : bool) (s : Session M FS) : Session M FS :=
  {| Model3 := Model3 s; files := files s; g_Config := g_Config s;
     quit := quit s; paused := paused s; showCursor := b;
     saveSlot := saveSlot s; clock := clock s; trace := trace s |}.

Definition set_saveSlot (n : Z) (s : Session M FS) : Session M FS :=
  {| Model3 := Model3 s; files := files s; g_Config := g_Config s;
     quit := quit s; paused := paused s; showCursor := showCursor s;
     saveSlot := n; clock := clock s; trace := trace s |}.

Definition set_clock (c : FrameClock) (s : Session M FS) : Session M FS :=
  {| Model3 := Model3 s; files := files s; g_Config := g_Config s;
     quit := quit s; paused := paused s; showCursor := showCursor s;
     saveSlot := saveSlot s; clock := c; trace := trace s |}.

(** The trace is chronological: a call is appended at its end. *)
Definition log (e : Event) (s : Session M FS) : Session M FS :=
  {| Model3 := Model3 s; files := files s; g_Config := g_Config s;
     quit := quit s; paused := paused s; showCursor := showCursor s;
     saveSlot := saveSlot s; clock := clock s; trace := trace s ++ [e] |}.

End Setters.

(** ** Save states and NVRAM *)

Definition STATE_FILE_VERSION : Z := 1.
Definition NVRAM_FILE_VERSION : Z := 0.

(** [%d] applied to an [unsigned]: the bits are printed as an [int]. *)
Definition print_d (n : Z) : string :=
  NilZero.string_of_int
    (Z.to_int (if n <? 2 ^ 31 then n else n - U32.modulus)).

(** [sprintf(filePath, "Saves/%s.st%d", id, saveSlot)] *)
Definition state_path (id : string) (slot : Z) : string :=
  ("Saves/" ++ id ++ ".st" ++ print_d slot)%string.

(** [sprintf(filePath, "NVRAM/%s.nv", id)] *)
Definition nvram_path (id : string) : string :=
  ("NVRAM/" ++ id ++ ".nv")%string.

Section Driver.

Context {M FS BF : Type}.
Context {BFO : BlockFileOps FS BF} {M3O : Model3Ops M BF}.

(** The macro [SUPERMODEL_VERSION] of Supermodel.h. *)
Variable SUPERMODEL_VERSION : string.

Definition SaveState (s : Session M FS) : Session M FS :=
  let filePath := state_path (m3_id (Model3 s)) (saveSlot s) in
  match bf_Create (files s) filePath "Supermodel Save State"
          ("Supermodel Version " ++ SUPERMODEL_VERSION) with
  | None =>
      log (EvErrorLog ("Unable to save state to " ++ filePath ++ ".")) s
  | Some bf =>
      let s := log (EvFileOpen filePath) s in
      let bf := bf_WriteInt bf STATE_FILE_VERSION in
      let bf := bf_WriteString bf (m3_id (Model3 s)) in
      let bf := m3_SaveState (Model3 s) bf in
      let s := log EvSaveState s in
      let s := log (EvFileClose filePath) (set_files (bf_Close (files s) bf) s) in
      log (EvPrint ("Saved state to " ++ filePath ++ ".")) s
  end.

Definition LoadState (s : Session M FS) : Session M FS :=
  let filePath := state_path (m3_id (Model3 s)) (saveSlot s) in
  match bf_Load (files s) filePath with
  | None =>
      log (EvErrorLog ("Unable to load state from " ++ filePath ++ ".")) s
  | Some bf =>
      let s := log (EvFileOpen filePath) s in
      let '(found, bf) := bf_FindBlock bf "Supermodel Save State" in
      if negb found then
        log (EvErrorLog
               (filePath ++ " does not appear to be a valid save state file.")) s
      else
        let '(fileVersion, bf) := bf_ReadInt bf in
        if negb (fileVersion =? STATE_FILE_VERSION) then
          log (EvErrorLog
                 (filePath ++ " is incompatible with this version of Supermodel.")) s
        else
          let '(m, bf) := m3_LoadState (Model3 s) bf in
          let s := log EvLoadState (set_Model3 m s) in
          let s := log (EvFileClose filePath) (set_files (bf_Close (files s) bf) s) in
          log (EvPrint ("Loaded state from " ++ filePath ++ ".")) s
  end.

Definition SaveNVRAM (s : Session M FS) : Session M FS :=
  let s := log EvCallSaveNVRAM s in
  let filePath := nvram_path (m3_id (Model3 s)) in
  match bf_Create (files s) filePath "Supermodel NVRAM State"
          ("Supermodel Version " ++ SUPERMODEL_VERSION) with
  | None =>
      log (EvErrorLog ("Unable to save NVRAM to " ++ filePath
                       ++ ". Make sure directory exists!")) s
  | Some bf =>
      let s := log (EvFileOpen filePath) s in
      let bf := bf_WriteInt bf NVRAM_FILE_VERSION in
      let bf := bf_WriteString bf (m3_id (Model3 s)) in
      let bf := m3_SaveNVRAM (Model3 s) bf in
      let s := log EvSaveNVRAM s in
      log (EvFileClose filePath) (set_files (bf_Close (files s) bf) s)
  end.

Definition LoadNVRAM (s : Session M FS) : Session M FS :=
  let filePath := nvram_path (m3_id (Model3 s)) in
  match bf_Load (files s) filePath with
  | None => s
  | Some bf =>
      let s := log (EvFileOpen filePath) s in
      let '(found, bf) := bf_FindBlock bf "Supermodel NVRAM State" in
      if negb found then
        log (EvErrorLog
               (filePath ++ " does not appear to be a valid NVRAM file.")) s
      else
        let '(fileVersion, bf) := bf_ReadInt bf in
        if negb (fileVersion =? NVRAM_FILE_VERSION) then
          log (EvErrorLog
                 (filePath ++ " is incompatible with this version of Supermodel.")) s
        else
          let '(m, bf) := m3_LoadNVRAM (Model3 s) bf in
          let s := log EvLoadNVRAM (set_Model3 m s) in
          log (EvFileClose filePath) (set_files (bf_Close (files s) bf) s)
  end.

(** ** The main loop *)

(** Lines 569-576: one emulated frame and a buffer swap, unless paused. *)
Definition run_frame (s : Session M FS) : Session M FS :=
  if paused s then s
  else log EvSwapBuffers
         (log EvRunFrame (set_Model3 (m3_RunFrame (Model3 s)) s)).

(** Lines 579-580. *)
Definition poll_inputs (f : Frame) (s : Session M FS) : Session M FS :=
  if poll_ok f then s else set_quit true s.

(** Lines 597-665: the [if]/[else if] chain over the UI controls. *)
Definition ui_controls (f : Frame) (s : Session M FS) : Session M FS :=
  if uiExit f then set_quit true s
  else if uiReset f then
    log (EvPrint "Model 3 reset.")
      (log EvReset (set_Model3 (m3_Reset (Model3 s)) s))
  else if uiPause f then set_paused (negb (paused s)) s
  else if uiSaveState f then SaveState s
  else if uiChangeSlot f then
    let slot := U32.incr (saveSlot s) mod 10 in
    log (EvPrint ("Save slot: " ++ print_d slot)) (set_saveSlot slot s)
  else if uiLoadState f then LoadState s
  else if uiDumpInpState f then log EvDumpState s
  else if uiToggleCursor f && fullScreen (g_Config s) then
    let c := negb (showCursor s) in
    log (EvMouseVisibility c) (set_showCursor c s)
  else if uiClearNVRAM f then
    log (EvPrint "NVRAM cleared.")
      (log EvClearNVRAM (set_Model3 (m3_ClearNVRAM (Model3 s)) s))
  else if uiToggleFrLimit f then
    let t := negb (throttle (g_Config s)) in
    log (EvPrint ("Frame limiting: " ++ if t then "On" else "Off"))
      (set_config (set_throttle t (g_Config s)) s)
  else s.

(** The rate written into the caption:
    [(float)fpsFramesElapsed*(float)(currentFPSTicks-prevFPSTicks)/1000.0f]. *)
Definition fps_value (frames elapsed : Z) : F32.float :=
  F32.div (F32.mul (F32.of_unsigned frames) (F32.of_unsigned elapsed))
          (F32.of_unsigned 1000).

(** Lines 681-691. *)
Definition fps_display (titleStr : string) (currentFPSTicks : Z)
    (s : Session M FS) : Session M FS :=
  if showFPS (g_Config s) then
    let c := clock s in
    let n := U32.incr (fpsFramesElapsed c) in
    let elapsed := U32.sub currentFPSTicks (prevFPSTicks c) in
    if 1000 <=? elapsed then
      log (EvCaption titleStr (fps_value n elapsed))
        (set_clock {| prevFPSTicks := currentFPSTicks;
                      fpsFramesElapsed := 0;
                      framesElapsed := framesElapsed c;
                      startTicks := startTicks c |} s)
    else
      set_clock {| prevFPSTicks := prevFPSTicks c;
                   fpsFramesElapsed := n;
                   framesElapsed := framesElapsed c;
                   startTicks := startTicks c |} s
  else s.

(** [(unsigned) ((float)framesElapsed * 1000.0f/60.0f)] *)
Definition frame_offset (framesElapsed : Z) : option Z :=
  F32.to_unsigned
    (F32.div (F32.mul (F32.of_unsigned framesElapsed) (F32.of_unsigned 1000))
             (F32.of_unsigned 60)).

(** Lines 694-705; [None] when the conversion to [unsigned] is undefined. *)
Definition frame_limit (currentTicks : Z) (s : Session M FS)
    : option (Session M FS) :=
  if paused s || throttle (g_Config s) then
    let c := clock s in
    let n := U32.incr (framesElapsed c) in
    match frame_offset n with
    | None => None
    | Some d =>
        let targetTicks := U32.add (startTicks c) d in
        if currentTicks <=? targetTicks then
          Some (log (EvDelay (U32.sub targetTicks currentTicks))
                  (set_clock {| prevFPSTicks := prevFPSTicks c;
                                fpsFramesElapsed := fpsFramesElapsed c;
                                framesElapsed := n;
                                startTicks := startTicks c |} s))
        else
          Some (set_clock {| prevFPSTicks := prevFPSTicks c;
                             fpsFramesElapsed := fpsFramesElapsed c;
                             framesElapsed := 0;
                             startTicks := currentTicks |} s)
    end
  else Some s.

(** One pass through the body of [while (!quit)]. *)
Definition iteration (titleStr : string) (f : Frame) (s : Session M FS)
    : option (Session M FS) :=
  let s := run_frame s in
  let s := poll_inputs f s in
  let s := ui_controls f s in
  let s := fps_display titleStr (ticks f) s in
  frame_limit (ticks f) s.

(** How a run of the loop over the given passes ends. *)
Inductive LoopResult : Type :=
| LoopExit (s : Session M FS)        (* [quit] was found set *)
| LoopSpinning (s : Session M FS)    (* the passes given are used up *)
| LoopUndefined.

Fixpoint main_loop (titleStr : string) (frames : list Frame)
    (s : Session M FS) : LoopResult :=
  if quit s then LoopExit s
  else
    match frames with
    | [] => LoopSpinning s
    | f :: rest =>
        match iteration titleStr f s with
        | Some s' => main_loop titleStr rest s'
        | None => LoopUndefined
        end
    end.

(** ** The driver *)

Inductive Run : Type :=
| Returned (code : Z) (s : Session M FS)
| StillRunning (s : Session M FS)
| UndefinedBehaviour.

(** The label [QuitError]. *)
Definition QuitError (s : Session M FS) : Run :=
  Returned 1
    (log (EvDelete ObjRender3D)
       (log (EvDelete ObjRender2D) (log (EvDelete ObjModel3) s))).

(** Lines 717-757: what follows the loop. *)
Definition shut_down (s : Session M FS) : Run :=
  let s := SaveNVRAM s in
  let s := log EvCloseAudio s in
  Returned 0
    (log (EvDelete ObjRender3D)
       (log (EvDelete ObjRender2D) (log (EvDelete ObjModel3) s))).

(** Lines 493-565 of [Supermodel(zipFile, Inputs, CmdLine)]: everything
    before the loop.  [cfg] is [g_Config] as [ReadConfigFile] and
    [ApplySettings] leave it, [slot] the value of the static [saveSlot] at
    the call, [fs] the file system and [st] what the start-up code reads
    from outside.  The answer is either the early return taken or the
    caption and the session with which the loop is entered. *)
Definition start_up (cfg : Config) (slot : Z) (fs : FS) (st : Startup)
    : Run + string * Session M FS :=
  let s := {| Model3 := m3_new; files := fs; g_Config := cfg;
              quit := false; paused := false; showCursor := false;
              saveSlot := slot;
              clock := {| prevFPSTicks := 0; fpsFramesElapsed := 0;
                          framesElapsed := 0; startTicks := 0 |};
              trace := [EvNew ObjModel3; EvNew ObjRender2D; EvNew ObjRender3D] |} in
  let '(ok, m) := m3_Init (Model3 s) in
  let s := set_Model3 m s in
  if negb ok then inl (Returned 1 s)
  else
    let '(ok, m) := m3_LoadROMSet (Model3 s) (zipFile st) in
    let s := set_Model3 m s in
    if negb ok then inl (Returned 1 s)
    else
      let s := LoadNVRAM s in
      let titleStr := ("Supermodel - " ++ m3_title (Model3 s))%string in
      match CreateGLScreen (video st) (xRes cfg) (yRes cfg) true
              (fullScreen cfg) with
      | Undefined => inl UndefinedBehaviour
      | Fail => inl (Returned 1 s)
      | Okay _ =>
          if negb (audio_ok st) then inl (Returned 1 s)
          else
            let s := log EvOpenAudio s in
            let s := log (EvMouseVisibility (negb (fullScreen cfg))) s in
            if negb (render2D_ok st) then inl (QuitError s)
            else if negb (render3D_ok st) then inl (QuitError s)
            else
              let s := log EvReset (set_Model3 (m3_Reset (Model3 s)) s) in
              inr (titleStr,
                   set_clock {| prevFPSTicks := ticks0 st;
                                fpsFramesElapsed := 0;
                                framesElapsed := 0;
                                startTicks := ticks0 st |} s)
      end.

(** [Supermodel(zipFile, Inputs, CmdLine)], with [frames] what the passes
    of the loop read from outside. *)
Definition Supermodel (cfg : Config) (slot : Z) (fs : FS) (st : Startup)
    (frames : list Frame) : Run :=
  match start_up cfg slot fs st with
  | inl r => r
  | inr (titleStr, s) =>
      match main_loop titleStr frames s with
      | LoopExit s => shut_down s
      | LoopSpinning s => StillRunning s
      | LoopUndefined => UndefinedBehaviour
      end
  end.

End Driver.

Arguments LoopExit {M FS} s.
Arguments LoopSpinning {M FS} s.
Arguments LoopUndefined {M FS}.
Arguments Returned {M FS} code s.
Arguments StillRunning {M FS} s.
Arguments UndefinedBehaviour {M FS}.

(** ** A reference implementation of the two interfaces

    A block file is a list of named blocks of integers and strings, a disk
    maps paths to block files, and the machine has one word of work RAM
    and one of NVRAM.  The driver is run on it at concrete inputs. *)

Module Bench.

Inductive Item : Type := ItemInt (z : Z) | ItemStr (s : string).

Record Block : Type := { blk_name : string; blk_data : list Item }.

Record Disk : Type := {
  entries : list (string * list Block);
  writable : bool
}.

Record Handle : Type := {
  h_path : string;
  h_blocks : list Block;
  h_cursor : list Item
}.

Fixpoint lookup (path : string) (l : list (string * list Block))
    : option (list Block) :=
  match l with
  | [] => None
  | (p, b) :: rest => if String.eqb p path then Some b else lookup path rest
  end.

Fixpoint append_item (i : Item) (bs : list Block) : list Block :=
  match bs with
  | [] => []
  | [b] => [{| blk_name := blk_name b; blk_data := blk_data b ++ [i] |}]
  | b :: rest => b :: append_item i rest
  end.

Definition write (i : Item) (h : Handle) : Handle :=
  {| h_path := h_path h; h_blocks := append_item i (h_blocks h);
     h_cursor := h_cursor h |}.

Definition new_block (name : string) (h : Handle) : Handle :=
  {| h_path := h_path h;
     h_blocks := h_blocks h ++ [{| blk_name := name; blk_data := [] |}];
     h_cursor := h_cursor h |}.

Definition find_block (h : Handle) (name : string) : bool * Handle :=
  match find (fun b => String.eqb (blk_name b) name) (h_blocks h) with
  | Some b => (true, {| h_path := h_path h; h_blocks := h_blocks h;
                        h_cursor := blk_data b |})
  | None => (false, h)
  end.

Definition read_int (h : Handle) : Z * Handle :=
  match h_cursor h with
  | ItemInt z :: rest =>
      (z, {| h_path := h_path h; h_blocks := h_blocks h; h_cursor := rest |})
  | _ => (-1, h)
  end.

#[global] Instance disk_ops : BlockFileOps Disk Handle := {|
  bf_Create d path name comment :=
    if writable d
    then Some {| h_path := path;
                 h_blocks := [{| blk_name := name; blk_data := [] |}];
                 h_cursor := [] |}
    else None;
  bf_Load d path :=
    match lookup path (entries d) with
    | Some bs => Some {| h_path := path; h_blocks := bs; h_cursor := [] |}
    | None => None
    end;
  bf_FindBlock := find_block;
  bf_ReadInt := read_int;
  bf_WriteInt h z := write (ItemInt z) h;
  bf_WriteString h s := write (ItemStr s) h;
  bf_Close d h :=
    {| entries := (h_path h, h_blocks h) :: entries d;
       writable := writable d |}
|}.

Record Machine : Type := { ram : Z; nvram : Z }.

#[global] Instance machine_ops : Model3Ops Machine Handle := {|
  m3_new := {| ram := 0; nvram := 0 |};
  m3_Init m := (true, m);
  m3_LoadROMSet m zip := (negb (String.eqb zip ""), m);
  m3_id _ := "scud"%string;
  m3_title _ := "Scud Race"%string;
  m3_Reset m := {| ram := 0; nvram := nvram m |};
  m3_RunFrame m := {| ram := ram m + 1; nvram := nvram m + 1 |};
  m3_SaveState m h :=
    write (ItemInt (nvram m)) (write (ItemInt (ram m)) (new_block "Model3" h));
  m3_LoadState m h :=
    let '(found, h) := find_block h "Model3" in
    let '(r, h) := read_int h in
    let '(n, h) := read_int h in
    (if found then {| ram := r; nvram := n |} else m, h);
  m3_SaveNVRAM m h := write (ItemInt (nvram m)) (new_block "NVRAM" h);
  m3_LoadNVRAM m h :=
    let '(found, h) := find_block h "NVRAM" in
    let '(n, h) := read_int h in
    (if found then {| ram := ram m; nvram := n |} else m, h);
  m3_ClearNVRAM m := {| ram := ram m; nvram := 0 |}
|}.

Definition empty_disk : Disk := {| entries := []; writable := true |}.

Definition config : Config :=
  {| xRes := 640; yRes := 480; fullScreen := false; throttle := true;
     showFPS := true |}.

Definition desktop : VideoEnv :=
  {| video_init_ok := true; video_mode_ok := true;
     current_w := 640; current_h := 480; glew_ok := true |}.

Definition startup : Startup :=
  {| zipFile := "scud.zip"; video := desktop; audio_ok := true;
     render2D_ok := true; render3D_ok := true; ticks0 := 100 |}.

(** A pass in which the poll succeeds and no control is pressed. *)
Definition idle (t : Z) : Frame :=
  {| poll_ok := true; uiExit := false; uiReset := false; uiPause := false;
     uiSaveState := false; uiChangeSlot := false; uiLoadState := false;
     uiDumpInpState := false; uiToggleCursor := false;
     uiClearNVRAM := false; uiToggleFrLimit := false; ticks := t |}.

Definition press_exit (t : Z) : Frame :=
  {| poll_ok := true; uiExit := true; uiReset := false; uiPause := false;
     uiSaveState := false; uiChangeSlot := false; uiLoadState := false;
     uiDumpInpState := false; uiToggleCursor := false;
     uiClearNVRAM := false; uiToggleFrLimit := false; ticks := t |}.

Definition session0 : Session Machine Disk :=
  {| Model3 := m3_new; files := empty_disk; g_Config := config;
     quit := false; paused := false; showCursor := false; saveSlot := 0;
     clock := {| prevFPSTicks := 100; fpsFramesElapsed := 0;
                 framesElapsed := 0; startTicks := 100 |};
     trace := [] |}.

(** A paused session, 59 passes into its sample window. *)
Definition session_paused : Session Machine Disk :=
  {| Model3 := m3_new; files := empty_disk; g_Config := config;
     quit := false; paused := true; showCursor := false; saveSlot := 0;
     clock := {| prevFPSTicks := 100; fpsFramesElapsed := 59;
                 framesElapsed := 59; startTicks := 100 |};
     trace := [] |}.



(** A disk whose slot-0 save state lacks the header block and whose NVRAM
    file carries format version 7. *)
Definition bad_disk : Disk :=
  {| entries :=
       [("Saves/scud.st0"%string,
         [{| blk_name := "Model3"; blk_data := [ItemInt 5; ItemInt 6] |}]);
        ("NVRAM/scud.nv"%string,
         [{| blk_name := "Supermodel NVRAM State";
             blk_data := [ItemInt 7; ItemStr "scud"] |};
          {| blk_name := "NVRAM"; blk_data := [ItemInt 9] |}])];
     writable := true |}.

Definition session_bad : Session Machine Disk :=
  {| Model3 := {| ram := 41; nvram := 42 |}; files := bad_disk;
     g_Config := config;
     quit := false; paused := false; showCursor := false; saveSlot := 0;
     clock := {| prevFPSTicks := 100; fpsFramesElapsed := 0;
                 framesElapsed := 0; startTicks := 100 |};
     trace := [] |}.

(** A start in which the 2D renderer fails to initialise. *)
Definition startup_no_renderer : Startup :=
  {| zipFile := "scud.zip"; video := desktop; audio_ok := true;
     render2D_ok := false; render3D_ok := true; ticks0 := 100 |}.

(** The session with which the driver returns from a run of two passes,
    the second with Exit asserted. *)
Definition final_session : Session Machine Disk :=
  Eval vm_compute in
    match Supermodel "0.2a" config 0 empty_disk startup
            [idle 102; press_exit 118] with
    | Returned _ s => s
    | _ => session0
    end.


End Bench.

(** ** The UI commands as the specification lists them *)




Section Dispatch.

Context {M FS BF : Type}.
Context {BFO : BlockFileOps FS BF} {M3O : Model3Ops M BF}.
Variable SUPERMODEL_VERSION : string.





End Dispatch.

(** ** Counting calls in a trace *)

Definition count (p : Event -> bool) (t : list Event) : nat :=
  List.length (filter p t).

Definition is_CallSaveNVRAM (e : Event) : bool :=
  match e with EvCallSaveNVRAM => true | _ => false end.

Definition is_OpenAudio (e : Event) : bool :=
  match e with EvOpenAudio => true | _ => false end.

Definition is_CloseAudio (e : Event) : bool :=
  match e with EvCloseAudio => true | _ => false end.

Definition is_Delete (o : Obj) (e : Event) : bool :=
  match e with EvDelete o' => Obj_eqb o o' | _ => false end.

Definition is_New (o : Obj) (e : Event) : bool :=
  match e with EvNew o' => Obj_eqb o o' | _ => false end.

Definition is_RunFrame (e : Event) : bool :=
  match e with EvRunFrame | EvSwapBuffers => true | _ => false end.

Definition is_deserialize (e : Event) : bool :=
  match e with EvLoadState | EvLoadNVRAM => true | _ => false end.

(** The calls only the code around the loop makes. *)
Definition outside_loop (e : Event) : bool :=
  match e with
  | EvNew _ | EvDelete _ | EvOpenAudio | EvCloseAudio | EvCallSaveNVRAM
  | EvSaveNVRAM | EvLoadNVRAM => true
  | _ => false
  end.

(** [extends p s s'] : the trace of [s'] is that of [s] followed by calls
    that all satisfy [p]. *)

Definition extends {M FS : Type} (p : Event -> bool) (s s' : Session M FS)
    : Prop :=
  exists extra, trace s' = trace s ++ extra /\ forallb p extra = true.


(** ** The managers by kind of container *)

(** The two kinds of container. *)
Inductive Kind : Type := SaveStateKind | NVRAMKind.

Definition block_name (k : Kind) : string :=
  match k with
  | SaveStateKind => "Supermodel Save State"
  | NVRAMKind => "Supermodel NVRAM State"
  end.

Definition file_version (k : Kind) : Z :=
  match k with
  | SaveStateKind => STATE_FILE_VERSION
  | NVRAMKind => NVRAM_FILE_VERSION
  end.

Section ManagersByKind.

Context {M FS BF : Type}.
Context {BFO : BlockFileOps FS BF} {M3O : Model3Ops M BF}.
Variable SUPERMODEL_VERSION : string.

Definition container_path (k : Kind) (s : Session M FS) : string :=
  match k with
  | SaveStateKind => state_path (m3_id (Model3 s)) (saveSlot s)
  | NVRAMKind => nvram_path (m3_id (Model3 s))
  end.

Definition load (k : Kind) (s : Session M FS) : Session M FS :=
  match k with
  | SaveStateKind => LoadState s
  | NVRAMKind => LoadNVRAM s
  end.

Definition save (k : Kind) (s : Session M FS) : Session M FS :=
  match k with
  | SaveStateKind => SaveState SUPERMODEL_VERSION s
  | NVRAMKind => SaveNVRAM SUPERMODEL_VERSION s
  end.

(** The header checks of a load: the top-level block is found and the
    integer read from it is the version of this build. *)
Definition header_ok (bf : BF) (k : Kind) : bool :=
  let '(found, bf') := bf_FindBlock bf (block_name k) in
  found && (fst (bf_ReadInt bf') =? file_version k).

(** The flags, the slot, the clock and the configuration. *)
Definition same_controls (s s' : Session M FS) : Prop :=
  quit s' = quit s /\ paused s' = paused s /\ showCursor s' = showCursor s
  /\ saveSlot s' = saveSlot s /\ clock s' = clock s
  /\ g_Config s' = g_Config s.

End ManagersByKind.

(** ** Calls by where they are made *)

(** The calls the UI commands make. *)
Definition ui_event (e : Event) : bool :=
  match e with
  | EvFileOpen _ | EvFileClose _ | EvSaveState | EvLoadState | EvErrorLog _
  | EvPrint _ | EvReset | EvDumpState | EvClearNVRAM | EvMouseVisibility _ =>
      true
  | _ => false
  end.

Definition is_Caption (e : Event) : bool :=
  match e with EvCaption _ _ => true | _ => false end.

Definition is_Delay (e : Event) : bool :=
  match e with EvDelay _ => true | _ => false end.

(** The calls a pass of the loop makes while paused, and in general. *)
Definition paused_event (e : Event) : bool :=
  ui_event e || is_Caption e || is_Delay e.

Definition loop_event (e : Event) : bool :=
  paused_event e || is_RunFrame e.

(** [Running] and [Paused] exchanged. *)
Definition flip_pause (st : SessionState) : SessionState :=
  match st with
  | Running => Paused
  | Paused => Running
  | Quit => Quit
  end.

(** ** Checking a predicate on a range of integers *)

(** [all_range f n base]: [f] holds on [base], ..., [base + n - 1]. *)
Fixpoint all_range (f : Z -> bool) (n : positive) (base : Z) : bool :=
  match n with
  | xH => f base
  | xO p => all_range f p base && all_range f p (base + Zpos p)
  | xI p =>
      f base && all_range f p (base + 1) && all_range f p (base + 1 + Zpos p)
  end.

(** ** Tabulated checks of the float expressions *)

(** The frame offset is the integer quotient [n * 1000 / 60]. *)
Definition frame_offset_check (n : Z) : bool :=
  match frame_offset n with
  | Some d => d =? n * 1000 / 60
  | None => false
  end.

(** ** The exit contract of the specification

    Section 4.2: on every exit path NVRAM is persisted exactly once and
    all acquired resources are released.  On the trace of a session that
    has returned: one entry of [SaveNVRAM], as many [CloseAudio] as
    [OpenAudio], and every object created by [new] deleted once. *)
Definition saves_once_and_releases {M FS : Type} (s : Session M FS) : Prop :=
  count is_CallSaveNVRAM (trace s) = 1%nat
  /\ count is_CloseAudio (trace s) = count is_OpenAudio (trace s)
  /\ forall o, count (is_New o) (trace s) = 1%nat
               /\ count (is_Delete o) (trace s) = 1%nat.

(** The calls of [LoadNVRAM]. *)
Definition nvram_load_event (e : Event) : bool :=
  match e with
  | EvFileOpen _ | EvFileClose _ | EvLoadNVRAM | EvErrorLog _ => true
  | _ => false
  end.

(** The calls made before the loop is entered. *)
Definition start_event (e : Event) : bool :=
  match e with
  | EvFileOpen _ | EvFileClose _ | EvLoadNVRAM | EvErrorLog _
  | EvMouseVisibility _ | EvReset => true
  | _ => false
  end.

(** The calls of [SaveNVRAM] after its entry. *)
Definition save_nvram_event (e : Event) : bool :=
  match e with
  | EvFileOpen _ | EvFileClose _ | EvSaveNVRAM | EvErrorLog _ => true
  | _ => false
  end.

(** The calls counted by the exit contract are made neither by
    [LoadNVRAM], nor in the loop, nor inside [SaveNVRAM] after its entry. *)
Definition exit_counted (q : Event -> bool) : Prop :=
  forall e,
    match e with
    | EvNew _ | EvDelete _ | EvOpenAudio | EvCloseAudio | EvCallSaveNVRAM =>
        True
    | _ => q e = false
    end.

(** ** The aspect ratio: the contract and the tabulated checks *)

(** The resolved size has the ratio 496/384 within integer rounding: the
    height is less than one pixel away from width * 384 / 496. *)
Definition ratio_within_rounding (w h : Z) : Prop :=
  Z.abs (384 * w - 496 * h) < 496.

(** The testable property of section 8 for a request [(w, h)]. *)
Definition aspect_contract (w h : Z) (g : Geometry) : Prop :=
  ratio_within_rounding (g_xRes g) (g_yRes g)
  /\ g_xOffset g + g_xRes g <= w
  /\ g_yOffset g + g_yRes g <= h.

(** [xRes/model3Ratio] and [yRes*model3Ratio] on a requested size. *)
Definition div_ratio (w : Z) : F32.float :=
  F32.div (F32.of_unsigned w) model3Ratio.

Definition mul_ratio (h : Z) : F32.float :=
  F32.mul (F32.of_unsigned h) model3Ratio.

(** The largest integer strictly below a positive float. *)
Definition below (f : F32.float) : Z := Z.shiftr (F32.scaled f - 1) 24.

(** [(unsigned) f] with -1 for an undefined conversion. *)
Definition unsigned_of (f : F32.float) : Z :=
  match F32.to_unsigned f with
  | Some a => a
  | None => -1
  end.

(** The width resolved for a height, [(unsigned) (yRes*model3Ratio)], and
    the height resolved for a width, [(unsigned) (xRes/model3Ratio)]. *)
Definition width_for (h : Z) : Z := unsigned_of (mul_ratio h).

Definition height_for (w : Z) : Z := unsigned_of (div_ratio w).

(** [(float) n] is exact and converts back to [n]. *)
Definition check_int (n : Z) : bool :=
  let f := F32.of_unsigned n in
  F32.normal_pos f
  && (F32.scaled f =? Z.shiftl n 24)
  && (unsigned_of f =? n).

(** What the proof uses about a width [w]. *)
Definition check_width (w : Z) : bool :=
  let g := div_ratio w in
  let b := unsigned_of g in
  let lo := below g in
  check_int w
  && F32.normal_pos g
  && (0 <=? b)
  && (b <=? lo + 1)
  && (Z.abs (384 * w - 496 * b) <? 496)
  && (24 * w <=? 31 * (lo + 1))
  && (lo <=? w)
  && ((lo =? 0) || (width_for lo <=? w)).

(** What the proof uses about a height [h]. *)
Definition check_height (h : Z) : bool :=
  let m := mul_ratio h in
  let a := unsigned_of m in
  check_int h
  && F32.normal_pos m
  && (0 <=? a)
  && (a <=? width_for (h + 1))
  && (Z.abs (384 * a - 496 * h) <? 496)
  && (31 * h <=? 24 * (below m + 1)).

(** A display mode of 1920 by 1080 obtained for a smaller request. *)
Definition desktop_1080p : VideoEnv :=
  {| video_init_ok := true; video_mode_ok := true;
     current_w := 1920; current_h := 1080; glew_ok := true |}.

(** * Further definitions: the rest of Main.cpp

    The functions of the file around the driver ([DisassembleCROM],
    [PrintGameList], [ApplySettings], [ConfigureInputs], the command line
    of [main]) and what the properties of the driver below need. *)

From Stdlib Require Strings.Byte.

(** ** Pacing over several passes *)

Section PacingRuns.

Context {M FS : Type}.

(** The frame limiter of consecutive passes, given the tick read in
    each. *)
Fixpoint pace (ticks : list Z) (s : Session M FS) : option (Session M FS) :=
  match ticks with
  | [] => Some s
  | t :: rest =>
      match frame_limit t s with
      | Some s' => pace rest s'
      | None => None
      end
  end.

(** The delays of a run of passes that are all on time: the pass of frame
    index [i] that ends at tick [t] sleeps until [start + i * 1000 / 60]. *)
Fixpoint schedule (start index : Z) (ticks : list Z) : list Event :=
  match ticks with
  | [] => []
  | t :: rest =>
      EvDelay (start + (index + 1) * 1000 / 60 - t)
        :: schedule start (index + 1) rest
  end.

(** Every pass ends no later than its target. *)
Fixpoint on_time (start index : Z) (ticks : list Z) : Prop :=
  match ticks with
  | [] => True
  | t :: rest =>
      0 <= t <= start + (index + 1) * 1000 / 60
      /\ on_time start (index + 1) rest
  end.

End PacingRuns.

(** ** The aspect ratio in closed form: further tabulated checks *)

(** The height resolved for a width is the integer quotient, and no
    integer above it lies below [xRes/model3Ratio]. *)
Definition check_width_exact (w : Z) : bool :=
  let g := div_ratio w in
  (unsigned_of g =? 24 * w / 31) && (31 * below g <=? 24 * w).

(** The width resolved for a height is the integer quotient, or one less
    for some heights that are multiples of 24. *)
Definition check_height_exact (h : Z) : bool :=
  let a := width_for h in
  (a =? 31 * h / 24) || ((h mod 24 =? 0) && (a =? 31 * h / 24 - 1)).

(** A request of exactly 31:24 is resolved to itself. *)
Definition check_exact_ratio (k : Z) : bool :=
  let '(x, y) :=
    fix_aspect (F32.of_unsigned (31 * k)) (F32.of_unsigned (24 * k)) in
  (unsigned_of x =? 31 * k) && (unsigned_of y =? 24 * k).

(** ** Further inputs for the reference machine *)

(** The calls of [Create] or [Load] that returned OKAY, and the calls of
    [Close()]. *)
Definition is_FileOpen (e : Event) : bool :=
  match e with EvFileOpen _ => true | _ => false end.

Definition is_FileClose (e : Event) : bool :=
  match e with EvFileClose _ => true | _ => false end.

Module Bench2.

(** The reference configuration with the throttle off. *)
Definition free_config : Config := set_throttle false Bench.config.

Definition free_session : Session Bench.Machine Bench.Disk :=
  set_config free_config Bench.session0.

End Bench2.

(** ** Diagnostic commands: [DisassembleCROM] *)

(** [0xFF800000], where the fixed CROM region is mapped, and [0x800000],
    its size. *)
Definition CROM_BASE : Z := 4286578688.
Definition CROM_WINDOW : Z := 8388608.

(** An element of the [UINT8] array as a number. *)
Definition byte_val (b : Byte.byte) : Z := Z.of_N (Byte.to_N b).

(** [(crom[addr+0]<<24) | (crom[addr+1]<<16) | (crom[addr+2]<<8) |
    crom[addr+3]], stored in a [UINT32]. *)
Definition fetch_op (crom : Z -> Byte.byte) (addr : Z) : Z :=
  U32.wrap
    (Z.lor
       (Z.lor
          (Z.lor (Z.shiftl (byte_val (crom (U32.add addr 0))) 24)
                 (Z.shiftl (byte_val (crom (U32.add addr 1))) 16))
          (Z.shiftl (byte_val (crom (U32.add addr 2))) 8))
       (byte_val (crom (U32.add addr 3)))).

(** One line of the listing: the address printed, the opcode, and what
    the disassembler made of it. *)
Inductive DisText : Type :=
| DisInvalidForm (mnem oprs : string)   (* "%08X %s*\t%s\n" *)
| DisUnknown                            (* "%08X ?\n" *)
| DisInstruction (mnem oprs : string).  (* "%08X %s\t%s\n" *)

Record DisLine : Type := {
  line_addr : Z;
  line_op : Z;
  line_text : DisText
}.

Inductive DisEvent : Type :=
| DisErrorLog (msg : string)
| DisNew                      (* new(std::nothrow) UINT8[0x8800000] *)
| DisLoadROMSet (zipFile : string)
| DisCopyRegion
| DisPrint (l : DisLine)
| DisDelete.                  (* delete [] crom *)

(** What [DisassembleCROM] reads from outside: whether the buffer is
    allocated, and the ROM set that [LoadROMSetFromZIPFile] finds, as its
    [cromSize] and the contents it leaves in the buffer. *)
Record CromEnv : Type := {
  crom_alloc_ok : bool;
  rom_set : option (Z * (Z -> Byte.byte))
}.

Section Disassembler.

(** [DisassemblePowerPC(op, addr, mnem, oprs, 1)]: whether it reports an
    error, and the two strings it fills in. *)
Variable DisassemblePowerPC : Z -> Z -> bool * string * string.

(** [CopyRegion(crom, 0, 0x800000-0x200000, &crom[0x800000], 0x800000)],
    the mirroring of a small CROM, on the contents of the buffer. *)
Variable CopyRegion : (Z -> Byte.byte) -> Z -> Byte.byte.

Definition disassemble_line (crom : Z -> Byte.byte) (addr : Z) : DisLine :=
  let op := fetch_op crom addr in
  let '(err, mnem, oprs) := DisassemblePowerPC op (U32.add addr CROM_BASE) in
  {| line_addr := U32.add addr CROM_BASE;
     line_op := op;
     line_text :=
       if err
       then match mnem with
            | EmptyString => DisUnknown
            | String _ _ => DisInvalidForm mnem oprs
            end
       else DisInstruction mnem oprs |}.

(** [while ((n > 0) && ((addr+4) <= 0x800000))], with the counter [n] as
    the number of passes left. *)
Fixpoint disassemble_loop (crom : Z -> Byte.byte) (n : nat) (addr : Z)
    : list DisLine :=
  match n with
  | O => []
  | S n' =>
      if U32.add addr 4 <=? CROM_WINDOW
      then disassemble_line crom addr
             :: disassemble_loop crom n' (U32.add addr 4)
      else []
  end.

(** [DisassembleCROM(zipFile, addr, n)]: whether it returns OKAY, and the
    calls it makes. *)
Definition DisassembleCROM (env : CromEnv) (zipFile : string) (addr n : Z)
    : bool * list DisEvent :=
  if addr <? CROM_BASE then
    (false, [DisErrorLog "Valid CROM address range is FF800000-FFFFFFFF."])
  else if negb (crom_alloc_ok env) then
    (false,
     [DisErrorLog "Insufficient memory to load CROM (need 17825792 MB)."])
  else
    match rom_set env with
    | None =>
        (false, [DisNew; DisLoadROMSet zipFile;
                 DisErrorLog "Failed to load ROM set."])
    | Some (cromSize, loaded) =>
        let mirrored := cromSize <? CROM_WINDOW in
        let crom := if mirrored then CopyRegion loaded else loaded in
        (true,
         [DisNew; DisLoadROMSet zipFile]
         ++ (if mirrored then [DisCopyRegion] else [])
         ++ map DisPrint
              (disassemble_loop crom (Z.to_nat n) (U32.sub addr CROM_BASE))
         ++ [DisDelete])
    end.

End Disassembler.

Definition is_DisNew (e : DisEvent) : bool :=
  match e with DisNew => true | _ => false end.

Definition is_DisDelete (e : DisEvent) : bool :=
  match e with DisDelete => true | _ => false end.

Definition dis_lines (t : list DisEvent) : list DisLine :=
  flat_map (fun e => match e with DisPrint l => [l] | _ => [] end) t.

(** A reference ROM set for the disassembler: an image of the size of the
    fixed region whose last word is [0x010203FF], and a decoder that
    accepts every word. *)
Module DisBench.

Definition rom (i : Z) : Byte.byte :=
  if i =? 8388604 then Byte.x01
  else if i =? 8388605 then Byte.x02
  else if i =? 8388606 then Byte.x03
  else if i =? 8388607 then Byte.xff
  else Byte.x00.

Definition decoder (op addr : Z) : bool * string * string :=
  (false, "word"%string, ""%string).

Definition mirror (image : Z -> Byte.byte) : Z -> Byte.byte := image.

Definition crom_env : CromEnv :=
  {| crom_alloc_ok := true; rom_set := Some (CROM_WINDOW, rom) |}.

Definition no_line : DisLine :=
  {| line_addr := 0; line_op := 0; line_text := DisUnknown |}.

End DisBench.

(** ** Entry point and command line processing *)

(** [Title()] and [Help()]: the lines handed to [puts], for the build
    without [SUPERMODEL_DEBUGGER] and without [DEBUG]. *)
Definition Title (SUPERMODEL_VERSION : string) : list string :=
  [("Supermodel: A Sega Model 3 Arcade Emulator (Version "
    ++ SUPERMODEL_VERSION ++ ")")%string;
   "Copyright (C) 2011 by Bart Trzynadlowski"%string;
   ""%string].

Definition Help : list string :=
  ["Usage: Supermodel <romset> [options]";
   "ROM set must be a valid ZIP file containing a single game.";
   "";
   "General Options:";
   "    -?, -h                 Print this help text";
   "    -print-games           List supported games and quit";
   "";
   "Emulation Options:";
   "    -ppc-frequency=<f>     Set PowerPC frequency in MHz [Default: 40]";
   "    -no-scsp               Disable Sega Custom Sound Processor (sound effects)";
   "    -no-dsb                Disable Digital Sound Board (MPEG music)";
   "    -multi-threaded        Enable multi-threading";
   "";
   "Video Options:";
   "    -res=<x>,<y>           Resolution";
   "    -fullscreen            Full screen mode";
   "    -no-throttle           Disable 60 Hz frame rate limit";
   "    -show-fps              Display frame rate in window title bar";
   "";
   "Audio Options:";
   "    -sound-volume=<v>      Set volume of sound effects in % [Default: 100]";
   "    -music-volume=<v>      Set volume of MPEG music in % [Default: 100]";
   "";
   "Input Options:";
   "    -input-system=<s>      Set input system [Default: SDL]";
   "    -print-inputs          Prints current input configuration";
   "    -config-inputs         Configure inputs for keyboards, mice and joysticks";
   "";
   "Diagnostic Options:";
   ("    -print-gl-info         Print extensive OpenGL information and quit"
    ++ String (ascii_of_nat 10) EmptyString)]%string.

(** The padding loop of [PrintGameList]: one space for each [j] from
    [strlen(id)] up to 8. *)
Fixpoint spaces (k : nat) : string :=
  match k with
  | O => EmptyString
  | S k' => String " " (spaces k')
  end.

(** One pass of the loop of [PrintGameList]: the three [printf]s make one
    line. *)
Definition game_line (game : string * string) : string :=
  let '(id, title) := game in
  ("    " ++ id ++ spaces (9 - String.length id) ++ "       " ++ title)%string.

(** [PrintGameList()]: the lines printed, for the entries of
    [Model3GameList] before the one whose title is [NULL], each an id and
    a title. *)
Definition PrintGameList (games : list (string * string)) : list string :=
  ["Supported games:"; ""; "    ROM Set         Title";
   "    -------         -----"]%string
  ++ map game_line games.

(** *** The C string functions of the option loop *)

(** [strncmp(a, b, n) == 0]: the first [n] characters agree, or both
    strings end, in agreement, before. *)
Definition strncmp_eq (a b : string) (n : nat) : bool :=
  String.eqb (substring 0 n a) (substring 0 n b).

(** [&s[k]], for [k] up to the length of [s]. *)
Fixpoint skip (k : nat) (s : string) : string :=
  match k, s with
  | O, _ => s
  | S k', String _ s' => skip k' s'
  | S _, EmptyString => EmptyString
  end.

(** [s[0] == '-'] *)
Definition starts_dash (s : string) : bool :=
  match s with
  | String c _ => Ascii.eqb c "-"
  | EmptyString => false
  end.

(** *** The option loop of [main] *)

(** The two kinds of value handed to [CmdLine.Set]. *)
Inductive SetValue : Type :=
| SetNum (v : Z)
| SetText (s : string).

Inductive ArgEvent : Type :=
| ArgError (msg : string)                  (* ErrorLog *)
| ArgSet (key : string) (v : SetValue).    (* CmdLine.Set("Global", key, v) *)

(** The three options that make [main] return from inside the loop. *)
Inductive Halt : Type := HaltHelp | HaltGameList | HaltGLInfo.

(** The locals of [main] that the loop writes.  [n] and [addr] are declared
    without a value: [None] until the first write. *)
Record Parse : Type := {
  fileIdx : Z;
  cmdPrintInputs : bool;
  cmdConfigInputs : bool;
  cmdDis : bool;
  var_n : option Z;
  var_addr : option Z;
  arg_events : list ArgEvent
}.

Definition parse0 : Parse :=
  {| fileIdx := 0; cmdPrintInputs := false; cmdConfigInputs := false;
     cmdDis := false; var_n := None; var_addr := None; arg_events := [] |}.

Definition arg_log (e : ArgEvent) (p : Parse) : Parse :=
  {| fileIdx := fileIdx p; cmdPrintInputs := cmdPrintInputs p;
     cmdConfigInputs := cmdConfigInputs p; cmdDis := cmdDis p;
     var_n := var_n p; var_addr := var_addr p;
     arg_events := arg_events p ++ [e] |}.

Definition write_n (v : Z) (p : Parse) : Parse :=
  {| fileIdx := fileIdx p; cmdPrintInputs := cmdPrintInputs p;
     cmdConfigInputs := cmdConfigInputs p; cmdDis := cmdDis p;
     var_n := Some v; var_addr := var_addr p;
     arg_events := arg_events p |}.

Definition write_addr (v : Z) (p : Parse) : Parse :=
  {| fileIdx := fileIdx p; cmdPrintInputs := cmdPrintInputs p;
     cmdConfigInputs := cmdConfigInputs p; cmdDis := cmdDis p;
     var_n := var_n p; var_addr := Some v;
     arg_events := arg_events p |}.

Definition set_cmdDis (p : Parse) : Parse :=
  {| fileIdx := fileIdx p; cmdPrintInputs := cmdPrintInputs p;
     cmdConfigInputs := cmdConfigInputs p; cmdDis := true;
     var_n := var_n p; var_addr := var_addr p;
     arg_events := arg_events p |}.

Definition set_cmdPrintInputs (p : Parse) : Parse :=
  {| fileIdx := fileIdx p; cmdPrintInputs := true;
     cmdConfigInputs := cmdConfigInputs p; cmdDis := cmdDis p;
     var_n := var_n p; var_addr := var_addr p;
     arg_events := arg_events p |}.

Definition set_cmdConfigInputs (p : Parse) : Parse :=
  {| fileIdx := fileIdx p; cmdPrintInputs := cmdPrintInputs p;
     cmdConfigInputs := true; cmdDis := cmdDis p;
     var_n := var_n p; var_addr := var_addr p;
     arg_events := arg_events p |}.

Definition set_fileIdx (i : Z) (p : Parse) : Parse :=
  {| fileIdx := i; cmdPrintInputs := cmdPrintInputs p;
     cmdConfigInputs := cmdConfigInputs p; cmdDis := cmdDis p;
     var_n := var_n p; var_addr := var_addr p;
     arg_events := arg_events p |}.

(** [n = v; CmdLine.Set("Global", key, n);] *)
Definition set_flag (key : string) (v : Z) (p : Parse) : Parse :=
  arg_log (ArgSet key (SetNum v)) (write_n v p).

(** [argv[i]] *)
Definition arg (argv : list string) (i : Z) : string :=
  nth (Z.to_nat i) argv EmptyString.

Section OptionLoop.

(** What the C library's [sscanf] answers on the rest of an option.
    [scan_d s] is the [int] stored when [sscanf(s, "=%d", &v)] is 1,
    [scan_d_d s] the two stored when [sscanf(s, "=%d,%d", &x, &y)] is 2,
    and [scan_X_X s] the [unsigned] stored first and, when the answer of
    [sscanf(s, "=%X,%X", &addr, &n)] is 2 and not 1, the second one; [None]
    is every other answer, on which the variables have not been written.
    A call on which C leaves the behaviour of [sscanf] undefined (a number
    that does not fit its variable, [%d] stored through an [unsigned *])
    has no answer here: what is proved of the loop is proved of the runs in
    which [sscanf] answers. *)
Variable scan_d : string -> option Z.
Variable scan_d_d : string -> option (Z * Z).
Variable scan_X_X : string -> option (Z * option Z).

(** One pass of the loop at lines 1016-1154, on [argv[i]]. *)
Definition parse_arg (argv : list string) (i : Z) (p : Parse)
    : Halt + Parse :=
  let a := arg argv i in
  if ((a =? "-h") || (a =? "-?"))%string then inl HaltHelp
  else if (a =? "-print-games")%string then inl HaltGameList
  else if strncmp_eq a "-ppc-frequency" 14 then
    match scan_d (skip 14 a) with
    | Some f => inr (arg_log (ArgSet "PowerPCFrequency" (SetNum f)) p)
    | None => inr (arg_log (ArgError "-ppc-frequency requires a frequency.") p)
    end
  else if (a =? "-multi-threaded")%string then
    inr (set_flag "MultiThreaded" 1 p)
  else if strncmp_eq a "-sound-vol" 10 then
    match scan_d (skip 10 a) with
    | Some v => inr (set_flag "SoundVolume" (U32.wrap v) p)
    | None =>
        inr (arg_log (ArgError "-sound-vol requires a volume setting.") p)
    end
  else if strncmp_eq a "-music-vol" 10 then
    match scan_d (skip 10 a) with
    | Some v => inr (set_flag "MusicVolume" (U32.wrap v) p)
    | None =>
        inr (arg_log (ArgError "-music-vol requires a volume setting.") p)
    end
  else if (a =? "-no-scsp")%string then inr (set_flag "EmulateSCSP" 0 p)
  else if (a =? "-no-dsb")%string then inr (set_flag "EmulateDSB" 0 p)
  else if strncmp_eq a "-res" 4 then
    match scan_d_d (skip 4 a) with
    | Some (x, y) =>
        inr (arg_log (ArgSet "YResolution" (SetNum (U32.wrap y)))
               (arg_log (ArgSet "XResolution" (SetNum (U32.wrap x))) p))
    | None =>
        inr (arg_log (ArgError "-res requires both a width and a height.") p)
    end
  else if (a =? "-fullscreen")%string then inr (set_flag "FullScreen" 1 p)
  else if (a =? "-no-throttle")%string then inr (set_flag "Throttle" 0 p)
  else if (a =? "-show-fps")%string then inr (set_flag "ShowFrameRate" 1 p)
  else if strncmp_eq a "-vert-shader=" 13 then
    if (skip 13 a =? "")%string
    then inr (arg_log (ArgError "-vert-shader requires a file path.") p)
    else inr (arg_log (ArgSet "VertexShader" (SetText (skip 13 a))) p)
  else if strncmp_eq a "-frag-shader=" 13 then
    if (skip 13 a =? "")%string
    then inr (arg_log (ArgError "-frag-shader requires a file path.") p)
    else inr (arg_log (ArgSet "FragmentShader" (SetText (skip 13 a))) p)
  else if strncmp_eq a "-input-system=" 14 then
    if (skip 14 a =? "")%string
    then inr (arg_log
                (ArgError "-input-system requires an input system name.") p)
    else inr (arg_log (ArgSet "InputSystem" (SetText (skip 14 a))) p)
  else if (a =? "-print-inputs")%string then inr (set_cmdPrintInputs p)
  else if (a =? "-config-inputs")%string then inr (set_cmdConfigInputs p)
  else if strncmp_eq a "-dis" 4 then
    match scan_X_X (skip 4 a) with
    | Some (addr, None) =>
        inr (set_cmdDis (write_n 16 (write_addr (U32.wrap addr) p)))
    | Some (addr, Some n) =>
        inr (set_cmdDis (write_n (U32.wrap n) (write_addr (U32.wrap addr) p)))
    | None =>
        inr (arg_log
               (ArgError
                  "-dis requires address and, optionally, number of instructions.")
               p)
    end
  else if (a =? "-print-gl-info")%string then inl HaltGLInfo
  else if starts_dash a then
    inr (arg_log (ArgError ("Ignoring invalid option: " ++ a ++ ".")) p)
  else if negb (fileIdx p =? 0) then
    inr (arg_log
           (ArgError ("Multiple files specified. Using " ++ a ++ ", ignoring "
                      ++ arg argv (fileIdx p) ++ "."))
           p)
  else inr (set_fileIdx i p).

(** The loop: [count] passes from index [i].  The answer is the option
    that made [main] return, with the locals at that point, or the locals
    after the last pass. *)
Fixpoint parse_loop (argv : list string) (count : nat) (i : Z) (p : Parse)
    : Halt * Parse + Parse :=
  match count with
  | O => inr p
  | S count' =>
      match parse_arg argv i p with
      | inl h => inl (h, p)
      | inr p' => parse_loop argv count' (i + 1) p'
      end
  end.

(** [for (i = 1; i < argc; i++)], with [argc] the length of [argv]. *)
Definition parse_args (argv : list string) : Halt * Parse + Parse :=
  parse_loop argv (List.length argv - 1) 1 parse0.

End OptionLoop.

(** An argument that is not an option: the last branch of the loop. *)
Definition is_file (a : string) : bool := negb (starts_dash a).

(** The options after which [n] holds 0, and those after which it holds 1. *)
Definition clearing_options : list string :=
  ["-no-scsp"; "-no-dsb"; "-no-throttle"]%string.

Definition raising_options : list string :=
  ["-multi-threaded"; "-fullscreen"; "-show-fps"]%string.

(** The options that end [main] from inside the loop. *)
Definition halting_options : list string :=
  ["-h"; "-?"; "-print-games"; "-print-gl-info"]%string.

(** *** [ConfigureInputs] *)

Definition CONFIG_FILE_PATH : string := "Config/Supermodel.ini".

Definition newline : string := String (ascii_of_nat 10) EmptyString.

Inductive CfgEvent : Type :=
| CfgOpen (path : string)        (* INI.Open, SetDefaultSectionName *)
| CfgParse                       (* INI.Parse *)
| CfgReadInputs                  (* Inputs->ReadFromINIFile *)
| CfgError (msg : string)        (* ErrorLog *)
| CfgWindow (g : Geometry)       (* Inputs->ConfigureInputs, in the window *)
| CfgWriteInputs                 (* Inputs->WriteToINIFile *)
| CfgWrite                       (* INI.Write *)
| CfgPrint (msg : string)        (* printf, puts *)
| CfgClose.                      (* INI.Close *)

(** What [ConfigureInputs] reads from outside: the answers of SDL to
    [CreateGLScreen], whether the user completes the configuration
    ([Inputs->ConfigureInputs]) and whether [INI.Write] returns OKAY. *)
Record CfgEnv : Type := {
  cfg_video : VideoEnv;
  cfg_completed : bool;
  cfg_write_ok : bool
}.

(** The [bool] returned ([OKAY] is 0 and [FAIL] is not, so that the cast
    of [ErrorLog]'s answer is [true]), with what was done. *)
Inductive CfgResult : Type :=
| CfgReturned (failed : bool) (t : list CfgEvent)
| CfgUndefined.

Definition ConfigureInputs (env : CfgEnv) (configure : bool) : CfgResult :=
  let t := [CfgOpen CONFIG_FILE_PATH; CfgParse; CfgReadInputs] in
  if configure then
    match CreateGLScreen (cfg_video env) 496 384 false false with
    | Undefined => CfgUndefined
    | Fail =>
        CfgReturned true
          (t ++ [CfgError ("Unable to start SDL to configure inputs."
                           ++ newline)])
    | Okay g =>
        let t := t ++ [CfgWindow g] in
        let t :=
          if cfg_completed env then
            t ++ [CfgWriteInputs; CfgWrite]
              ++ [if cfg_write_ok env
                  then CfgPrint ("Configuration successfully saved to "
                                 ++ CONFIG_FILE_PATH ++ "." ++ newline)
                  else CfgError ("Unable to save configuration to "
                                 ++ CONFIG_FILE_PATH ++ ".")]
          else t ++ [CfgPrint "Configuration aborted..."] in
        CfgReturned false (t ++ [CfgPrint ""; CfgClose])
    end
  else CfgReturned false (t ++ [CfgClose]).

Definition is_CfgClose (e : CfgEvent) : bool :=
  match e with CfgClose => true | _ => false end.

Definition is_CfgWrite (e : CfgEvent) : bool :=
  match e with CfgWrite => true | _ => false end.

Definition is_CfgWindow (e : CfgEvent) : bool :=
  match e with CfgWindow _ => true | _ => false end.

(** *** [main] *)

Inductive MainObj : Type := ObjInputSystem | ObjInputs.

Definition MainObj_eqb (a b : MainObj) : bool :=
  match a, b with
  | ObjInputSystem, ObjInputSystem | ObjInputs, ObjInputs => true
  | _, _ => false
  end.

Inductive MainEvent : Type :=
| MPuts (line : string)                  (* puts, printf *)
| MClearLogs                             (* Logger.ClearLogs, SetLogger *)
| MReadConfigFile (section : string)
| MArg (e : ArgEvent)                    (* what the option loop does *)
| MScreen (g : Geometry)                 (* PrintGLInfo's CreateGLScreen *)
| MGLInfo                                (* the printfs of PrintGLInfo *)
| MError (msg : string)                  (* ErrorLog *)
| MSDLInit                               (* SDL_Init(0) *)
| MNewObj (o : MainObj)
| MDeleteObj (o : MainObj)
| MConfigureInputs (t : list CfgEvent)
| MPrintInputs                           (* PrintInputs, PrintSettings *)
| MDisassembleCROM (addr n : Z) (t : list DisEvent)
| MSupermodel (zip : string) (code : Z) (t : list Event)
| MSDLQuit.

(** What [main] reads from outside. *)
Record MainEnv : Type := {
  game_list : list (string * string);   (* Model3GameList *)
  gl_video : VideoEnv;                  (* SDL's answers to PrintGLInfo *)
  sdl_init_ok : bool;                   (* SDL_Init(0) == 0 *)
  sdl_error : string;                   (* SDL_GetError() *)
  input_system_name : string;           (* g_Config.GetInputSystem() *)
  inputs_init_ok : bool;                (* Inputs->Initialize() *)
  configure_env : CfgEnv;
  disassembler_env : CromEnv
}.

(** [stricmp(a, b) == 0]: equality up to the case of the letters A-Z. *)
Definition tolower (c : ascii) : ascii :=
  let k := nat_of_ascii c in
  if (65 <=? k)%nat && (k <=? 90)%nat then ascii_of_nat (k + 32) else c.

Fixpoint lower (s : string) : string :=
  match s with
  | EmptyString => EmptyString
  | String c s' => String (tolower c) (lower s')
  end.

Definition stricmp_eq (a b : string) : bool :=
  String.eqb (lower a) (lower b).

(** [PrintGLInfo(FALSE)]; [None] when [CreateGLScreen] has no defined
    behaviour.  The eight [printf]s of what [glGetString] and
    [glGetIntegerv] answer are the one event [MGLInfo]: what they print,
    and what [printf] does with a null string, is outside the model. *)
Definition PrintGLInfo (env : VideoEnv) : option (list MainEvent) :=
  match CreateGLScreen env 496 384 false false with
  | Undefined => None
  | Fail => Some [MError ("Unable to query OpenGL." ++ newline)]
  | Okay g => Some [MScreen g; MPuts ("OpenGL information:" ++ newline);
                    MGLInfo; MPuts ""]
  end.

Definition with_zipFile (zip : string) (st : Startup) : Startup :=
  {| zipFile := zip; video := video st; audio_ok := audio_ok st;
     render2D_ok := render2D_ok st; render3D_ok := render3D_ok st;
     ticks0 := ticks0 st |}.

Inductive MainRun : Type :=
| MainReturned (code : Z) (t : list MainEvent)
| MainRunning              (* Supermodel has not returned *)
| MainUndefined.

(** The label [Exit]. *)
Definition Exit (exitCode : Z) (inputs inputSystem : bool)
    (t : list MainEvent) : MainRun :=
  let t := if inputs then t ++ [MDeleteObj ObjInputs] else t in
  let t := if inputSystem then t ++ [MDeleteObj ObjInputSystem] else t in
  MainReturned exitCode (t ++ [MSDLQuit]).

Section EntryPoint.

Context {M FS BF : Type}.
Context {BFO : BlockFileOps FS BF} {M3O : Model3Ops M BF}.

Variable SUPERMODEL_VERSION : string.
Variable scan_d : string -> option Z.
Variable scan_d_d : string -> option (Z * Z).
Variable scan_X_X : string -> option (Z * option Z).
Variable DisassemblePowerPC : Z -> Z -> bool * string * string.
Variable CopyRegion : (Z -> Byte.byte) -> Z -> Byte.byte.

(** [main(argc, argv)], with [argc] the length of [argv], in the build
    without [SUPERMODEL_WIN32] and [SUPERMODEL_DEBUGGER].  [cfg] is
    [g_Config] as the settings leave it inside [Supermodel], and [fs],
    [st] and [frames] what [Supermodel] reads from outside; the static
    [saveSlot] still has its initial value 0 at the one call of
    [Supermodel]. *)
Definition main (env : MainEnv) (argv : list string) (cfg : Config)
    (fs : FS) (st : Startup) (frames : list Frame) : MainRun :=
  let t := map MPuts (Title SUPERMODEL_VERSION) in
  if Z.of_nat (List.length argv) <=? 1
  then MainReturned 0 (t ++ map MPuts Help)
  else
    let t := t ++ [MClearLogs; MReadConfigFile "Global"] in
    match parse_args scan_d scan_d_d scan_X_X argv with
    | inl (h, p) =>
        let t := t ++ map MArg (arg_events p) in
        match h with
        | HaltHelp => MainReturned 0 (t ++ map MPuts Help)
        | HaltGameList =>
            MainReturned 0 (t ++ map MPuts (PrintGameList (game_list env)))
        | HaltGLInfo =>
            match PrintGLInfo (gl_video env) with
            | Some evs => MainReturned 0 (t ++ evs)
            | None => MainUndefined
            end
        end
    | inr p =>
        let t := t ++ map MArg (arg_events p) ++ [MSDLInit] in
        if negb (sdl_init_ok env) then
          MainReturned 1
            (t ++ [MError ("Unable to initialize SDL: " ++ sdl_error env
                           ++ newline)])
        else if negb (stricmp_eq (input_system_name env) "sdl") then
          Exit 1 false false
            (t ++ [MError ("Unknown input system: '" ++ input_system_name env
                           ++ "'." ++ newline)])
        else
          let t := t ++ [MNewObj ObjInputSystem; MNewObj ObjInputs] in
          if negb (inputs_init_ok env) then
            Exit 1 true true
              (t ++ [MError ("Unable to initalize inputs." ++ newline)])
          else
            match ConfigureInputs (configure_env env) (cmdConfigInputs p) with
            | CfgUndefined => MainUndefined
            | CfgReturned failed ct =>
                let t := t ++ [MConfigureInputs ct] in
                if failed then Exit 1 true true t
                else
                  let t := if cmdPrintInputs p then t ++ [MPrintInputs]
                           else t in
                  if fileIdx p =? 0 then
                    Exit 1 true true (t ++ [MError "No ROM set specified."])
                  else if cmdDis p then
                    match var_addr p, var_n p with
                    | Some addr, Some n =>
                        let '(ok, dt) :=
                          DisassembleCROM DisassemblePowerPC CopyRegion
                            (disassembler_env env) (arg argv (fileIdx p))
                            addr n in
                        Exit (if ok then 0 else 1) true true
                          (t ++ [MDisassembleCROM addr n dt])
                    | _, _ => MainUndefined
                    end
                  else
                    match Supermodel SUPERMODEL_VERSION cfg 0 fs
                            (with_zipFile (arg argv (fileIdx p)) st)
                            frames with
                    | Returned code s =>
                        Exit code true true
                          (t ++ [MSupermodel (arg argv (fileIdx p)) code
                                   (trace s)])
                    | StillRunning _ => MainRunning
                    | UndefinedBehaviour => MainUndefined
                    end
            end
    end.

End EntryPoint.

Definition is_SDLInit (e : MainEvent) : bool :=
  match e with MSDLInit => true | _ => false end.

Definition is_SDLQuit (e : MainEvent) : bool :=
  match e with MSDLQuit => true | _ => false end.

Definition is_NewObj (o : MainObj) (e : MainEvent) : bool :=
  match e with MNewObj o' => MainObj_eqb o o' | _ => false end.

Definition is_DeleteObj (o : MainObj) (e : MainEvent) : bool :=
  match e with MDeleteObj o' => MainObj_eqb o o' | _ => false end.

(** The events of the option loop and of the printing before it. *)
Definition before_SDL (e : MainEvent) : bool :=
  match e with
  | MPuts _ | MClearLogs | MReadConfigFile _ | MArg _ | MScreen _ | MGLInfo
  | MError _ => true
  | _ => false
  end.

(** The lines of every disassembly in a run of [main]. *)
Definition main_dis_lines (t : list MainEvent) : list DisLine :=
  flat_map (fun e => match e with
                     | MDisassembleCROM _ _ dt => dis_lines dt
                     | _ => []
                     end) t.

(** A reference command line reader: decimal and hexadecimal numbers
    without sign or leading blanks. *)
Module ArgBench.

Definition digit (c : ascii) : option Z :=
  let k := Z.of_nat (nat_of_ascii c) in
  if (48 <=? k) && (k <=? 57) then Some (k - 48) else None.

Definition hex_digit (c : ascii) : option Z :=
  let k := Z.of_nat (nat_of_ascii c) in
  if (48 <=? k) && (k <=? 57) then Some (k - 48)
  else if (65 <=? k) && (k <=? 70) then Some (k - 55)
  else if (97 <=? k) && (k <=? 102) then Some (k - 87)
  else None.

(** The longest run of digits at the head of [s], in base [base], and the
    rest. *)
Fixpoint number (dig : ascii -> option Z) (base : Z) (acc : option Z)
    (s : string) : option Z * string :=
  match s with
  | EmptyString => (acc, s)
  | String c r =>
      match dig c with
      | Some d =>
          number dig base
            (Some (base * match acc with Some a => a | None => 0 end + d)) r
      | None => (acc, s)
      end
  end.

Definition scan_d (s : string) : option Z :=
  match s with
  | String "=" r => fst (number digit 10 None r)
  | _ => None
  end.

Definition scan_d_d (s : string) : option (Z * Z) :=
  match s with
  | String "=" r =>
      match number digit 10 None r with
      | (Some x, String "," r') =>
          match fst (number digit 10 None r') with
          | Some y => Some (x, y)
          | None => None
          end
      | _ => None
      end
  | _ => None
  end.

Definition scan_X_X (s : string) : option (Z * option Z) :=
  match s with
  | String "=" r =>
      match number hex_digit 16 None r with
      | (Some x, String "," r') => Some (x, fst (number hex_digit 16 None r'))
      | (Some x, _) => Some (x, None)
      | _ => None
      end
  | _ => None
  end.

Definition env : MainEnv :=
  {| game_list := [("scud", "Scud Race"); ("daytona2", "Daytona USA 2")]%string;
     gl_video := Bench.desktop;
     sdl_init_ok := true;
     sdl_error := "";
     input_system_name := "SDL";
     inputs_init_ok := true;
     configure_env := {| cfg_video := Bench.desktop; cfg_completed := true;
                         cfg_write_ok := true |};
     disassembler_env := DisBench.crom_env |}.

End ArgBench.

(** *** Invariants of the option loop *)

(** [-dis] has been seen only with [addr] and [n] written. *)
Definition dis_ready (p : Parse) : Prop :=
  cmdDis p = true -> var_addr p <> None /\ var_n p <> None.

(** What [n] and [addr] hold, once written, is a value of their type. *)
Definition vars_in_range (p : Parse) : Prop :=
  (forall a, var_addr p = Some a -> 0 <= a < U32.modulus)
  /\ (forall n, var_n p = Some n -> 0 <= n < U32.modulus).

(** Before pass [i]: no file so far, or [fileIdx] is the first one and
    every later one has been reported. *)
Definition files_seen (argv : list string) (i : Z) (p : Parse) : Prop :=
  (fileIdx p = 0
   /\ forall j, 1 <= j < i -> starts_dash (arg argv j) = true)
  \/ (1 <= fileIdx p < i
      /\ is_file (arg argv (fileIdx p)) = true
      /\ (forall j, 1 <= j < fileIdx p -> starts_dash (arg argv j) = true)
      /\ forall j, fileIdx p < j < i -> is_file (arg argv j) = true ->
           In (ArgError ("Multiple files specified. Using " ++ arg argv j
                         ++ ", ignoring " ++ arg argv (fileIdx p) ++ "."))
              (arg_events p)).

Module ArgBench2.

(** A command line with two files and two flags. *)
Definition argv : list string :=
  ["supermodel"; "-fullscreen"; "scud.zip"; "-show-fps"; "daytona2.zip"]%string.

Definition parsed : Parse :=
  Eval vm_compute in
    match parse_args ArgBench.scan_d ArgBench.scan_d_d ArgBench.scan_X_X argv
    with
    | inr p => p
    | inl (_, p) => p
    end.

End ArgBench2.

(** The calls of [Supermodel] in a run of [main]: the file, the value
    returned and what the call did. *)
Definition supermodel_calls (t : list MainEvent)
    : list (string * Z * list Event) :=
  flat_map (fun e => match e with
                     | MSupermodel zip code tr => [(zip, code, tr)]
                     | _ => []
                     end) t.

(** Reference runs of [main]: the reference machine, disk and start-up,
    two passes of the loop with Exit asserted in the second. *)
Module MainBench.

Definition run (cfg : Config) (argv : list string) : MainRun :=
  main "0.2a" ArgBench.scan_d ArgBench.scan_d_d ArgBench.scan_X_X
    DisBench.decoder DisBench.mirror ArgBench.env argv cfg
    Bench.empty_disk Bench.startup [Bench.idle 102; Bench.press_exit 118].

Definition events (r : MainRun) : list MainEvent :=
  match r with
  | MainReturned _ t => t
  | _ => []
  end.

Definition game_argv : list string := ["supermodel"; "scud.zip"]%string.

Definition game_trace : list MainEvent :=
  Eval vm_compute in events (run Bench.config game_argv).

Definition dis_argv : list string :=
  ["supermodel"; "scud.zip"; "-dis=FFFFFFF8,5"]%string.

Definition dis_trace : list MainEvent :=
  Eval vm_compute in events (run Bench.config dis_argv).

Definition dis_parsed : Parse :=
  Eval vm_compute in
    match parse_args ArgBench.scan_d ArgBench.scan_d_d ArgBench.scan_X_X
            dis_argv with
    | inr p => p
    | inl (_, p) => p
    end.

Definition dis_flag_argv : list string :=
  ["supermodel"; "scud.zip"; "-dis=FFFFFFF8,5"; "-no-throttle"]%string.

Definition dis_flag_trace : list MainEvent :=
  Eval vm_compute in events (run Bench.config dis_flag_argv).

End MainBench.
(** * Properties *)

(** ** Lists and traces *)

Lemma count_app (p : Event -> bool) (t u : list Event) :
  count p (t ++ u) = (count p t + count p u)%nat.
Proof.
  unfold count. rewrite filter_app, length_app. reflexivity.
Qed.

Lemma count_none (p : Event -> bool) (t : list Event) :
  forallb (fun e => negb (p e)) t = true -> count p t = 0%nat.
Proof.
  unfold count. induction t as [|e t IH]; simpl; intros H.
  - reflexivity.
  - apply andb_prop in H. destruct H as [He Ht].
    destruct (p e); simpl in He; [discriminate | auto].
Qed.

Lemma forallb_weaken (p q : Event -> bool) (t : list Event) :
  (forall e, p e = true -> q e = true) ->
  forallb p t = true -> forallb q t = true.
Proof.
  intros Hpq. induction t as [|e t IH]; simpl; intros H; [reflexivity|].
  apply andb_prop in H. destruct H as [He Ht].
  rewrite (Hpq _ He), (IH Ht). reflexivity.
Qed.


(** ** A pass extends the trace *)

Lemma extends_refl {M FS : Type} (p : Event -> bool) (s : Session M FS) :
  extends p s s.
Proof. exists []. rewrite app_nil_r. auto. Qed.

Lemma extends_trans {M FS : Type} (p : Event -> bool)
    (s1 s2 s3 : Session M FS) :
  extends p s1 s2 -> extends p s2 s3 -> extends p s1 s3.
Proof.
  intros (e1 & H1 & P1) (e2 & H2 & P2). exists (e1 ++ e2).
  rewrite H2, H1, app_assoc, forallb_app, P1, P2. auto.
Qed.

Lemma extends_log {M FS : Type} (p : Event -> bool) (e : Event)
    (s s' : Session M FS) :
  p e = true -> extends p s s' -> extends p s (log e s').
Proof.
  intros He (x & H & P). exists (x ++ [e]). simpl.
  rewrite H, app_assoc, forallb_app, P. simpl. rewrite He. auto.
Qed.

Lemma extends_same_trace {M FS : Type} (p : Event -> bool)
    (s s' : Session M FS) :
  trace s' = trace s -> extends p s s'.
Proof. intros H. exists []. rewrite app_nil_r. auto. Qed.

Lemma extends_count {M FS : Type} (p q : Event -> bool)
    (s s' : Session M FS) :
  (forall e, p e = true -> q e = false) ->
  extends p s s' -> count q (trace s') = count q (trace s).
Proof.
  intros Hpq (x & H & P). rewrite H, count_app.
  rewrite (count_none q x); [lia|].
  apply (forallb_weaken p); [|exact P].
  intros e He. rewrite (Hpq e He). reflexivity.
Qed.

(** ** The save-state and NVRAM managers *)

Section Managers.

Context {M FS BF : Type}.
Context {BFO : BlockFileOps FS BF} {M3O : Model3Ops M BF}.
Variable SUPERMODEL_VERSION : string.

Lemma same_controls_refl (s : Session M FS) : same_controls s s.
Proof. repeat split. Qed.

Lemma same_controls_trans (s1 s2 s3 : Session M FS) :
  same_controls s1 s2 -> same_controls s2 s3 -> same_controls s1 s3.
Proof.
  unfold same_controls. intros (a & b & c & d & e & f) (a' & b' & c' & d' & e' & f').
  repeat split; congruence.
Qed.

Lemma load_same_controls (k : Kind) (s : Session M FS) :
  same_controls s (load k s).
Proof.
  destruct k; simpl; [unfold LoadState | unfold LoadNVRAM];
    (destruct (bf_Load _ _) as [bf|]; [|repeat split]);
    destruct (bf_FindBlock bf _) as [[|] bf']; simpl; try (repeat split; fail);
    destruct (bf_ReadInt bf') as [v bf'']; destruct (v =? _); simpl;
    try (repeat split; fail);
    match goal with |- context [m3_LoadState ?m ?b] => destruct (m3_LoadState m b)
                  | |- context [m3_LoadNVRAM ?m ?b] => destruct (m3_LoadNVRAM m b) end;
    repeat split.
Qed.

Lemma save_same_controls (k : Kind) (s : Session M FS) :
  same_controls s (save SUPERMODEL_VERSION k s).
Proof.
  destruct k; simpl; [unfold SaveState | unfold SaveNVRAM]; simpl;
    destruct (bf_Create _ _ _ _); repeat split.
Qed.


(** A load whose header checks fail: the file was opened, an error was
    logged, and nothing else happened. *)
Lemma load_rejected (k : Kind) (s : Session M FS) (bf : BF) :
  bf_Load (files s) (container_path k s) = Some bf ->
  header_ok bf k = false ->
  exists msg,
    load k s = log (EvErrorLog msg) (log (EvFileOpen (container_path k s)) s).
Proof.
  unfold header_ok. intros Hload Hhdr.
  destruct k; simpl in *; [unfold LoadState | unfold LoadNVRAM];
    rewrite Hload; destruct (bf_FindBlock bf _) as [[|] bf']; simpl in *;
    try (eexists; reflexivity);
    destruct (bf_ReadInt bf') as [v bf'']; simpl in *; rewrite Hhdr; simpl;
    eexists; reflexivity.
Qed.

(** A load whose header checks pass: the machine deserialises and the
    file is closed. *)
Lemma load_accepted (k : Kind) (s : Session M FS) (bf : BF) :
  bf_Load (files s) (container_path k s) = Some bf ->
  header_ok bf k = true ->
  exists s1 tail,
    trace (load k s)
    = trace s ++ [EvFileOpen (container_path k s); s1;
                  EvFileClose (container_path k s)] ++ tail
    /\ is_deserialize s1 = true
    /\ forallb (fun e => match e with EvPrint _ => true | _ => false end) tail
       = true.
Proof.
  unfold header_ok. intros Hload Hhdr.
  destruct k; simpl in *; [unfold LoadState | unfold LoadNVRAM];
    rewrite Hload; destruct (bf_FindBlock bf _) as [[|] bf']; simpl in *;
    try discriminate;
    destruct (bf_ReadInt bf') as [v bf'']; simpl in *; rewrite Hhdr; simpl.
  - destruct (m3_LoadState (Model3 s) bf'') as [m b]. simpl.
    eexists EvLoadState, [_]. rewrite <- !app_assoc. simpl. auto.
  - destruct (m3_LoadNVRAM (Model3 s) bf'') as [m b]. simpl.
    eexists EvLoadNVRAM, []. rewrite <- !app_assoc. simpl. auto.
Qed.

Lemma load_extends (s : Session M FS) :
  extends ui_event s (LoadState s).
Proof.
  unfold LoadState.
  destruct (bf_Load _ _) as [bf|]; [|apply extends_log, extends_refl; reflexivity].
  destruct (bf_FindBlock bf _) as [[|] bf']; simpl;
    [|repeat (apply extends_log; [reflexivity|]); apply extends_refl].
  destruct (bf_ReadInt bf') as [v bf'']; destruct (v =? _); simpl;
    [|repeat (apply extends_log; [reflexivity|]); apply extends_refl].
  destruct (m3_LoadState _ _) as [m b].
  repeat (apply extends_log; [reflexivity|]).
  apply extends_same_trace. reflexivity.
Qed.

Lemma save_extends (s : Session M FS) :
  extends ui_event s (SaveState SUPERMODEL_VERSION s).
Proof.
  unfold SaveState. destruct (bf_Create _ _ _ _) as [bf|].
  - repeat (apply extends_log; [reflexivity|]).
    apply extends_same_trace. reflexivity.
  - apply extends_log, extends_refl. reflexivity.
Qed.

(** [SaveNVRAM] enters once and closes the file it creates. *)
Lemma SaveNVRAM_trace (s : Session M FS) :
  exists extra,
    trace (SaveNVRAM SUPERMODEL_VERSION s) = trace s ++ EvCallSaveNVRAM :: extra
    /\ forallb save_nvram_event extra = true.
Proof.
  unfold SaveNVRAM. simpl. destruct (bf_Create _ _ _ _) as [bf|]; simpl.
  - eexists [_; _; _]. rewrite <- !app_assoc. simpl. auto.
  - eexists [_]. rewrite <- !app_assoc. simpl. auto.
Qed.

End Managers.

Lemma all_range_spec (f : Z -> bool) (n : positive) (base : Z) :
  all_range f n base = true ->
  forall z, base <= z < base + Zpos n -> f z = true.
Proof.
  revert base. induction n as [p IH|p IH|]; simpl; intros base H z Hz.
  - apply andb_prop in H. destruct H as [H H2].
    apply andb_prop in H. destruct H as [H0 H1].
    destruct (Z.eq_dec z base) as [->|Hne]; [exact H0|].
    destruct (Z_lt_le_dec z (base + 1 + Zpos p)).
    + apply (IH _ H1). lia.
    + apply (IH _ H2). lia.
  - apply andb_prop in H. destruct H as [H1 H2].
    destruct (Z_lt_le_dec z (base + Zpos p)).
    + apply (IH _ H1). lia.
    + apply (IH _ H2). lia.
  - assert (z = base) as -> by lia. exact H.
Qed.

Lemma extends_weaken {M FS : Type} (p q : Event -> bool)
    (s s' : Session M FS) :
  (forall e, p e = true -> q e = true) -> extends p s s' -> extends q s s'.
Proof.
  intros Hpq (x & H & P). exists x. split; [exact H|].
  apply (forallb_weaken p); assumption.
Qed.

(** ** The steps of a pass *)

Section Loop.

Context {M FS BF : Type}.
Context {BFO : BlockFileOps FS BF} {M3O : Model3Ops M BF}.
Variable SUPERMODEL_VERSION : string.

Lemma run_frame_controls (s : Session M FS) : same_controls s (run_frame s).
Proof. unfold run_frame. destruct (paused s); repeat split. Qed.

Lemma run_frame_paused (s : Session M FS) :
  paused s = true -> run_frame s = s.
Proof. unfold run_frame. intros ->. reflexivity. Qed.

Lemma run_frame_extends (s : Session M FS) :
  extends loop_event s (run_frame s).
Proof.
  unfold run_frame. destruct (paused s); [apply extends_refl|].
  repeat (apply extends_log; [reflexivity|]).
  apply extends_same_trace. reflexivity.
Qed.

Lemma ui_controls_extends (f : Frame) (s : Session M FS) :
  extends ui_event s (ui_controls SUPERMODEL_VERSION f s).
Proof.
  unfold ui_controls.
  repeat match goal with
         | |- context [if ?b then _ else _] =>
             lazymatch b with
             | context [if _ then _ else _] => fail
             | _ => destruct b
             end
         end;
    try apply save_extends; try apply load_extends;
    repeat (apply extends_log; [reflexivity|]);
    try apply extends_refl; apply extends_same_trace; reflexivity.
Qed.

(** The commands leave the clock alone, and of the configuration they
    change the throttle only. *)
Lemma ui_controls_clock (f : Frame) (s : Session M FS) :
  clock (ui_controls SUPERMODEL_VERSION f s) = clock s
  /\ showFPS (g_Config (ui_controls SUPERMODEL_VERSION f s))
     = showFPS (g_Config s)
  /\ fullScreen (g_Config (ui_controls SUPERMODEL_VERSION f s))
     = fullScreen (g_Config s).
Proof.
  pose proof (save_same_controls SUPERMODEL_VERSION SaveStateKind s)
    as (_ & _ & _ & _ & Hc1 & Hg1).
  pose proof (load_same_controls SaveStateKind s) as (_ & _ & _ & _ & Hc2 & Hg2).
  simpl in *. unfold ui_controls.
  destruct (uiExit f); [auto|]. destruct (uiReset f); [auto|].
  destruct (uiPause f); [auto|].
  destruct (uiSaveState f); [rewrite Hc1, Hg1; auto|].
  destruct (uiChangeSlot f); [auto|].
  destruct (uiLoadState f); [rewrite Hc2, Hg2; auto|].
  destruct (uiDumpInpState f); [auto|].
  destruct (uiToggleCursor f && fullScreen (g_Config s)); [auto|].
  destruct (uiClearNVRAM f); [auto|].
  destruct (uiToggleFrLimit f); auto.
Qed.

(** What the commands do to the two flags. *)
Lemma ui_controls_flags (f : Frame) (s : Session M FS) :
  quit (ui_controls SUPERMODEL_VERSION f s) = quit s || uiExit f
  /\ paused (ui_controls SUPERMODEL_VERSION f s)
     = if negb (uiExit f) && negb (uiReset f) && uiPause f
       then negb (paused s) else paused s.
Proof.
  pose proof (save_same_controls SUPERMODEL_VERSION SaveStateKind s)
    as (Hq1 & Hp1 & _).
  pose proof (load_same_controls SaveStateKind s) as (Hq2 & Hp2 & _).
  simpl in *. unfold ui_controls.
  destruct (uiExit f); [simpl; rewrite orb_true_r; auto|].
  rewrite orb_false_r.
  destruct (uiReset f); [auto|]. destruct (uiPause f); [auto|]. simpl.
  destruct (uiSaveState f); [auto|].
  destruct (uiChangeSlot f); [auto|].
  destruct (uiLoadState f); [auto|].
  destruct (uiDumpInpState f); [auto|].
  destruct (uiToggleCursor f && fullScreen (g_Config s)); [auto|].
  destruct (uiClearNVRAM f); [auto|].
  destruct (uiToggleFrLimit f); auto.
Qed.

Lemma fps_display_flags (t : string) (now : Z) (s : Session M FS) :
  quit (fps_display t now s) = quit s
  /\ paused (fps_display t now s) = paused s
  /\ g_Config (fps_display t now s) = g_Config s
  /\ Model3 (fps_display t now s) = Model3 s
  /\ saveSlot (fps_display t now s) = saveSlot s.
Proof.
  unfold fps_display. destruct (showFPS _); [|auto].
  destruct (1000 <=? _); auto.
Qed.

Lemma fps_display_extends (t : string) (now : Z) (s : Session M FS) :
  extends is_Caption s (fps_display t now s).
Proof.
  unfold fps_display. destruct (showFPS _); [|apply extends_refl].
  destruct (1000 <=? _).
  - apply extends_log; [reflexivity|]. apply extends_same_trace. reflexivity.
  - apply extends_same_trace. reflexivity.
Qed.

Lemma frame_limit_flags (now : Z) (s s' : Session M FS) :
  frame_limit now s = Some s' ->
  quit s' = quit s /\ paused s' = paused s /\ g_Config s' = g_Config s
  /\ Model3 s' = Model3 s /\ saveSlot s' = saveSlot s
  /\ prevFPSTicks (clock s') = prevFPSTicks (clock s)
  /\ fpsFramesElapsed (clock s') = fpsFramesElapsed (clock s).
Proof.
  unfold frame_limit. destruct (paused s || _).
  - destruct (frame_offset _) as [d|]; [|discriminate].
    destruct (now <=? _); intros [= <-]; repeat split.
  - intros [= <-]. repeat split.
Qed.

Lemma frame_limit_extends (now : Z) (s s' : Session M FS) :
  frame_limit now s = Some s' -> extends is_Delay s s'.
Proof.
  unfold frame_limit. destruct (paused s || _).
  - destruct (frame_offset _) as [d|]; [|discriminate].
    destruct (now <=? _); intros [= <-].
    + apply extends_log; [reflexivity|]. apply extends_same_trace. reflexivity.
    + apply extends_same_trace. reflexivity.
  - intros [= <-]. apply extends_refl.
Qed.

Lemma poll_inputs_extends (p : Event -> bool) (f : Frame) (s : Session M FS) :
  extends p s (poll_inputs f s).
Proof.
  unfold poll_inputs. destruct (poll_ok f); [apply extends_refl|].
  apply extends_same_trace. reflexivity.
Qed.

End Loop.

(** ** The UI commands *)

Section Commands.

Context {M FS BF : Type}.
Context {BFO : BlockFileOps FS BF} {M3O : Model3Ops M BF}.
Variable SUPERMODEL_VERSION : string.






End Commands.


(** ** The session state machine *)

Section StateMachine.

Context {M FS BF : Type}.
Context {BFO : BlockFileOps FS BF} {M3O : Model3Ops M BF}.
Variable SUPERMODEL_VERSION : string.

(** The two flags after a pass. *)
Lemma iteration_flags (t : string) (f : Frame) (s s' : Session M FS) :
  iteration SUPERMODEL_VERSION t f s = Some s' ->
  quit s' = quit s || negb (poll_ok f) || uiExit f
  /\ paused s' = if negb (uiExit f) && negb (uiReset f) && uiPause f
                 then negb (paused s) else paused s.
Proof.
  unfold iteration. intros H.
  apply frame_limit_flags in H. destruct H as (Hq & Hp & _).
  rewrite Hq, Hp.
  destruct (fps_display_flags t (ticks f)
              (ui_controls SUPERMODEL_VERSION f (poll_inputs f (run_frame s))))
    as (Hq1 & Hp1 & _).
  rewrite Hq1, Hp1.
  destruct (ui_controls_flags SUPERMODEL_VERSION f (poll_inputs f (run_frame s)))
    as (Hq2 & Hp2).
  rewrite Hq2, Hp2.
  destruct (run_frame_controls s) as (Hq3 & Hp3 & _).
  unfold poll_inputs. destruct (poll_ok f); simpl; rewrite ?Hq3, ?Hp3.
  - rewrite orb_false_r. auto.
  - rewrite orb_true_r. auto.
Qed.

(** The loop is entered with both flags clear and the clock at the tick
    read before it. *)
Lemma start_up_entry (cfg : Config) (slot : Z) (fs : FS) (st : Startup)
    (t : string) (s0 : Session M FS) :
  start_up cfg slot fs st = inr (t, s0) ->
  quit s0 = false /\ paused s0 = false /\ saveSlot s0 = slot
  /\ g_Config s0 = cfg
  /\ clock s0 = {| prevFPSTicks := ticks0 st; fpsFramesElapsed := 0;
                   framesElapsed := 0; startTicks := ticks0 st |}.
Proof.
  unfold start_up.
  destruct (m3_Init _) as [[|] m1]; simpl; [|discriminate].
  destruct (m3_LoadROMSet _ _) as [[|] m2]; simpl; [|discriminate].
  match goal with |- context [LoadNVRAM ?x] =>
    pose proof (load_same_controls NVRAMKind x) as (Hq & Hp & _ & Hs & _ & Hg);
    simpl in Hq, Hp, Hs, Hg
  end.
  destruct (CreateGLScreen _ _ _ _ _); try discriminate.
  destruct (audio_ok st); simpl; [|discriminate].
  destruct (render2D_ok st); simpl; [|discriminate].
  destruct (render3D_ok st); simpl; [|discriminate].
  intros [= <- <-]. simpl. auto.
Qed.

(** C7. The loop is entered in state Running; a pass in which the poll
    succeeds and TogglePause is the command applied exchanges Running and
    Paused; a pass in which Exit is asserted or the poll fails ends in
    Quit from any state; every other pass keeps the state; the quit flag
    is never cleared, and the loop exits as soon as it finds it set. *)
Theorem session_state_machine (t : string) (f : Frame) (s s' : Session M FS)
    (Hstep : iteration SUPERMODEL_VERSION t f s = Some s') :
  (state_of s = Quit -> state_of s' = Quit)
  /\ (uiExit f = true \/ poll_ok f = false -> state_of s' = Quit)
  /\ (poll_ok f = true -> uiExit f = false -> uiReset f = false ->
      uiPause f = true -> state_of s' = flip_pause (state_of s))
  /\ (poll_ok f = true -> uiExit f = false ->
      uiReset f = true \/ uiPause f = false -> state_of s' = state_of s)
  /\ (forall rest, state_of s <> Quit -> state_of s' = Quit ->
      main_loop SUPERMODEL_VERSION t (f :: rest) s = LoopExit s')
  /\ (forall frames, state_of s = Quit ->
      main_loop SUPERMODEL_VERSION t frames s = LoopExit s)
  /\ (forall cfg slot fs st t0 s0,
      start_up cfg slot fs st = inr (t0, s0) -> state_of s0 = Running).
Proof.
  destruct (iteration_flags _ _ _ _ Hstep) as (Hq & Hp).
  unfold state_of. repeat split.
  - destruct (quit s); [|destruct (paused s); discriminate].
    intros _. rewrite Hq. reflexivity.
  - intros [He|Hpoll]; rewrite Hq.
    + rewrite He, orb_true_r. reflexivity.
    + rewrite Hpoll. simpl. rewrite orb_true_r. reflexivity.
  - intros Hpoll He Hr Hu. rewrite Hq, Hp, Hpoll, He, Hr, Hu. simpl.
    rewrite !orb_false_r. destruct (quit s), (paused s); reflexivity.
  - intros Hpoll He Hru. rewrite Hq, Hp, Hpoll, He. simpl.
    rewrite !orb_false_r.
    destruct Hru as [-> | ->]; simpl; [reflexivity|].
    rewrite andb_false_r. reflexivity.
  - intros rest Hs Hs'. simpl.
    destruct (quit s); [congruence|]. rewrite Hstep.
    destruct (quit s') eqn:Hq'; [|destruct (paused s'); discriminate].
    destruct rest; simpl; rewrite Hq'; reflexivity.
  - intros frames Hs.
    destruct (quit s) eqn:Hqs; [|destruct (paused s); discriminate].
    destruct frames; simpl; rewrite Hqs; reflexivity.
  - intros cfg slot fs st t0 s0 H.
    destruct (start_up_entry _ _ _ _ _ _ H) as (Hq0 & Hp0 & _).
    rewrite Hq0, Hp0. reflexivity.
Qed.

End StateMachine.

(** A pass of the reference session with Exit asserted ends in Quit. *)
Lemma session_state_machine_witness :
  exists s',
    iteration "0.2a" "Supermodel - Scud Race" (Bench.press_exit 102)
      Bench.session0 = Some s'
    /\ state_of s' = Quit.
Proof.
  eexists. split; [reflexivity|].
  refine (proj1 (proj2 (session_state_machine "0.2a"
                          "Supermodel - Scud Race" (Bench.press_exit 102)
                          Bench.session0 _ eq_refl)) _).
  left. reflexivity.
Defined.

(** ** The frame counter and the caption *)

Section FrameRate.

Context {M FS BF : Type}.
Context {BFO : BlockFileOps FS BF} {M3O : Model3Ops M BF}.
Variable SUPERMODEL_VERSION : string.

(** The calls of a pass, in order: the frame and the swap unless the
    session is paused, the calls of the command applied, the caption when a
    sample is due, the delay; and the sample window after the pass. *)
Lemma iteration_trace (t : string) (f : Frame) (s s' : Session M FS) :
  iteration SUPERMODEL_VERSION t f s = Some s' ->
  let n := U32.incr (fpsFramesElapsed (clock s)) in
  let elapsed := U32.sub (ticks f) (prevFPSTicks (clock s)) in
  let due := showFPS (g_Config s) && (1000 <=? elapsed) in
  exists mid del,
    trace s'
    = trace s ++ (if paused s then [] else [EvRunFrame; EvSwapBuffers])
        ++ mid ++ (if due then [EvCaption t (fps_value n elapsed)] else [])
        ++ del
    /\ forallb ui_event mid = true
    /\ forallb is_Delay del = true
    /\ prevFPSTicks (clock s')
       = (if due then ticks f else prevFPSTicks (clock s))
    /\ fpsFramesElapsed (clock s')
       = (if showFPS (g_Config s)
          then if 1000 <=? elapsed then 0 else n
          else fpsFramesElapsed (clock s)).
Proof.
  unfold iteration. intros H. simpl.
  set (s1 := run_frame s) in *.
  set (s2 := poll_inputs f s1) in *.
  set (s3 := ui_controls SUPERMODEL_VERSION f s2) in *.
  set (s4 := fps_display t (ticks f) s3) in *.
  destruct (frame_limit_extends _ _ _ H) as (del & Hdel & Pdel).
  destruct (frame_limit_flags _ _ _ H) as (_ & _ & _ & _ & _ & Hprev & Hfps).
  destruct (ui_controls_extends SUPERMODEL_VERSION f s2) as (mid & Hmid & Pmid).
  destruct (ui_controls_clock SUPERMODEL_VERSION f s2) as (Hc3 & Hshow3 & _).
  fold s3 in Hmid, Hc3, Hshow3.
  assert (Hc1 : clock s2 = clock s /\ g_Config s2 = g_Config s
                /\ trace s2 = trace s ++ (if paused s then []
                                          else [EvRunFrame; EvSwapBuffers])).
  { unfold s2, s1, poll_inputs, run_frame.
    destruct (poll_ok f), (paused s); simpl;
      rewrite <- ?app_assoc, ?app_nil_r; auto. }
  destruct Hc1 as (Hc2 & Hg2 & Ht2).
  rewrite Hc2 in Hc3. rewrite Hg2 in Hshow3.
  exists mid, del. rewrite Hprev, Hfps, Hdel. unfold s4, fps_display.
  rewrite Hshow3, Hc3.
  destruct (showFPS (g_Config s)); simpl.
  - destruct (1000 <=? _); simpl; rewrite Hmid, Ht2, <- ?app_assoc; simpl;
      rewrite <- ?app_assoc, ?Hc3; auto.
  - rewrite Hmid, Ht2, <- ?app_assoc, Hc3. auto.
Qed.

Lemma count_ui_event (p : Event -> bool) (l : list Event) :
  (forall e, ui_event e = true -> p e = false) ->
  forallb ui_event l = true -> count p l = 0%nat.
Proof.
  intros Hp Hl. apply count_none. apply (forallb_weaken ui_event); [|exact Hl].
  intros e He. rewrite (Hp e He). reflexivity.
Qed.

Lemma count_delay (p : Event -> bool) (l : list Event) :
  (forall e, is_Delay e = true -> p e = false) ->
  forallb is_Delay l = true -> count p l = 0%nat.
Proof.
  intros Hp Hl. apply count_none. apply (forallb_weaken is_Delay); [|exact Hl].
  intros e He. rewrite (Hp e He). reflexivity.
Qed.

(** C8. With the FPS display enabled, a pass increments the frame counter;
    when at least 1000 ms have elapsed since the last sample it sets the
    caption once, to the rate
    [(float)frames * (float)elapsed_ms / 1000.0f] (so 60 frames over
    2000 ms show as 120.0 and 120 frames over 500 ms as 60.0), and it
    restarts the sample window at the current tick with a counter of zero;
    otherwise it sets no caption and keeps the sample tick.  With the
    display disabled the counter, the sample tick and the caption are
    left alone. *)
Theorem fps_sample_formula (t : string) (f : Frame) (s s' : Session M FS)
    (Hstep : iteration SUPERMODEL_VERSION t f s = Some s') :
  let n := U32.incr (fpsFramesElapsed (clock s)) in
  let elapsed := U32.sub (ticks f) (prevFPSTicks (clock s)) in
  (showFPS (g_Config s) = true -> 1000 <= elapsed ->
     (exists before after,
        trace s' = trace s ++ before
                     ++ EvCaption t
                          (F32.div (F32.mul (F32.of_unsigned n)
                                            (F32.of_unsigned elapsed))
                                   (F32.of_unsigned 1000)) :: after
        /\ count is_Caption before = 0%nat /\ count is_Caption after = 0%nat)
     /\ prevFPSTicks (clock s') = ticks f
     /\ fpsFramesElapsed (clock s') = 0)
  /\ (showFPS (g_Config s) = true -> elapsed < 1000 ->
      count is_Caption (trace s') = count is_Caption (trace s)
      /\ prevFPSTicks (clock s') = prevFPSTicks (clock s)
      /\ fpsFramesElapsed (clock s') = n)
  /\ (showFPS (g_Config s) = false ->
      count is_Caption (trace s') = count is_Caption (trace s)
      /\ prevFPSTicks (clock s') = prevFPSTicks (clock s)
      /\ fpsFramesElapsed (clock s') = fpsFramesElapsed (clock s))
  /\ fps_value 60 2000 = F32.of_unsigned 120
  /\ fps_value 120 500 = F32.of_unsigned 60.
Proof.
  intros n elapsed.
  destruct (iteration_trace _ _ _ _ Hstep)
    as (mid & del & Ht & Pmid & Pdel & Hprev & Hfps).
  fold n elapsed in Ht, Hprev, Hfps.
  assert (Hmid0 : count is_Caption mid = 0%nat)
    by (apply count_ui_event; [intros [] E; (discriminate || reflexivity)|exact Pmid]).
  assert (Hdel0 : count is_Caption del = 0%nat)
    by (apply count_delay; [intros [] E; (discriminate || reflexivity)|exact Pdel]).
  assert (Hrun0 : count is_Caption (if paused s then []
                                    else [EvRunFrame; EvSwapBuffers]) = 0%nat)
    by (destruct (paused s); reflexivity).
  split; [|split; [|split; [|split]]].
  - intros Hshow Hdue. apply Z.leb_le in Hdue.
    rewrite Hshow, Hdue in Ht, Hprev, Hfps. simpl in Ht, Hprev.
    split; [|split; assumption].
    exists ((if paused s then [] else [EvRunFrame; EvSwapBuffers]) ++ mid), del.
    rewrite Ht, count_app, Hmid0, Hrun0, Hdel0, <- !app_assoc. auto.
  - intros Hshow Hdue. apply Z.leb_gt in Hdue.
    rewrite Hshow, Hdue in Ht, Hprev, Hfps. simpl in Ht, Hprev.
    split; [|split; assumption].
    rewrite Ht, !count_app, Hmid0, Hrun0, Hdel0. simpl. lia.
  - intros Hshow. rewrite Hshow in Ht, Hprev, Hfps. simpl in Ht, Hprev.
    split; [|split; assumption].
    rewrite Ht, !count_app, Hmid0, Hrun0, Hdel0. simpl. lia.
  - vm_compute. reflexivity.
  - vm_compute. reflexivity.
Qed.

(** C10. With the FPS display enabled the frame counter is incremented in
    every pass of the loop, also in a pass that starts paused, in which no
    frame is run and no buffer is swapped; the rate of the caption written
    in such a pass is computed from the counter so incremented. *)
Theorem fps_counter_counts_paused_passes (t : string) (f : Frame)
    (s s' : Session M FS)
    (Hstep : iteration SUPERMODEL_VERSION t f s = Some s')
    (Hshow : showFPS (g_Config s) = true) :
  let n := U32.incr (fpsFramesElapsed (clock s)) in
  let elapsed := U32.sub (ticks f) (prevFPSTicks (clock s)) in
  fpsFramesElapsed (clock s') = (if 1000 <=? elapsed then 0 else n)
  /\ (paused s = true ->
      count is_RunFrame (trace s') = count is_RunFrame (trace s)
      /\ run_frame s = s
      /\ (1000 <= elapsed ->
          In (EvCaption t (fps_value n elapsed)) (skipn (List.length (trace s)) (trace s'))))
  /\ (paused s = false ->
      count is_RunFrame (trace s') = (2 + count is_RunFrame (trace s))%nat).
Proof.
  intros n elapsed.
  destruct (iteration_trace _ _ _ _ Hstep)
    as (mid & del & Ht & Pmid & Pdel & Hprev & Hfps).
  fold n elapsed in Ht, Hprev, Hfps. rewrite Hshow in *. simpl in Ht.
  assert (Hmid0 : count is_RunFrame mid = 0%nat)
    by (apply count_ui_event; [intros [] E; (discriminate || reflexivity)|exact Pmid]).
  assert (Hdel0 : count is_RunFrame del = 0%nat)
    by (apply count_delay; [intros [] E; (discriminate || reflexivity)|exact Pdel]).
  assert (Hcap0 : count is_RunFrame
                    (if 1000 <=? elapsed
                     then [EvCaption t (fps_value n elapsed)] else []) = 0%nat)
    by (destruct (1000 <=? elapsed); reflexivity).
  split; [exact Hfps|]. split.
  - intros Hp. rewrite Hp in Ht. simpl in Ht. split; [|split].
    + rewrite Ht, !count_app, Hmid0, Hcap0, Hdel0. lia.
    + apply run_frame_paused. exact Hp.
    + intros Hdue. apply Z.leb_le in Hdue. rewrite Hdue in Ht. rewrite Ht.
      rewrite skipn_app, skipn_all, Nat.sub_diag. simpl.
      apply in_or_app. right. left. reflexivity.
  - intros Hp. rewrite Hp in Ht.
    rewrite Ht, !count_app, Hmid0, Hcap0, Hdel0.
    change (count is_RunFrame [EvRunFrame; EvSwapBuffers]) with 2%nat. lia.
Qed.

End FrameRate.

(** The paused reference session at tick 1100, 1000 ms after its last
    sample: the caption is due and the window restarts. *)
Lemma fps_sample_formula_witness :
  exists s',
    iteration "0.2a" "Supermodel - Scud Race" (Bench.idle 1100)
      Bench.session_paused = Some s'
    /\ prevFPSTicks (clock s') = 1100 /\ fpsFramesElapsed (clock s') = 0.
Proof.
  eexists. split; [reflexivity|].
  refine (proj2 (proj1 (fps_sample_formula "0.2a" "Supermodel - Scud Race"
                          (Bench.idle 1100) Bench.session_paused _ eq_refl) _ _)).
  - reflexivity.
  - vm_compute. discriminate.
Defined.

(** The paused reference session at tick 500: the counter goes from 59 to
    60 although no frame is run. *)
Lemma fps_counter_counts_paused_passes_witness :
  exists s',
    iteration "0.2a" "Supermodel - Scud Race" (Bench.idle 500)
      Bench.session_paused = Some s'
    /\ fpsFramesElapsed (clock s') = 60
    /\ count is_RunFrame (trace s') = 0%nat.
Proof.
  eexists. split; [reflexivity|].
  destruct (fps_counter_counts_paused_passes "0.2a"
              "Supermodel - Scud Race" (Bench.idle 500)
              Bench.session_paused _ eq_refl eq_refl) as (Hc & Hp & _).
  split; [exact Hc|].
  destruct (Hp eq_refl) as (Hr & _). exact Hr.
Defined.

(** ** Frame limiting *)

(** For the first 65535 frames of an epoch the float expression of the
    target is exact: checked frame by frame. *)
Lemma frame_offset_table : all_range frame_offset_check 65535 1 = true.
Proof. vm_cast_no_check (eq_refl true). Qed.

Lemma frame_offset_exact (n : Z) :
  1 <= n <= 65535 -> frame_offset n = Some (n * 1000 / 60).
Proof.
  intros Hn.
  pose proof (all_range_spec _ _ _ frame_offset_table n ltac:(lia)) as H.
  unfold frame_offset_check in H.
  destruct (frame_offset n) as [d|]; [|discriminate].
  apply Z.eqb_eq in H. subst d. reflexivity.
Qed.

Section Pacing.

Context {M FS : Type}.

Lemma wrap_small (z : Z) : 0 <= z < U32.modulus -> U32.wrap z = z.
Proof. intros H. unfold U32.wrap. apply Z.mod_small. exact H. Qed.

Lemma wrap_range (z : Z) : 0 <= U32.wrap z < U32.modulus.
Proof. unfold U32.wrap. apply Z.mod_pos_bound. reflexivity. Qed.


End Pacing.


(** ** The save slot *)

Lemma append_cancel_l (a b c : string) :
  (a ++ b)%string = (a ++ c)%string -> b = c.
Proof.
  induction a as [|x a IH]; simpl; intros H; [exact H|].
  injection H as H. exact (IH H).
Qed.


Section Slots.

Context {M FS BF : Type}.
Context {BFO : BlockFileOps FS BF} {M3O : Model3Ops M BF}.
Variable SUPERMODEL_VERSION : string.





End Slots.


(** ** Loading a container whose header is rejected *)

Section Rejection.

Context {M FS BF : Type}.
Context {BFO : BlockFileOps FS BF} {M3O : Model3Ops M BF}.
Variable SUPERMODEL_VERSION : string.

Lemma header_ok_false (bf : BF) (k : Kind) :
  fst (bf_FindBlock bf (block_name k)) = false
  \/ fst (bf_ReadInt (snd (bf_FindBlock bf (block_name k)))) <> file_version k ->
  header_ok bf k = false.
Proof.
  unfold header_ok. destruct (bf_FindBlock bf _) as [found bf']. simpl.
  intros [-> | Hv]; [reflexivity|].
  apply Z.eqb_neq in Hv. rewrite Hv. apply andb_false_r.
Qed.

(** C2. A LoadState or LoadNVRAM that opens its file and then does not
    find the top-level block, or reads a format version other than the one
    of this build, returns with the machine as it was: the machine's
    deserialiser is not called, the file system is not written, and the
    only calls made are the opening of the file and one error message. *)
Theorem load_rejected_keeps_machine (k : Kind) (s : Session M FS) (bf : BF)
    (Hload : bf_Load (files s) (container_path k s) = Some bf)
    (Hreject :
       fst (bf_FindBlock bf (block_name k)) = false
       \/ fst (bf_ReadInt (snd (bf_FindBlock bf (block_name k))))
          <> file_version k) :
  Model3 (load k s) = Model3 s
  /\ files (load k s) = files s
  /\ count is_deserialize (trace (load k s)) = count is_deserialize (trace s)
  /\ exists msg,
       trace (load k s)
       = trace s ++ [EvFileOpen (container_path k s); EvErrorLog msg].
Proof.
  apply header_ok_false in Hreject.
  destruct (load_rejected k s bf Hload Hreject) as (msg & ->). simpl.
  split; [reflexivity|]. split; [reflexivity|]. split.
  - rewrite <- app_assoc, count_app. unfold count at 2. simpl. lia.
  - exists msg. rewrite <- app_assoc. reflexivity.
Qed.

End Rejection.

(** On the reference disk the slot-0 save state has no header block and
    the NVRAM file has version 7: both loads leave the machine alone. *)
Lemma load_rejected_keeps_machine_witness :
  Model3 (LoadState Bench.session_bad) = Model3 Bench.session_bad
  /\ Model3 (LoadNVRAM Bench.session_bad) = Model3 Bench.session_bad.
Proof.
  split.
  - refine (proj1 (load_rejected_keeps_machine SaveStateKind Bench.session_bad
                     _ eq_refl _)).
    left. reflexivity.
  - refine (proj1 (load_rejected_keeps_machine NVRAMKind Bench.session_bad
                     _ eq_refl _)).
    right. vm_compute. discriminate.
Defined.

(** ** The exit paths of the driver *)

Section ExitPaths.

Context {M FS BF : Type}.
Context {BFO : BlockFileOps FS BF} {M3O : Model3Ops M BF}.
Variable SUPERMODEL_VERSION : string.

Lemma iteration_extends (t : string) (f : Frame) (s s' : Session M FS) :
  iteration SUPERMODEL_VERSION t f s = Some s' -> extends loop_event s s'.
Proof.
  unfold iteration. intros H.
  apply (extends_trans _ _ (run_frame s)); [apply run_frame_extends|].
  apply (extends_trans _ _ (poll_inputs f (run_frame s)));
    [apply poll_inputs_extends|].
  eapply extends_trans;
    [apply (extends_weaken ui_event);
     [|apply (ui_controls_extends SUPERMODEL_VERSION)]|].
  { intros e He. unfold loop_event, paused_event. rewrite He. reflexivity. }
  eapply extends_trans;
    [apply (extends_weaken is_Caption); [|apply fps_display_extends]|].
  { intros e He. unfold loop_event, paused_event. rewrite He.
    rewrite orb_true_r. reflexivity. }
  apply (extends_weaken is_Delay); [|exact (frame_limit_extends _ _ _ H)].
  intros e He. unfold loop_event, paused_event. rewrite He.
  rewrite orb_true_r. reflexivity.
Qed.

Lemma main_loop_extends (t : string) (frames : list Frame)
    (s s' : Session M FS) :
  main_loop SUPERMODEL_VERSION t frames s = LoopExit s' ->
  extends loop_event s s' /\ quit s' = true.
Proof.
  revert s. induction frames as [|f rest IH]; intros s; simpl.
  - destruct (quit s) eqn:Hq; [|discriminate].
    intros [= <-]. split; [apply extends_refl|exact Hq].
  - destruct (quit s) eqn:Hq.
    + intros [= <-]. split; [apply extends_refl|exact Hq].
    + destruct (iteration SUPERMODEL_VERSION t f s) as [s1|] eqn:Hit;
        [|discriminate].
      intros H. destruct (IH _ H) as (He & Hq'). split; [|exact Hq'].
      exact (extends_trans _ _ _ _ (iteration_extends _ _ _ _ Hit) He).
Qed.

Lemma LoadNVRAM_extends (s : Session M FS) :
  extends nvram_load_event s (LoadNVRAM s).
Proof.
  unfold LoadNVRAM.
  destruct (bf_Load _ _) as [bf|]; [|apply extends_refl].
  destruct (bf_FindBlock bf _) as [[|] bf']; simpl;
    [|repeat (apply extends_log; [reflexivity|]); apply extends_refl].
  destruct (bf_ReadInt bf') as [v bf'']; destruct (v =? _); simpl;
    [|repeat (apply extends_log; [reflexivity|]); apply extends_refl].
  destruct (m3_LoadNVRAM _ _) as [m b].
  repeat (apply extends_log; [reflexivity|]).
  apply extends_same_trace. reflexivity.
Qed.

(** The trace of a session as a prefix and the calls that follow. *)
Lemma extends_from (p : Event -> bool) (prefix : list Event)
    (s s' : Session M FS) :
  trace s = prefix -> extends p s s' ->
  exists extra, trace s' = prefix ++ extra /\ forallb p extra = true.
Proof. intros <- H. exact H. Qed.

(** What the start-up code leaves in the trace: the three [new]s, then
    calls of [LoadNVRAM]; on the way into the loop, then [OpenAudio], the
    mouse visibility and the reset. *)
Lemma start_up_trace (cfg : Config) (slot : Z) (fs : FS) (st : Startup) :
  match start_up cfg slot fs st with
  | inr (_, s) =>
      exists extra,
        trace s = [EvNew ObjModel3; EvNew ObjRender2D; EvNew ObjRender3D]
                  ++ extra
                  ++ [EvOpenAudio; EvMouseVisibility (negb (fullScreen cfg));
                      EvReset]
        /\ forallb nvram_load_event extra = true
  | inl (Returned code s) =>
      code = 1
      /\ exists extra,
           forallb nvram_load_event extra = true
           /\ (trace s = [EvNew ObjModel3; EvNew ObjRender2D; EvNew ObjRender3D]
                         ++ extra
               \/ trace s = [EvNew ObjModel3; EvNew ObjRender2D;
                             EvNew ObjRender3D]
                            ++ extra
                            ++ [EvOpenAudio;
                                EvMouseVisibility (negb (fullScreen cfg));
                                EvDelete ObjModel3; EvDelete ObjRender2D;
                                EvDelete ObjRender3D])
  | inl _ => True
  end.
Proof.
  unfold start_up.
  destruct (m3_Init _) as [[|] m1]; simpl;
    [|split; [reflexivity|exists []; auto]].
  destruct (m3_LoadROMSet _ _) as [[|] m2]; simpl;
    [|split; [reflexivity|exists []; auto]].
  match goal with |- context [LoadNVRAM ?x] =>
    destruct (LoadNVRAM_extends x) as (extra & Hx & Px); simpl in Hx
  end.
  destruct (CreateGLScreen _ _ _ _ _); [| |exact I].
  - destruct (audio_ok st); simpl; [|split; [reflexivity|exists extra; auto]].
    destruct (render2D_ok st); simpl.
    + destruct (render3D_ok st); simpl.
      * exists extra. rewrite Hx. simpl. rewrite <- !app_assoc. auto.
      * split; [reflexivity|]. exists extra. split; [exact Px|]. right.
        rewrite Hx. simpl. rewrite <- !app_assoc. reflexivity.
    + split; [reflexivity|]. exists extra. split; [exact Px|]. right.
      rewrite Hx. simpl. rewrite <- !app_assoc. reflexivity.
  - split; [reflexivity|]. exists extra. auto.
Qed.

Lemma count_where (p q : Event -> bool) (l : list Event) :
  (forall e, p e = true -> q e = false) ->
  forallb p l = true -> count q l = 0%nat.
Proof.
  intros Hpq Hl. apply count_none. apply (forallb_weaken p); [|exact Hl].
  intros e He. rewrite (Hpq e He). reflexivity.
Qed.

Lemma loop_event_inside (e : Event) :
  loop_event e = true -> outside_loop e = false.
Proof. destruct e; simpl; intros H; (discriminate || reflexivity). Qed.

(** What follows the loop: one entry of [SaveNVRAM], the audio closed and
    the three objects deleted. *)
Lemma shut_down_trace (s : Session M FS) :
  exists extra s',
    shut_down SUPERMODEL_VERSION s = Returned 0 s'
    /\ trace s' = trace s ++ EvCallSaveNVRAM :: extra
                    ++ [EvCloseAudio; EvDelete ObjModel3;
                        EvDelete ObjRender2D; EvDelete ObjRender3D]
    /\ forallb save_nvram_event extra = true.
Proof.
  destruct (SaveNVRAM_trace SUPERMODEL_VERSION s) as (extra & Ht & Px).
  exists extra. eexists. split; [reflexivity|]. split; [|exact Px].
  simpl. rewrite Ht. rewrite <- !app_assoc. reflexivity.
Qed.

End ExitPaths.

Section ExitContract.

Context {M FS BF : Type}.
Context {BFO : BlockFileOps FS BF} {M3O : Model3Ops M BF}.
Variable SUPERMODEL_VERSION : string.

Lemma exit_counted_zero (q : Event -> bool) (p : Event -> bool)
    (l : list Event) :
  exit_counted q ->
  (forall e, p e = true ->
     match e with
     | EvNew _ | EvDelete _ | EvOpenAudio | EvCloseAudio | EvCallSaveNVRAM =>
         False
     | _ => True
     end) ->
  forallb p l = true -> count q l = 0%nat.
Proof.
  intros Hq Hp Hl. apply (count_where p); [|exact Hl].
  intros e He. specialize (Hq e). specialize (Hp e He).
  destruct e; try contradiction; exact Hq.
Qed.

Lemma exit_counted_run (q : Event -> bool) (cfg : Config)
    (extra loop tail : list Event) :
  exit_counted q ->
  forallb nvram_load_event extra = true ->
  forallb loop_event loop = true ->
  forallb save_nvram_event tail = true ->
  count q
    ((([EvNew ObjModel3; EvNew ObjRender2D; EvNew ObjRender3D] ++ extra
       ++ [EvOpenAudio; EvMouseVisibility (negb (fullScreen cfg)); EvReset])
      ++ loop)
     ++ EvCallSaveNVRAM :: tail
     ++ [EvCloseAudio; EvDelete ObjModel3; EvDelete ObjRender2D;
         EvDelete ObjRender3D])
  = count q [EvNew ObjModel3; EvNew ObjRender2D; EvNew ObjRender3D;
             EvOpenAudio; EvCallSaveNVRAM; EvCloseAudio; EvDelete ObjModel3;
             EvDelete ObjRender2D; EvDelete ObjRender3D].
Proof.
  intros Hq Hx Hl Ht.
  change (EvCallSaveNVRAM :: tail ++ ?l) with ([EvCallSaveNVRAM] ++ tail ++ l).
  rewrite !count_app.
  rewrite (exit_counted_zero q nvram_load_event extra Hq) by
    (try exact Hx; intros e He; destruct e; (discriminate || exact I)).
  rewrite (exit_counted_zero q loop_event loop Hq) by
    (try exact Hl; intros e He; destruct e; (discriminate || exact I)).
  rewrite (exit_counted_zero q save_nvram_event tail Hq) by
    (try exact Ht; intros e He; destruct e; (discriminate || exact I)).
  pose proof (Hq (EvMouseVisibility (negb (fullScreen cfg)))) as Hm.
  pose proof (Hq EvReset) as Hr. simpl in Hm, Hr.
  unfold count. simpl. rewrite Hm, Hr.
  destruct (q (EvNew ObjModel3)), (q (EvNew ObjRender2D)),
    (q (EvNew ObjRender3D)), (q EvOpenAudio), (q EvCallSaveNVRAM),
    (q EvCloseAudio), (q (EvDelete ObjModel3)), (q (EvDelete ObjRender2D)),
    (q (EvDelete ObjRender3D)); reflexivity.
Qed.

Lemma exit_counted_early (q : Event -> bool) (extra tail : list Event) :
  exit_counted q ->
  forallb nvram_load_event extra = true ->
  count q ([EvNew ObjModel3; EvNew ObjRender2D; EvNew ObjRender3D] ++ extra
           ++ tail)
  = count q ([EvNew ObjModel3; EvNew ObjRender2D; EvNew ObjRender3D] ++ tail).
Proof.
  intros Hq Hx. rewrite !count_app.
  rewrite (exit_counted_zero q nvram_load_event extra Hq) by
    (try exact Hx; intros e He; destruct e; (discriminate || exact I)).
  reflexivity.
Qed.

(** C1, as the code has it.  When [Supermodel] returns after its loop (the
    Exit command or a failed poll) it returns 0, having entered
    [SaveNVRAM] exactly once, closed the audio it opened and deleted each
    of the three objects it created exactly once.  When it returns before
    the loop, on a failed initialisation, it returns 1 and has not entered
    [SaveNVRAM]; if the failure is that of a renderer (the audio is open
    by then) it has deleted each of the three objects once. *)
Theorem Supermodel_exit_paths (cfg : Config) (slot : Z) (fs : FS)
    (st : Startup) (frames : list Frame) (code : Z) (s : Session M FS)
    (Hret : Supermodel SUPERMODEL_VERSION cfg slot fs st frames
            = Returned code s) :
  (code = 0
   /\ (exists t s0, start_up cfg slot fs st = inr (t, s0))
   /\ saves_once_and_releases s)
  \/ (code = 1
      /\ start_up cfg slot fs st = inl (Returned 1 s)
      /\ count is_CallSaveNVRAM (trace s) = 0%nat
      /\ (count is_OpenAudio (trace s) = 1%nat ->
          forall o, count (is_Delete o) (trace s) = 1%nat)).
Proof.
  unfold Supermodel in Hret.
  pose proof (start_up_trace cfg slot fs st) as Hstart.
  destruct (start_up cfg slot fs st) as [r | [t s0]].
  - subst r. right. destruct Hstart as (-> & extra & Px & Ht).
    split; [reflexivity|]. split; [reflexivity|].
    destruct Ht as [Ht | Ht]; rewrite Ht.
    + rewrite <- (app_nil_r extra).
      rewrite !exit_counted_early by (try exact Px; intros []; simpl; auto).
      split; [reflexivity|]. intros H. discriminate H.
    + rewrite !exit_counted_early by (try exact Px; intros []; simpl; auto).
      split; [reflexivity|]. intros _ o.
      rewrite !exit_counted_early by (try exact Px; intros []; simpl; auto).
      destruct o; reflexivity.
  - left. destruct Hstart as (extra & Ht0 & Px).
    destruct (main_loop SUPERMODEL_VERSION t frames s0) as [s1| |] eqn:Hloop;
      try discriminate.
    destruct (main_loop_extends _ _ _ _ _ Hloop) as ((loop & Ht1 & Pl) & _).
    destruct (shut_down_trace SUPERMODEL_VERSION s1)
      as (tail & s2 & Hsd & Ht2 & Ptl).
    rewrite Hsd in Hret. injection Hret as <- <-.
    split; [reflexivity|]. split; [exists t, s0; reflexivity|].
    rewrite Ht1, Ht0 in Ht2. unfold saves_once_and_releases. rewrite Ht2.
    rewrite !(exit_counted_run _ cfg extra loop tail)
      by (try assumption; intros []; simpl; auto).
    split; [reflexivity|]. split; [reflexivity|].
    intros o.
    rewrite !(exit_counted_run _ cfg extra loop tail)
      by (try assumption; intros []; simpl; auto).
    destruct o; split; reflexivity.
Qed.

End ExitContract.

(** The claim as the specification states it fails when the 2D renderer
    does not initialise: [Supermodel] returns through [QuitError], and
    [SaveNVRAM] has not been entered. *)
Lemma exit_contract_fails_on_renderer_failure :
  ~ (forall code s,
       Supermodel "0.2a" Bench.config 0 Bench.empty_disk
         Bench.startup_no_renderer [Bench.press_exit 102] = Returned code s ->
       saves_once_and_releases s).
Proof.
  intros H.
  destruct (Supermodel "0.2a" Bench.config 0 Bench.empty_disk
              Bench.startup_no_renderer [Bench.press_exit 102])
    as [code s| |] eqn:E; [|vm_compute in E; discriminate E..].
  destruct (H code s eq_refl) as (H1 & _).
  vm_compute in E. injection E as _ <-.
  vm_compute in H1. discriminate H1.
Qed.

(** The reference session run for two passes, the second with Exit. *)
Lemma Supermodel_exit_paths_witness :
  Supermodel "0.2a" Bench.config 0 Bench.empty_disk Bench.startup
    [Bench.idle 102; Bench.press_exit 118] = Returned 0 Bench.final_session
  /\ saves_once_and_releases Bench.final_session.
Proof.
  assert (E : Supermodel "0.2a" Bench.config 0 Bench.empty_disk Bench.startup
                [Bench.idle 102; Bench.press_exit 118]
              = Returned 0 Bench.final_session)
    by (vm_compute; reflexivity).
  split; [exact E|].
  destruct (Supermodel_exit_paths "0.2a" Bench.config 0 Bench.empty_disk
              Bench.startup [Bench.idle 102; Bench.press_exit 118] 0
              Bench.final_session E)
    as [(_ & _ & Hok) | (Hc & _)]; [exact Hok | discriminate Hc].
Defined.

(** ** The loop ends *)

Section Termination.

Context {M FS BF : Type}.
Context {BFO : BlockFileOps FS BF} {M3O : Model3Ops M BF}.
Variable SUPERMODEL_VERSION : string.

(** A pass is defined as long as the frame index of the epoch is below
    65535, and it raises the index by one at most. *)
Lemma iteration_defined (t : string) (f : Frame) (s : Session M FS) :
  0 <= framesElapsed (clock s) < 65535 ->
  exists s',
    iteration SUPERMODEL_VERSION t f s = Some s'
    /\ 0 <= framesElapsed (clock s') <= framesElapsed (clock s) + 1.
Proof.
  intros Hidx. unfold iteration.
  set (s3 := ui_controls SUPERMODEL_VERSION f (poll_inputs f (run_frame s))).
  assert (Hc : clock s3 = clock s).
  { unfold s3. destruct (ui_controls_clock SUPERMODEL_VERSION f
                           (poll_inputs f (run_frame s))) as (-> & _).
    unfold poll_inputs, run_frame.
    destruct (poll_ok f), (paused s); reflexivity. }
  set (s4 := fps_display t (ticks f) s3).
  assert (Hf : framesElapsed (clock s4) = framesElapsed (clock s)).
  { unfold s4, fps_display. rewrite Hc.
    destruct (showFPS _); [|rewrite Hc; reflexivity].
    destruct (1000 <=? _); reflexivity. }
  unfold frame_limit. destruct (paused s4 || _).
  - assert (Hincr : U32.incr (framesElapsed (clock s4))
                    = framesElapsed (clock s) + 1).
    { rewrite Hf. unfold U32.incr. apply wrap_small. unfold U32.modulus. lia. }
    rewrite Hincr, frame_offset_exact by lia.
    destruct (ticks f <=? _); eexists; (split; [reflexivity|simpl; lia]).
  - eexists. split; [reflexivity|]. rewrite Hf. lia.
Qed.

(** Given passes of which one asserts Exit or has a failing poll, the loop
    exits. *)
Lemma main_loop_exits (t : string) (frames : list Frame) (s : Session M FS) :
  0 <= framesElapsed (clock s) ->
  framesElapsed (clock s) + Z.of_nat (List.length frames) <= 65535 ->
  existsb (fun f => uiExit f || negb (poll_ok f)) frames = true ->
  exists s', main_loop SUPERMODEL_VERSION t frames s = LoopExit s'.
Proof.
  revert s. induction frames as [|f rest IH]; intros s H0 Hlen Hex.
  - discriminate Hex.
  - cbn [main_loop]. destruct (quit s) eqn:Hq; [eexists; reflexivity|].
    cbn [List.length] in Hlen. rewrite Nat2Z.inj_succ in Hlen.
    destruct (iteration_defined t f s) as (s1 & Hit & Hidx); [lia|].
    rewrite Hit.
    destruct (iteration_flags _ _ _ _ _ Hit) as (Hq1 & _).
    rewrite Hq in Hq1. simpl in Hq1, Hex.
    destruct (quit s1) eqn:Hqs1.
    + exists s1. destruct rest; simpl; rewrite Hqs1; reflexivity.
    + apply IH; [lia|lia|].
      rewrite orb_comm in Hq1. rewrite <- Hq1 in Hex. exact Hex.
Qed.

(** Once the start-up code has entered the loop, [Supermodel] returns 0 on
    such passes. *)
Lemma Supermodel_returns (cfg : Config) (slot : Z) (fs : FS) (st : Startup)
    (frames : list Frame) (t : string) (s0 : Session M FS) :
  start_up cfg slot fs st = inr (t, s0) ->
  Z.of_nat (List.length frames) <= 65535 ->
  existsb (fun f => uiExit f || negb (poll_ok f)) frames = true ->
  exists s, Supermodel SUPERMODEL_VERSION cfg slot fs st frames = Returned 0 s.
Proof.
  intros Hstart Hlen Hex. unfold Supermodel. rewrite Hstart.
  destruct (start_up_entry _ _ _ _ _ _ Hstart) as (_ & _ & _ & _ & Hc).
  destruct (main_loop_exits t frames s0) as (s1 & ->);
    [rewrite Hc; simpl; lia | rewrite Hc; simpl; lia | exact Hex|].
  destruct (shut_down_trace SUPERMODEL_VERSION s1) as (_ & s2 & -> & _).
  exists s2. reflexivity.
Qed.

End Termination.

(** ** The aspect ratio *)

Lemma digits2_pos_bounds (m : positive) :
  2 ^ (Zpos (digits2_pos m) - 1) <= Zpos m < 2 ^ Zpos (digits2_pos m).
Proof.
  induction m as [p IH|p IH|]; simpl digits2_pos.
  - rewrite Pos2Z.inj_succ, (Pos2Z.inj_xI p).
    replace (Z.succ (Zpos (digits2_pos p)) - 1)
      with (Z.succ (Zpos (digits2_pos p) - 1)) by lia.
    rewrite !Z.pow_succ_r by lia. lia.
  - rewrite Pos2Z.inj_succ, (Pos2Z.inj_xO p).
    replace (Z.succ (Zpos (digits2_pos p)) - 1)
      with (Z.succ (Zpos (digits2_pos p) - 1)) by lia.
    rewrite !Z.pow_succ_r by lia. lia.
  - simpl. lia.
Qed.

(** On canonical positive normal numbers the float order is the order of
    the scaled values. *)
Lemma ltb_scaled (a b : F32.float) :
  F32.normal_pos a = true -> F32.normal_pos b = true ->
  F32.ltb a b = (F32.scaled a <? F32.scaled b).
Proof.
  destruct a as [| | |[|] m1 e1]; try discriminate.
  destruct b as [| | |[|] m2 e2]; try discriminate.
  unfold F32.normal_pos, F32.prec, F32.emax. intros Ha Hb.
  apply andb_prop in Ha. destruct Ha as [Ha _].
  apply andb_prop in Ha. destruct Ha as [Hd1 He1].
  apply andb_prop in Hb. destruct Hb as [Hb _].
  apply andb_prop in Hb. destruct Hb as [Hd2 He2].
  apply Z.eqb_eq in Hd1, Hd2. apply Z.leb_le in He1, He2.
  pose proof (digits2_pos_bounds m1) as B1.
  pose proof (digits2_pos_bounds m2) as B2.
  rewrite Hd1 in B1. rewrite Hd2 in B2.
  change (2 ^ (24 - 1)) with 8388608 in B1, B2.
  change (2 ^ 24) with 16777216 in B1, B2.
  unfold F32.ltb, SFltb, SFcompare, F32.scaled.
  destruct (Z.compare_spec e1 e2) as [Heq|Hlt|Hgt].
  - subst e2. assert (0 < 2 ^ (e1 + 24)) by (apply Z.pow_pos_nonneg; lia).
    change (Pos.compare_cont Eq m1 m2) with (Pos.compare m1 m2).
    rewrite Pos2Z.inj_compare.
    destruct (Z.compare_spec (Zpos m1) (Zpos m2)); symmetry;
      [apply Z.ltb_ge | apply Z.ltb_lt | apply Z.ltb_ge]; nia.
  - symmetry. apply Z.ltb_lt.
    replace (e2 + 24) with ((e1 + 24) + (e2 - e1)) by lia.
    rewrite (Z.pow_add_r 2 (e1 + 24) (e2 - e1)) by lia.
    assert (HP : 0 < 2 ^ (e1 + 24)) by (apply Z.pow_pos_nonneg; lia).
    assert (HQ : 2 ^ 1 <= 2 ^ (e2 - e1)) by (apply Z.pow_le_mono_r; lia).
    change (2 ^ 1) with 2 in HQ.
    set (P := 2 ^ (e1 + 24)) in *. set (Q := 2 ^ (e2 - e1)) in *.
    assert (Z.pos m1 * P < 16777216 * P)
      by (apply Z.mul_lt_mono_pos_r; lia).
    assert (P * 2 <= P * Q) by (apply Z.mul_le_mono_nonneg_l; lia).
    assert (8388608 * (P * Q) <= Z.pos m2 * (P * Q))
      by (apply Z.mul_le_mono_nonneg_r; lia).
    lia.
  - symmetry. apply Z.ltb_ge.
    replace (e1 + 24) with ((e2 + 24) + (e1 - e2)) by lia.
    rewrite (Z.pow_add_r 2 (e2 + 24) (e1 - e2)) by lia.
    assert (HP : 0 < 2 ^ (e2 + 24)) by (apply Z.pow_pos_nonneg; lia).
    assert (HQ : 2 ^ 1 <= 2 ^ (e1 - e2)) by (apply Z.pow_le_mono_r; lia).
    change (2 ^ 1) with 2 in HQ.
    set (P := 2 ^ (e2 + 24)) in *. set (Q := 2 ^ (e1 - e2)) in *.
    assert (Z.pos m2 * P < 16777216 * P)
      by (apply Z.mul_lt_mono_pos_r; lia).
    assert (P * 2 <= P * Q) by (apply Z.mul_le_mono_nonneg_l; lia).
    assert (8388608 * (P * Q) <= Z.pos m1 * (P * Q))
      by (apply Z.mul_le_mono_nonneg_r; lia).
    lia.
Qed.

Lemma ltb_irrefl (a : F32.float) :
  F32.normal_pos a = true -> F32.ltb a a = false.
Proof. intros H. rewrite (ltb_scaled a a H H). apply Z.ltb_irrefl. Qed.

(** The comparison of an exact integer with a float, through [below]. *)
Lemma ltb_int_below (n : Z) (a g : F32.float) :
  F32.normal_pos a = true -> F32.normal_pos g = true ->
  F32.scaled a = Z.shiftl n 24 ->
  F32.ltb a g = (n <=? below g).
Proof.
  intros Ha Hg Hs. rewrite (ltb_scaled a g Ha Hg), Hs.
  unfold below. rewrite Z.shiftl_mul_pow2, Z.shiftr_div_pow2 by lia.
  change (2 ^ 24) with 16777216.
  destruct (Z.ltb_spec (n * 16777216) (F32.scaled g));
    destruct (Z.leb_spec n ((F32.scaled g - 1) / 16777216)); try reflexivity.
  - exfalso.
    assert (n * 16777216 <= F32.scaled g - 1) by lia.
    pose proof (Z.div_le_mono _ _ 16777216 ltac:(lia) H1) as Hd.
    rewrite Z.div_mul in Hd by lia. lia.
  - exfalso.
    pose proof (Z.mul_div_le (F32.scaled g - 1) 16777216 ltac:(lia)). nia.
Qed.

(** The two tables. *)
Lemma width_table : all_range check_width 65535 1 = true.
Proof. vm_cast_no_check (eq_refl true). Qed.

Lemma height_table : all_range check_height 65535 1 = true.
Proof. vm_cast_no_check (eq_refl true). Qed.

Lemma check_int_spec (n : Z) :
  check_int n = true ->
  F32.normal_pos (F32.of_unsigned n) = true
  /\ F32.scaled (F32.of_unsigned n) = Z.shiftl n 24
  /\ F32.to_unsigned (F32.of_unsigned n) = Some n.
Proof.
  unfold check_int, unsigned_of. cbv zeta. intros H.
  apply andb_prop in H. destruct H as [H H3].
  apply andb_prop in H. destruct H as [H1 H2].
  apply Z.eqb_eq in H2. split; [exact H1|]. split; [exact H2|].
  destruct (F32.to_unsigned (F32.of_unsigned n)) as [k|].
  - apply Z.eqb_eq in H3. subst k. reflexivity.
  - apply Z.eqb_eq in H3. rewrite <- H3 in H1.
    vm_compute in H1. discriminate H1.
Qed.

Lemma width_facts (w : Z) :
  1 <= w <= 65535 ->
  check_int w = true
  /\ F32.normal_pos (div_ratio w) = true
  /\ F32.to_unsigned (div_ratio w) = Some (height_for w)
  /\ 0 <= height_for w <= below (div_ratio w) + 1
  /\ Z.abs (384 * w - 496 * height_for w) < 496
  /\ 24 * w <= 31 * (below (div_ratio w) + 1)
  /\ below (div_ratio w) <= w
  /\ (below (div_ratio w) = 0 \/ width_for (below (div_ratio w)) <= w).
Proof.
  intros Hw.
  pose proof (all_range_spec _ _ _ width_table w ltac:(lia)) as H.
  unfold check_width in H. cbv zeta in H. fold (height_for w) in H.
  apply andb_prop in H. destruct H as [H Hmono].
  apply andb_prop in H. destruct H as [H Hlo].
  apply andb_prop in H. destruct H as [H Hexact].
  apply andb_prop in H. destruct H as [H Hratio].
  apply andb_prop in H. destruct H as [H Hup].
  apply andb_prop in H. destruct H as [H Hpos].
  apply andb_prop in H. destruct H as [Hint Hnorm].
  apply Z.leb_le in Hlo, Hexact, Hup, Hpos. apply Z.ltb_lt in Hratio.
  split; [exact Hint|]. split; [exact Hnorm|]. split; [|split; [lia|]].
  - revert Hpos. unfold height_for, unsigned_of.
    destruct (F32.to_unsigned (div_ratio w)); [reflexivity|lia].
  - split; [exact Hratio|]. split; [exact Hexact|]. split; [exact Hlo|].
    apply orb_prop in Hmono. destruct Hmono as [H0|H0];
      [left; apply Z.eqb_eq in H0; exact H0 | right; apply Z.leb_le; exact H0].
Qed.

Lemma height_facts (h : Z) :
  1 <= h <= 65535 ->
  check_int h = true
  /\ F32.normal_pos (mul_ratio h) = true
  /\ F32.to_unsigned (mul_ratio h) = Some (width_for h)
  /\ 0 <= width_for h <= width_for (h + 1)
  /\ Z.abs (384 * width_for h - 496 * h) < 496
  /\ 31 * h <= 24 * (below (mul_ratio h) + 1).
Proof.
  intros Hh.
  pose proof (all_range_spec _ _ _ height_table h ltac:(lia)) as H.
  unfold check_height in H. cbv zeta in H. fold (width_for h) in H.
  apply andb_prop in H. destruct H as [H Hexact].
  apply andb_prop in H. destruct H as [H Hratio].
  apply andb_prop in H. destruct H as [H Hnext].
  apply andb_prop in H. destruct H as [H Hpos].
  apply andb_prop in H. destruct H as [Hint Hnorm].
  apply Z.leb_le in Hexact, Hnext, Hpos. apply Z.ltb_lt in Hratio.
  split; [exact Hint|]. split; [exact Hnorm|]. split; [|split; [lia|]].
  - revert Hpos. unfold width_for, unsigned_of.
    destruct (F32.to_unsigned (mul_ratio h)); [reflexivity|lia].
  - split; [exact Hratio|exact Hexact].
Qed.

(** The resolved width does not decrease with the height. *)
Lemma width_for_mono (a : Z) (k : nat) :
  1 <= a -> a + Z.of_nat k <= 65536 ->
  width_for a <= width_for (a + Z.of_nat k).
Proof.
  intros Ha. induction k as [|k IH]; intros Hk.
  - rewrite Z.add_0_r. lia.
  - rewrite Nat2Z.inj_succ in *.
    destruct (height_facts (a + Z.of_nat k) ltac:(lia))
      as (_ & _ & _ & Hm & _).
    replace (a + Z.succ (Z.of_nat k)) with (a + Z.of_nat k + 1) by lia.
    specialize (IH ltac:(lia)). lia.
Qed.

(** The size resolved under [keepAspectRatio] for a request within the
    tables. *)
Lemma fix_aspect_resolved (w h : Z) :
  1 <= w <= 65535 -> 1 <= h <= 65535 ->
  exists rw rh,
    F32.to_unsigned (fst (fix_aspect (F32.of_unsigned w) (F32.of_unsigned h)))
    = Some rw
    /\ F32.to_unsigned
         (snd (fix_aspect (F32.of_unsigned w) (F32.of_unsigned h)))
       = Some rh
    /\ 0 <= rw <= w /\ 0 <= rh <= h /\ ratio_within_rounding rw rh.
Proof.
  intros Hw Hh.
  destruct (width_facts w Hw)
    as (Wint & Wnorm & Wconv & Wb & Wratio & Wexact & Wlo & Wmono).
  destruct (height_facts h Hh) as (Hint & Hnorm & Hconv & Ha & Hratio & Hexact).
  destruct (check_int_spec w Wint) as (Wn & Ws & Wu).
  destruct (check_int_spec h Hint) as (Hn & Hs & Hu).
  unfold fix_aspect. fold (div_ratio w). fold (mul_ratio h).
  rewrite (ltb_int_below h _ _ Hn Wnorm Hs).
  destruct (Z.leb_spec h (below (div_ratio w))) as [Hle|Hgt].
  - rewrite (ltb_irrefl _ Hnorm). simpl.
    exists (width_for h), h. rewrite Hconv, Hu.
    split; [reflexivity|]. split; [reflexivity|].
    split; [|split; [lia|exact Hratio]].
    destruct Wmono as [H0|Hm]; [lia|].
    pose proof (width_for_mono h (Z.to_nat (below (div_ratio w) - h))
                  ltac:(lia)) as Hmono.
    rewrite Z2Nat.id in Hmono by lia.
    replace (h + (below (div_ratio w) - h)) with (below (div_ratio w))
      in Hmono by lia.
    specialize (Hmono ltac:(lia)). lia.
  - rewrite (ltb_int_below w _ _ Wn Hnorm Ws). fold (div_ratio w).
    destruct (Z.leb_spec w (below (mul_ratio h))) as [Hle2|Hgt2]; simpl.
    + exists w, (height_for w). rewrite Wconv, Wu.
      split; [reflexivity|]. split; [reflexivity|].
      split; [lia|]. split; [lia|exact Wratio].
    + exists w, h. rewrite Wu, Hu.
      split; [reflexivity|]. split; [reflexivity|].
      split; [lia|]. split; [lia|].
      unfold ratio_within_rounding. lia.
Qed.

(** The two centrings of a resolved size no larger than the request. *)
Lemma center_offset_fits (requested resolved current : Z) :
  0 <= resolved <= requested -> requested <= 65535 ->
  (U32.wrap current <= requested ->
   center_offset requested resolved current = (requested - resolved) / 2
   /\ center_offset requested resolved current + resolved <= requested)
  /\ (requested < U32.wrap current ->
      center_offset requested resolved current
      = (requested - resolved) / 2 + (U32.wrap current - requested) / 2
      /\ center_offset requested resolved current + resolved
         <= U32.wrap current).
Proof.
  intros Hres Hreq. unfold center_offset, U32.sub, U32.add.
  pose proof (wrap_range current) as Hc.
  rewrite (wrap_small (requested - resolved))
    by (unfold U32.modulus; lia).
  assert (H1 : 0 <= (requested - resolved) / 2 <= requested - resolved)
    by (split; [apply Z.div_pos; lia | apply Z.div_le_upper_bound; lia]).
  split; intros Hcur.
  - apply Z.ltb_ge in Hcur as Hb. rewrite Hb. lia.
  - apply Z.ltb_lt in Hcur as Hb. rewrite Hb.
    rewrite (wrap_small (U32.wrap current - requested))
      by (unfold U32.modulus in *; lia).
    assert (H2 : 0 <= (U32.wrap current - requested) / 2)
      by (apply Z.div_pos; lia).
    assert (H3 : (requested - resolved) / 2 + (U32.wrap current - requested) / 2
                 <= (U32.wrap current - resolved) / 2).
    { apply Z.div_le_lower_bound; [lia|].
      pose proof (Z.mul_div_le (requested - resolved) 2 ltac:(lia)).
      pose proof (Z.mul_div_le (U32.wrap current - requested) 2 ltac:(lia)).
      lia. }
    assert (H4 : 2 * ((U32.wrap current - resolved) / 2)
                 <= U32.wrap current - resolved)
      by (apply Z.mul_div_le; lia).
    rewrite wrap_small by (unfold U32.modulus in *; lia).
    split; [reflexivity|lia].
Qed.

(** C3, as the code has it.  For an aspect-preserving request of 1 to
    65535 pixels on each axis that [CreateGLScreen] serves, the resolved
    size is no larger than the request and has the ratio 496/384 within
    integer rounding; on an axis on which the display mode obtained is not
    larger than the request the offset is (requested - resolved)/2 and
    offset + resolved <= requested; on an axis on which it is larger, half
    the excess is added to the offset, and offset + resolved is bounded by
    the size of the mode obtained instead. *)
Theorem CreateGLScreen_keeps_aspect (env : VideoEnv) (w h : Z)
    (fullScreen : bool) (g : Geometry)
    (Hw : 1 <= w <= 65535) (Hh : 1 <= h <= 65535)
    (Hok : CreateGLScreen env w h true fullScreen = Okay g) :
  ratio_within_rounding (g_xRes g) (g_yRes g)
  /\ 0 <= g_xRes g <= w /\ 0 <= g_yRes g <= h
  /\ (U32.wrap (current_w env) <= w ->
      g_xOffset g = (w - g_xRes g) / 2 /\ g_xOffset g + g_xRes g <= w)
  /\ (U32.wrap (current_h env) <= h ->
      g_yOffset g = (h - g_yRes g) / 2 /\ g_yOffset g + g_yRes g <= h)
  /\ (w < U32.wrap (current_w env) ->
      g_xOffset g = (w - g_xRes g) / 2 + (U32.wrap (current_w env) - w) / 2
      /\ g_xOffset g + g_xRes g <= U32.wrap (current_w env))
  /\ (h < U32.wrap (current_h env) ->
      g_yOffset g = (h - g_yRes g) / 2 + (U32.wrap (current_h env) - h) / 2
      /\ g_yOffset g + g_yRes g <= U32.wrap (current_h env)).
Proof.
  destruct (fix_aspect_resolved w h Hw Hh)
    as (rw & rh & Hx & Hy & Hrw & Hrh & Hratio).
  unfold CreateGLScreen in Hok.
  destruct (video_init_ok env); [|discriminate].
  destruct (video_mode_ok env); [|discriminate]. cbn [negb] in Hok.
  destruct (fix_aspect (F32.of_unsigned w) (F32.of_unsigned h)) as [x y].
  cbn [fst snd] in Hx, Hy. rewrite Hx, Hy in Hok.
  destruct (glew_ok env); [|discriminate]. cbn [negb] in Hok.
  injection Hok as <-. cbn [g_xRes g_yRes g_xOffset g_yOffset].
  destruct (center_offset_fits w rw (current_w env) Hrw ltac:(lia)) as (X1 & X2).
  destruct (center_offset_fits h rh (current_h env) Hrh ltac:(lia)) as (Y1 & Y2).
  auto 10.
Qed.

(** With the subsystems answering, such a request is served. *)
Lemma CreateGLScreen_serves (env : VideoEnv) (w h : Z) (fullScreen : bool) :
  1 <= w <= 65535 -> 1 <= h <= 65535 ->
  video_init_ok env = true -> video_mode_ok env = true -> glew_ok env = true ->
  exists g, CreateGLScreen env w h true fullScreen = Okay g.
Proof.
  intros Hw Hh H1 H2 H3.
  destruct (fix_aspect_resolved w h Hw Hh) as (rw & rh & Hx & Hy & _).
  unfold CreateGLScreen. rewrite H1, H2, H3. cbn [negb].
  destruct (fix_aspect (F32.of_unsigned w) (F32.of_unsigned h)) as [x y].
  cbn [fst snd] in Hx, Hy. rewrite Hx, Hy. eexists. reflexivity.
Qed.

(** The property as the specification states it fails for a request of
    640 by 480 served by a display mode of 1920 by 1080: the resolved
    width is 620 at offset 650, and 650 + 620 exceeds 640. *)
Lemma aspect_contract_fails_on_larger_display :
  ~ (forall g,
       CreateGLScreen desktop_1080p 640 480 true true = Okay g ->
       aspect_contract 640 480 g).
Proof.
  intros H.
  assert (E : CreateGLScreen desktop_1080p 640 480 true true
              = Okay {| g_xOffset := 650; g_yOffset := 300;
                        g_xRes := 620; g_yRes := 480 |})
    by (vm_compute; reflexivity).
  destruct (H _ E) as (_ & Hx & _). simpl in Hx. lia.
Qed.

(** The request of 640 by 480 served by a mode of the same size. *)
Lemma CreateGLScreen_keeps_aspect_witness :
  CreateGLScreen Bench.desktop 640 480 true false
  = Okay {| g_xOffset := 10; g_yOffset := 0; g_xRes := 620; g_yRes := 480 |}
  /\ ratio_within_rounding 620 480 /\ 10 + 620 <= 640 /\ 0 + 480 <= 480.
Proof.
  assert (E : CreateGLScreen Bench.desktop 640 480 true false
              = Okay {| g_xOffset := 10; g_yOffset := 0;
                        g_xRes := 620; g_yRes := 480 |})
    by (vm_compute; reflexivity).
  split; [exact E|].
  destruct (CreateGLScreen_keeps_aspect Bench.desktop 640 480 false _
              ltac:(lia) ltac:(lia) E) as (Hr & _ & _ & Hx & Hy & _).
  split; [exact Hr|]. split.
  - apply Hx. vm_compute. discriminate.
  - apply Hy. vm_compute. discriminate.
Defined.

(** Beyond 2^24 the request itself is rounded by its conversion to float:
    for 33554431 by 33554431 the resolved width exceeds the request and
    the subtraction of the centring wraps around. *)
Lemma CreateGLScreen_large_request :
  CreateGLScreen Bench.desktop 33554431 33554431 true false
  = Okay {| g_xOffset := 2147483647; g_yOffset := 3788402;
            g_xRes := 33554432; g_yRes := 25977626 |}.
Proof. vm_compute. reflexivity. Qed.

(** * Further properties *)

(** ** Save slots and their files *)

Lemma print_d_digit (n : Z) :
  0 <= n <= 9 ->
  print_d n = String (ascii_of_nat (48 + Z.to_nat n)) EmptyString.
Proof.
  intros H. destruct n as [|p|p]; [reflexivity | | lia].
  do 4 (try (destruct p as [p|p|]; try lia; try reflexivity)).
Qed.

Lemma print_d_injective (a b : Z) :
  0 <= a <= 9 -> 0 <= b <= 9 -> print_d a = print_d b -> a = b.
Proof.
  intros Ha Hb H. rewrite (print_d_digit a Ha), (print_d_digit b Hb) in H.
  injection H as H.
  apply (f_equal nat_of_ascii) in H.
  rewrite !nat_ascii_embedding in H by lia. lia.
Qed.

Lemma length_append (a b : string) :
  String.length (a ++ b) = (String.length a + String.length b)%nat.
Proof. induction a as [|c a IH]; simpl; [reflexivity|]. rewrite IH. reflexivity. Qed.

(** X1. The ten save slots of a game are ten different files: for slots
    in [0,9] the path determines the slot, and no save-state path is the
    NVRAM path of any game. *)
Theorem save_slots_are_distinct_files (id id' : string) (a b : Z)
    (Ha : 0 <= a <= 9) (Hb : 0 <= b <= 9) :
  (state_path id a = state_path id b -> a = b)
  /\ state_path id a <> nvram_path id'.
Proof.
  split.
  - unfold state_path. intros H.
    apply (append_cancel_l "Saves/") in H.
    apply append_cancel_l in H.
    apply (append_cancel_l ".st") in H.
    apply print_d_injective; assumption.
  - unfold state_path, nvram_path. simpl. discriminate.
Qed.

(** Slots 0 and 9 of "scud". *)
Lemma save_slots_are_distinct_files_witness :
  (state_path "scud" 0 = state_path "scud" 9 -> 0 = 9)
  /\ state_path "scud" 0 <> nvram_path "scud".
Proof.
  apply (save_slots_are_distinct_files "scud" "scud" 0 9); lia.
Defined.

(** X2. The paths fit the 24 bytes of [filePath]: a save-state path has
    10 characters more than the game id and an NVRAM path 9 more, so that
    with the terminating nul [sprintf] stays inside the buffer for ids of
    up to 13 characters. *)
Theorem paths_fit_the_buffer (id : string) (slot : Z)
    (Hslot : 0 <= slot <= 9) (Hid : (String.length id <= 13)%nat) :
  String.length (state_path id slot) = (String.length id + 10)%nat
  /\ String.length (nvram_path id) = (String.length id + 9)%nat
  /\ (String.length (state_path id slot) + 1 <= 24)%nat
  /\ (String.length (nvram_path id) + 1 <= 24)%nat.
Proof.
  assert (H1 : String.length (state_path id slot)
               = (String.length id + 10)%nat).
  { unfold state_path. rewrite !length_append, (print_d_digit slot Hslot).
    simpl. lia. }
  assert (H2 : String.length (nvram_path id) = (String.length id + 9)%nat).
  { unfold nvram_path. rewrite !length_append. simpl. lia. }
  rewrite H1, H2. lia.
Qed.

(** The longest id that fits: 13 characters give 23 and 22 characters. *)
Lemma paths_fit_the_buffer_witness :
  String.length (state_path "abcdefghijklm" 9) = 23%nat
  /\ String.length (nvram_path "abcdefghijklm") = 22%nat.
Proof.
  destruct (paths_fit_the_buffer "abcdefghijklm" 9) as (H1 & H2 & _).
  - lia.
  - simpl. lia.
  - split; [exact H1 | exact H2].
Defined.

(** ** The calls of [Close()] in the managers *)

Section OpenFiles.

Context {M FS BF : Type}.
Context {BFO : BlockFileOps FS BF} {M3O : Model3Ops M BF}.
Variable SUPERMODEL_VERSION : string.

Lemma count_prints (p : Event -> bool) (tail : list Event) :
  (forall msg, p (EvPrint msg) = false) ->
  forallb (fun e => match e with EvPrint _ => true | _ => false end) tail
  = true ->
  count p tail = 0%nat.
Proof.
  intros Hp H. apply count_none.
  induction tail as [|x tail IH]; [reflexivity|].
  cbn [forallb] in *. apply andb_prop in H. destruct H as [Hx Htail].
  destruct x; try discriminate Hx. rewrite Hp, (IH Htail). reflexivity.
Qed.

(** X3. The managers call [Close()] on the file they opened on every path
    but one.  [SaveState] and [SaveNVRAM] call it once exactly when
    [Create] returned OKAY; [LoadState] and [LoadNVRAM] call it once
    exactly when [Load] returned OKAY and both header checks passed.  When
    the top-level block is not found or the version differs, the load
    returns with the file opened and [Close()] not called: what happens to
    the file then is up to the destructor of the automatic [CBlockFile],
    which is not part of this file. *)
Theorem managers_call_Close_unless_rejected (k : Kind) (s : Session M FS) :
  let created :=
    match bf_Create (files s) (container_path k s) (block_name k)
            ("Supermodel Version " ++ SUPERMODEL_VERSION) with
    | Some _ => 1%nat
    | None => 0%nat
    end in
  let loaded :=
    match bf_Load (files s) (container_path k s) with
    | Some _ => 1%nat
    | None => 0%nat
    end in
  let accepted :=
    match bf_Load (files s) (container_path k s) with
    | Some bf => if header_ok bf k then 1%nat else 0%nat
    | None => 0%nat
    end in
  count is_FileOpen (trace (save SUPERMODEL_VERSION k s))
  = (count is_FileOpen (trace s) + created)%nat
  /\ count is_FileClose (trace (save SUPERMODEL_VERSION k s))
     = (count is_FileClose (trace s) + created)%nat
  /\ count is_FileOpen (trace (load k s))
     = (count is_FileOpen (trace s) + loaded)%nat
  /\ count is_FileClose (trace (load k s))
     = (count is_FileClose (trace s) + accepted)%nat.
Proof.
  intros created loaded accepted.
  assert (Hsave : forall p, (p = is_FileOpen \/ p = is_FileClose) ->
            count p (trace (save SUPERMODEL_VERSION k s))
            = (count p (trace s) + created)%nat).
  { intros p Hp. unfold created.
    destruct k; cbn [save container_path block_name];
      [unfold SaveState | unfold SaveNVRAM]; cbn [files Model3 log];
      destruct (bf_Create _ _ _ _); cbn [trace log set_files];
      rewrite !count_app; destruct Hp as [-> | ->]; cbn; lia. }
  assert (Hload : forall p, (p = is_FileOpen \/ p = is_FileClose) ->
            count p (trace (load k s))
            = (count p (trace s)
               + match bf_Load (files s) (container_path k s) with
                 | Some bf =>
                     if header_ok bf k then 1
                     else if p (EvFileOpen EmptyString) then 1 else 0
                 | None => 0
                 end)%nat).
  { intros p Hp.
    destruct (bf_Load (files s) (container_path k s)) as [bf|] eqn:Hl.
    - destruct (header_ok bf k) eqn:Hhdr.
      + destruct (load_accepted k s bf Hl Hhdr)
          as (e & tail & Ht & He & Htail).
        rewrite Ht, !count_app.
        rewrite (count_prints p tail);
          [|destruct Hp as [-> | ->]; reflexivity | exact Htail].
        destruct e; try discriminate He;
          destruct Hp as [-> | ->]; cbn; lia.
      + destruct (load_rejected k s bf Hl Hhdr) as (msg & ->).
        cbn [trace log]. rewrite !count_app.
        destruct Hp as [-> | ->]; cbn; lia.
    - destruct k; cbn [load container_path] in *;
        [unfold LoadState | unfold LoadNVRAM]; rewrite Hl;
        cbn [trace log]; rewrite ?count_app;
        destruct Hp as [-> | ->]; cbn; lia. }
  split; [apply Hsave; left; reflexivity|].
  split; [apply Hsave; right; reflexivity|].
  split.
  - rewrite (Hload is_FileOpen) by (left; reflexivity). unfold loaded.
    destruct (bf_Load _ _) as [bf|]; [|reflexivity].
    destruct (header_ok bf k); reflexivity.
  - rewrite (Hload is_FileClose) by (right; reflexivity). unfold accepted.
    destruct (bf_Load _ _) as [bf|]; [|reflexivity].
    destruct (header_ok bf k); reflexivity.
Qed.

End OpenFiles.

(** ** Pacing over several passes *)

Section PacingRunsFacts.

Context {M FS : Type}.

(** X4. While pacing is active, a run of passes that all end on time
    keeps the epoch, and the pass of frame index i sleeps exactly until
    start + i * 1000 / 60: the schedule is fixed by the epoch alone, and
    rounding errors do not add up from frame to frame. *)
Theorem pace_keeps_schedule (ticks : list Z) (s : Session M FS)
    (Hactive : paused s || throttle (g_Config s) = true)
    (Hindex : 0 <= framesElapsed (clock s))
    (Hlen : framesElapsed (clock s) + Z.of_nat (List.length ticks) <= 65535)
    (Hstart : 0 <= startTicks (clock s))
    (Hend : startTicks (clock s)
            + (framesElapsed (clock s) + Z.of_nat (List.length ticks))
              * 1000 / 60 < U32.modulus)
    (Htime : on_time (startTicks (clock s)) (framesElapsed (clock s)) ticks) :
  exists s',
    pace ticks s = Some s'
    /\ trace s'
       = trace s
         ++ schedule (startTicks (clock s)) (framesElapsed (clock s)) ticks
    /\ framesElapsed (clock s')
       = framesElapsed (clock s) + Z.of_nat (List.length ticks)
    /\ startTicks (clock s') = startTicks (clock s).
Proof.
  revert s Hactive Hindex Hlen Hstart Hend Htime.
  induction ticks as [|t rest IH]; intros s Hactive Hindex Hlen Hstart Hend Htime.
  - exists s. simpl. rewrite app_nil_r, Z.add_0_r. auto.
  - cbn [List.length] in Hlen, Hend. rewrite Nat2Z.inj_succ in Hlen, Hend.
    destruct Htime as (Ht & Hrest).
    set (k := framesElapsed (clock s)) in *.
    set (start := startTicks (clock s)) in *.
    assert (Hmono : (k + 1) * 1000 / 60
                    <= (k + Z.succ (Z.of_nat (List.length rest))) * 1000 / 60)
      by (apply Z.div_le_mono; lia).
    assert (Hpos : 0 <= (k + 1) * 1000 / 60) by (apply Z.div_pos; lia).
    assert (Hstep :
              frame_limit t s
              = Some (log (EvDelay (start + (k + 1) * 1000 / 60 - t))
                        (set_clock
                           {| prevFPSTicks := prevFPSTicks (clock s);
                              fpsFramesElapsed := fpsFramesElapsed (clock s);
                              framesElapsed := k + 1;
                              startTicks := start |} s))).
    { unfold frame_limit. rewrite Hactive. fold k. fold start.
      assert (Hincr : U32.incr k = k + 1)
        by (unfold U32.incr; apply wrap_small; unfold U32.modulus; lia).
      rewrite Hincr, frame_offset_exact by lia.
      unfold U32.add, U32.sub.
      rewrite (wrap_small (start + (k + 1) * 1000 / 60)) by lia.
      assert (Hb : (t <=? start + (k + 1) * 1000 / 60) = true)
        by (apply Z.leb_le; lia).
      rewrite Hb, wrap_small by lia. reflexivity. }
    cbn [pace]. rewrite Hstep.
    match goal with |- context [pace rest ?x] => set (s1 := x) end.
    destruct (IH s1) as (s' & Hp & Htr & Hfe & Hst).
    + exact Hactive.
    + simpl. lia.
    + simpl. lia.
    + simpl. exact Hstart.
    + simpl. replace (k + 1 + Z.of_nat (List.length rest))
        with (k + Z.succ (Z.of_nat (List.length rest))) by lia. exact Hend.
    + simpl. exact Hrest.
    + exists s'. split; [exact Hp|].
      unfold s1 in Htr, Hfe, Hst.
      cbn [clock set_clock log framesElapsed startTicks trace] in Htr, Hfe, Hst.
      split; [|split; [|exact Hst]].
      * rewrite Htr. cbn [schedule]. rewrite <- app_assoc. reflexivity.
      * cbn [List.length]. rewrite Nat2Z.inj_succ. lia.
Qed.

End PacingRunsFacts.

(** The reference session, three passes ending at ticks 102, 120 and 140
    sleep until 116, 133 and 150. *)
Lemma pace_keeps_schedule_witness :
  exists s',
    pace [102; 120; 140] Bench.session0 = Some s'
    /\ trace s' = [EvDelay 14; EvDelay 13; EvDelay 10].
Proof.
  destruct (pace_keeps_schedule [102; 120; 140] Bench.session0 eq_refl)
    as (s' & Hp & Ht & _).
  - simpl. lia.
  - simpl. lia.
  - simpl. lia.
  - vm_compute. reflexivity.
  - simpl. lia.
  - exists s'. split; [exact Hp | exact Ht].
Defined.

(** ** The loop without pacing *)

Section Unthrottled.

Context {M FS BF : Type}.
Context {BFO : BlockFileOps FS BF} {M3O : Model3Ops M BF}.
Variable SUPERMODEL_VERSION : string.

Lemma ui_controls_throttle (f : Frame) (s : Session M FS) :
  uiToggleFrLimit f = false ->
  throttle (g_Config (ui_controls SUPERMODEL_VERSION f s))
  = throttle (g_Config s).
Proof.
  intros Hf.
  pose proof (save_same_controls SUPERMODEL_VERSION SaveStateKind s)
    as (_ & _ & _ & _ & _ & Hg1).
  pose proof (load_same_controls SaveStateKind s) as (_ & _ & _ & _ & _ & Hg2).
  simpl in *. unfold ui_controls. rewrite Hf.
  destruct (uiExit f); [auto|]. destruct (uiReset f); [auto|].
  destruct (uiPause f); [auto|].
  destruct (uiSaveState f); [rewrite Hg1; auto|].
  destruct (uiChangeSlot f); [auto|].
  destruct (uiLoadState f); [rewrite Hg2; auto|].
  destruct (uiDumpInpState f); [auto|].
  destruct (uiToggleCursor f && fullScreen (g_Config s)); [auto|].
  destruct (uiClearNVRAM f); auto.
Qed.

(** Up to the frame limiter a pass makes no delay. *)
Lemma before_limit_extends (t : string) (f : Frame) (s : Session M FS) :
  extends (fun e => negb (is_Delay e)) s
    (fps_display t (ticks f)
       (ui_controls SUPERMODEL_VERSION f (poll_inputs f (run_frame s)))).
Proof.
  apply (extends_trans _ _ (run_frame s)).
  { unfold run_frame. destruct (paused s); [apply extends_refl|].
    repeat (apply extends_log; [reflexivity|]).
    apply extends_same_trace. reflexivity. }
  apply (extends_trans _ _ (poll_inputs f (run_frame s)));
    [apply poll_inputs_extends|].
  eapply extends_trans;
    [apply (extends_weaken ui_event);
     [|apply (ui_controls_extends SUPERMODEL_VERSION)]|].
  { intros e He. destruct e; (discriminate He || reflexivity). }
  apply (extends_weaken is_Caption); [|apply fps_display_extends].
  intros e He. destruct e; (discriminate He || reflexivity).
Qed.

Lemma iteration_unthrottled (t : string) (f : Frame) (s : Session M FS) :
  paused s = false -> throttle (g_Config s) = false ->
  uiPause f = false -> uiToggleFrLimit f = false ->
  exists s',
    iteration SUPERMODEL_VERSION t f s = Some s'
    /\ paused s' = false /\ throttle (g_Config s') = false
    /\ count is_Delay (trace s') = count is_Delay (trace s)
    /\ framesElapsed (clock s') = framesElapsed (clock s)
    /\ startTicks (clock s') = startTicks (clock s).
Proof.
  intros Hp Ht Hup Hut. unfold iteration.
  set (s2 := poll_inputs f (run_frame s)).
  set (s3 := ui_controls SUPERMODEL_VERSION f s2).
  set (s4 := fps_display t (ticks f) s3).
  assert (H2 : paused s2 = false /\ g_Config s2 = g_Config s
               /\ clock s2 = clock s).
  { unfold s2, poll_inputs, run_frame. rewrite Hp.
    destruct (poll_ok f); auto. }
  destruct H2 as (Hp2 & Hg2 & Hc2).
  destruct (ui_controls_flags SUPERMODEL_VERSION f s2) as (_ & Hp3).
  pose proof (ui_controls_throttle f s2 Hut) as Ht3.
  destruct (ui_controls_clock SUPERMODEL_VERSION f s2) as (Hc3 & _).
  fold s3 in Hp3, Ht3, Hc3.
  rewrite Hup, andb_false_r, Hp2 in Hp3. rewrite Hg2, Ht in Ht3.
  destruct (fps_display_flags t (ticks f) s3) as (_ & Hp4 & Hg4 & _).
  fold s4 in Hp4, Hg4.
  assert (Hc4 : framesElapsed (clock s4) = framesElapsed (clock s)
                /\ startTicks (clock s4) = startTicks (clock s)).
  { unfold s4, fps_display. destruct (showFPS _);
      [destruct (1000 <=? _)|]; simpl; rewrite Hc3, Hc2; auto. }
  exists s4. unfold frame_limit. rewrite Hp4, Hg4, Hp3, Ht3. simpl.
  split; [reflexivity|]. split; [congruence|]. split; [congruence|].
  split; [|exact Hc4].
  apply (extends_count (fun e => negb (is_Delay e))).
  - intros e He. destruct (is_Delay e); [discriminate He|reflexivity].
  - apply before_limit_extends.
Qed.

(** X5. With the throttle off and the session running, the loop never
    sleeps and never reaches the undefined conversion of the frame
    limiter, however many passes it makes, as long as neither TogglePause
    nor ToggleThrottle is pressed; the pacing epoch is left untouched. *)
Theorem unthrottled_loop_never_sleeps (t : string) (frames : list Frame)
    (s : Session M FS)
    (Hrun : paused s = false) (Hfree : throttle (g_Config s) = false)
    (Hkeys : forallb (fun f => negb (uiPause f) && negb (uiToggleFrLimit f))
               frames = true) :
  exists s',
    (main_loop SUPERMODEL_VERSION t frames s = LoopExit s'
     \/ main_loop SUPERMODEL_VERSION t frames s = LoopSpinning s')
    /\ count is_Delay (trace s') = count is_Delay (trace s)
    /\ framesElapsed (clock s') = framesElapsed (clock s)
    /\ startTicks (clock s') = startTicks (clock s).
Proof.
  revert s Hrun Hfree. induction frames as [|f rest IH]; intros s Hrun Hfree.
  - exists s. simpl. destruct (quit s); auto.
  - cbn [main_loop]. destruct (quit s); [exists s; auto|].
    cbn [forallb] in Hkeys. apply andb_prop in Hkeys.
    destruct Hkeys as [Hf Hrest]. apply andb_prop in Hf.
    destruct Hf as [Hup Hut].
    apply negb_true_iff in Hup, Hut.
    destruct (iteration_unthrottled t f s Hrun Hfree Hup Hut)
      as (s1 & Hit & Hp1 & Ht1 & Hd1 & Hf1 & Hs1).
    rewrite Hit.
    destruct (IH Hrest s1 Hp1 Ht1) as (s' & Hres & Hd & Hfe & Hst).
    exists s'. split; [exact Hres|]. repeat split; congruence.
Qed.

End Unthrottled.

(** The reference session with the throttle off: three idle passes leave
    no delay in the trace. *)
Lemma unthrottled_loop_never_sleeps_witness :
  exists s',
    main_loop "0.2a" "Supermodel - Scud Race"
      [Bench.idle 102; Bench.idle 103; Bench.idle 104] Bench2.free_session
    = LoopSpinning s'
    /\ count is_Delay (trace s') = 0%nat.
Proof.
  destruct (unthrottled_loop_never_sleeps "0.2a" "Supermodel - Scud Race"
              [Bench.idle 102; Bench.idle 103; Bench.idle 104]
              Bench2.free_session eq_refl eq_refl eq_refl)
    as (s' & [Hexit | Hspin] & Hd & _).
  - vm_compute in Hexit. discriminate Hexit.
  - exists s'. split; [exact Hspin | exact Hd].
Defined.

(** X6. Once the start-up code has entered the loop, [Supermodel] returns
    0 on every run of at most 65535 passes of which one asserts Exit or
    has a failing poll: the float conversion of the frame limiter stays
    defined on the way.  On return [quit] is set, [SaveNVRAM] has been
    entered exactly once (whether or not it could create its file), the
    audio that was opened has been closed and each of the three objects
    has been deleted once. *)
Theorem Supermodel_returns_on_exit {M FS BF : Type}
    {BFO : BlockFileOps FS BF} {M3O : Model3Ops M BF}
    (SUPERMODEL_VERSION : string) (cfg : Config) (slot : Z) (fs : FS)
    (st : Startup) (frames : list Frame) (t : string) (s0 : Session M FS)
    (Hentry : start_up cfg slot fs st = inr (t, s0))
    (Hlen : Z.of_nat (List.length frames) <= 65535)
    (Hquit : existsb (fun f => uiExit f || negb (poll_ok f)) frames = true) :
  exists s,
    Supermodel SUPERMODEL_VERSION cfg slot fs st frames = Returned 0 s
    /\ quit s = true
    /\ saves_once_and_releases s.
Proof.
  unfold Supermodel. rewrite Hentry.
  destruct (start_up_entry _ _ _ _ _ _ Hentry) as (_ & _ & _ & _ & Hc).
  destruct (main_loop_exits SUPERMODEL_VERSION t frames s0) as (s1 & Hloop);
    [rewrite Hc; simpl; lia | rewrite Hc; simpl; lia | exact Hquit|].
  rewrite Hloop.
  destruct (main_loop_extends _ _ _ _ _ Hloop) as ((loop & Ht1 & Pl) & Hq).
  destruct (shut_down_trace SUPERMODEL_VERSION s1)
    as (tail & s2 & Hsd & Ht2 & Ptl).
  exists s2. split; [exact Hsd|].
  assert (Hq2 : quit s2 = true).
  { pose proof (save_same_controls SUPERMODEL_VERSION NVRAMKind s1)
      as (Hqs & _).
    cbn [save] in Hqs. unfold shut_down in Hsd. injection Hsd as <-.
    cbn [quit log]. rewrite Hqs. exact Hq. }
  split; [exact Hq2|].
  pose proof (start_up_trace cfg slot fs st) as Hstart.
  rewrite Hentry in Hstart. destruct Hstart as (extra & Ht0 & Px).
  rewrite Ht1, Ht0 in Ht2. unfold saves_once_and_releases. rewrite Ht2.
  rewrite !(exit_counted_run _ cfg extra loop tail)
    by (try assumption; intros []; simpl; auto).
  split; [reflexivity|]. split; [reflexivity|].
  intros o.
  rewrite !(exit_counted_run _ cfg extra loop tail)
    by (try assumption; intros []; simpl; auto).
  destruct o; split; reflexivity.
Qed.

(** The reference run of two passes, the second with Exit. *)
Lemma Supermodel_returns_on_exit_witness :
  exists s,
    Supermodel "0.2a" Bench.config 0 Bench.empty_disk Bench.startup
      [Bench.idle 102; Bench.press_exit 118] = Returned 0 s
    /\ quit s = true.
Proof.
  assert (E : exists t s0,
             start_up Bench.config 0 Bench.empty_disk Bench.startup
             = inr (t, s0))
    by (vm_compute; eexists; eexists; reflexivity).
  destruct E as (t & s0 & E).
  destruct (Supermodel_returns_on_exit "0.2a" Bench.config 0 Bench.empty_disk
              Bench.startup [Bench.idle 102; Bench.press_exit 118] t s0 E)
    as (s & Hs & Hq & _).
  - simpl. lia.
  - reflexivity.
  - exists s. split; [exact Hs | exact Hq].
Defined.

(** ** The display surface: further properties *)

Lemma width_exact_table : all_range check_width_exact 65535 1 = true.
Proof. vm_cast_no_check (eq_refl true). Qed.

Lemma height_exact_table : all_range check_height_exact 65535 1 = true.
Proof. vm_cast_no_check (eq_refl true). Qed.

Lemma exact_ratio_table : all_range check_exact_ratio 2114 1 = true.
Proof. vm_cast_no_check (eq_refl true). Qed.

Lemma width_exact_facts (w : Z) :
  1 <= w <= 65535 ->
  height_for w = 24 * w / 31 /\ 31 * below (div_ratio w) <= 24 * w.
Proof.
  intros Hw.
  pose proof (all_range_spec _ _ _ width_exact_table w ltac:(lia)) as H.
  unfold check_width_exact in H. cbv zeta in H.
  apply andb_prop in H. destruct H as [H1 H2].
  apply Z.eqb_eq in H1. apply Z.leb_le in H2. auto.
Qed.

Lemma height_exact_facts (h : Z) :
  1 <= h <= 65535 ->
  width_for h = 31 * h / 24
  \/ (h mod 24 = 0 /\ width_for h = 31 * h / 24 - 1).
Proof.
  intros Hh.
  pose proof (all_range_spec _ _ _ height_exact_table h ltac:(lia)) as H.
  unfold check_height_exact in H. cbv zeta in H.
  apply orb_prop in H. destruct H as [H|H].
  - left. apply Z.eqb_eq. exact H.
  - right. apply andb_prop in H. destruct H as [H1 H2].
    apply Z.eqb_eq in H1, H2. auto.
Qed.

(** Which of the two [if]s of [fix_aspect] acts, by the integer
    comparison of the request with 31:24. *)
Lemma fix_aspect_closed_form (w h : Z) :
  1 <= w <= 65535 -> 1 <= h <= 65535 ->
  let r := fix_aspect (F32.of_unsigned w) (F32.of_unsigned h) in
  (31 * h < 24 * w ->
   F32.to_unsigned (fst r) = Some (width_for h)
   /\ F32.to_unsigned (snd r) = Some h)
  /\ (24 * w < 31 * h ->
      F32.to_unsigned (fst r) = Some w
      /\ F32.to_unsigned (snd r) = Some (24 * w / 31))
  /\ (31 * h = 24 * w ->
      F32.to_unsigned (fst r) = Some w /\ F32.to_unsigned (snd r) = Some h).
Proof.
  intros Hw Hh.
  destruct (width_facts w Hw)
    as (Wint & Wnorm & Wconv & Wb & Wratio & Wexact & Wlo & Wmono).
  destruct (height_facts h Hh) as (Hint & Hnorm & Hconv & Ha & Hratio & Hexact).
  destruct (check_int_spec w Wint) as (Wn & Ws & Wu).
  destruct (check_int_spec h Hint) as (Hn & Hs & Hu).
  destruct (width_exact_facts w Hw) as (Wq & Wbelow).
  cbv zeta. split; [|split].
  - intros Hwide. unfold fix_aspect.
    fold (div_ratio w). fold (mul_ratio h).
    rewrite (ltb_int_below h _ _ Hn Wnorm Hs).
    assert (Hb : (h <=? below (div_ratio w)) = true) by (apply Z.leb_le; lia).
    rewrite Hb, (ltb_irrefl _ Hnorm). cbn [fst snd]. auto.
  - intros Htall. unfold fix_aspect.
    fold (div_ratio w). fold (mul_ratio h).
    rewrite (ltb_int_below h _ _ Hn Wnorm Hs).
    assert (Hb : (h <=? below (div_ratio w)) = false) by (apply Z.leb_gt; lia).
    rewrite Hb, (ltb_int_below w _ _ Wn Hnorm Ws).
    assert (Hb2 : (w <=? below (mul_ratio h)) = true) by (apply Z.leb_le; lia).
    rewrite Hb2. cbn [fst snd]. fold (div_ratio w).
    rewrite Wconv, Wq. auto.
  - intros Heq.
    assert (Hk : w = 31 * (7 * w - 9 * h) /\ h = 24 * (7 * w - 9 * h)) by lia.
    set (k := 7 * w - 9 * h) in Hk. destruct Hk as (Hwk & Hhk).
    pose proof (all_range_spec _ _ _ exact_ratio_table k ltac:(lia)) as H.
    unfold check_exact_ratio in H. rewrite <- Hwk, <- Hhk in H.
    destruct (fix_aspect (F32.of_unsigned w) (F32.of_unsigned h)) as [x y].
    apply andb_prop in H. destruct H as [Hx Hy].
    apply Z.eqb_eq in Hx, Hy. cbn [fst snd]. unfold unsigned_of in Hx, Hy.
    destruct (F32.to_unsigned x); [|lia]. destruct (F32.to_unsigned y); [|lia].
    rewrite Hx, Hy. auto.
Qed.

(** X7. With aspect preservation the resolved size has a closed form in
    integers.  A request wider than 31:24 keeps its height and gets the
    width 31*h/24 (one less for some heights that are multiples of 24); a
    request taller than 31:24 keeps its width and gets the height
    24*w/31; a request of exactly 31:24 is served as asked.  In every case
    at least one requested dimension is kept. *)
Theorem CreateGLScreen_resolves_in_closed_form (env : VideoEnv) (w h : Z)
    (fullScreen : bool) (g : Geometry)
    (Hw : 1 <= w <= 65535) (Hh : 1 <= h <= 65535)
    (Hok : CreateGLScreen env w h true fullScreen = Okay g) :
  (31 * h < 24 * w ->
   g_yRes g = h
   /\ (g_xRes g = 31 * h / 24
       \/ (h mod 24 = 0 /\ g_xRes g = 31 * h / 24 - 1)))
  /\ (24 * w < 31 * h -> g_xRes g = w /\ g_yRes g = 24 * w / 31)
  /\ (31 * h = 24 * w -> g_xRes g = w /\ g_yRes g = h)
  /\ (g_xRes g = w \/ g_yRes g = h).
Proof.
  destruct (fix_aspect_closed_form w h Hw Hh) as (Hwide & Htall & Hexact).
  unfold CreateGLScreen in Hok.
  destruct (video_init_ok env); [|discriminate].
  destruct (video_mode_ok env); [|discriminate]. cbn [negb] in Hok.
  destruct (fix_aspect (F32.of_unsigned w) (F32.of_unsigned h)) as [x y].
  cbn [fst snd] in Hwide, Htall, Hexact.
  assert (Hres : forall rw rh,
             F32.to_unsigned x = Some rw /\ F32.to_unsigned y = Some rh ->
             g_xRes g = rw /\ g_yRes g = rh).
  { intros rw rh (Hx & Hy). rewrite Hx, Hy in Hok.
    destruct (glew_ok env); [|discriminate]. cbn [negb] in Hok.
    injection Hok as <-. auto. }
  assert (C1 : 31 * h < 24 * w ->
               g_yRes g = h
               /\ (g_xRes g = 31 * h / 24
                   \/ (h mod 24 = 0 /\ g_xRes g = 31 * h / 24 - 1))).
  { intros Hc. destruct (Hres _ _ (Hwide Hc)) as (Hx & Hy).
    split; [exact Hy|]. rewrite Hx. apply height_exact_facts. exact Hh. }
  assert (C2 : 24 * w < 31 * h -> g_xRes g = w /\ g_yRes g = 24 * w / 31)
    by (intros Hc; apply Hres, Htall, Hc).
  assert (C3 : 31 * h = 24 * w -> g_xRes g = w /\ g_yRes g = h)
    by (intros Hc; apply Hres, Hexact, Hc).
  split; [exact C1|]. split; [exact C2|]. split; [exact C3|].
  destruct (Z.lt_trichotomy (31 * h) (24 * w)) as [Hc|[Hc|Hc]].
  - right. apply C1. exact Hc.
  - left. apply C3. exact Hc.
  - left. apply C2. exact Hc.
Qed.

(** A request of 1920 by 1080 keeps its height and gets the width 1395. *)
Lemma CreateGLScreen_resolves_in_closed_form_witness :
  CreateGLScreen desktop_1080p 1920 1080 true true
  = Okay {| g_xOffset := 262; g_yOffset := 0; g_xRes := 1395; g_yRes := 1080 |}
  /\ 1080 = 1080 /\ 1395 = 31 * 1080 / 24.
Proof.
  assert (E : CreateGLScreen desktop_1080p 1920 1080 true true
              = Okay {| g_xOffset := 262; g_yOffset := 0;
                        g_xRes := 1395; g_yRes := 1080 |})
    by (vm_compute; reflexivity).
  split; [exact E|].
  destruct (CreateGLScreen_resolves_in_closed_form desktop_1080p 1920 1080
              true _ ltac:(lia) ltac:(lia) E) as (Hwide & _).
  destruct (Hwide ltac:(lia)) as (Hy & [Hx | (_ & Hx)]).
  - split; [exact Hy | exact Hx].
  - vm_compute in Hx. discriminate Hx.
Defined.

(** X8. Without aspect preservation (the calls of [ConfigureInputs] and
    [PrintGLInfo]) the requested size is passed back unchanged, for
    requests of 1 to 65535 pixels, and the offset is the re-centring in a
    larger display mode only. *)
Theorem CreateGLScreen_plain_request (env : VideoEnv) (w h : Z)
    (fullScreen : bool) (g : Geometry)
    (Hw : 1 <= w <= 65535) (Hh : 1 <= h <= 65535)
    (Hok : CreateGLScreen env w h false fullScreen = Okay g) :
  g_xRes g = w /\ g_yRes g = h
  /\ g_xOffset g = (if w <? U32.wrap (current_w env)
                    then (U32.wrap (current_w env) - w) / 2 else 0)
  /\ g_yOffset g = (if h <? U32.wrap (current_h env)
                    then (U32.wrap (current_h env) - h) / 2 else 0).
Proof.
  destruct (width_facts w Hw) as (Wint & _).
  destruct (height_facts h Hh) as (Hint & _).
  destruct (check_int_spec w Wint) as (_ & _ & Wu).
  destruct (check_int_spec h Hint) as (_ & _ & Hu).
  unfold CreateGLScreen in Hok.
  destruct (video_init_ok env); [|discriminate].
  destruct (video_mode_ok env); [|discriminate]. cbn [negb] in Hok.
  rewrite Wu, Hu in Hok.
  destruct (glew_ok env); [|discriminate]. cbn [negb] in Hok.
  injection Hok as <-. cbn [g_xRes g_yRes g_xOffset g_yOffset].
  split; [reflexivity|]. split; [reflexivity|].
  destruct (center_offset_fits w w (current_w env) ltac:(lia) ltac:(lia))
    as (X1 & X2).
  destruct (center_offset_fits h h (current_h env) ltac:(lia) ltac:(lia))
    as (Y1 & Y2).
  rewrite Z.sub_diag in X1, X2, Y1, Y2. change (0 / 2) with 0 in *.
  split.
  - destruct (Z.ltb_spec w (U32.wrap (current_w env))) as [Hc|Hc].
    + apply X2. exact Hc.
    + apply X1. exact Hc.
  - destruct (Z.ltb_spec h (U32.wrap (current_h env))) as [Hc|Hc].
    + apply Y2. exact Hc.
    + apply Y1. exact Hc.
Qed.

(** The window of [ConfigureInputs], 496 by 384, in a mode of 1920 by
    1080. *)
Lemma CreateGLScreen_plain_request_witness :
  CreateGLScreen desktop_1080p 496 384 false false
  = Okay {| g_xOffset := 712; g_yOffset := 348; g_xRes := 496; g_yRes := 384 |}
  /\ 496 = 496 /\ 384 = 384.
Proof.
  assert (E : CreateGLScreen desktop_1080p 496 384 false false
              = Okay {| g_xOffset := 712; g_yOffset := 348;
                        g_xRes := 496; g_yRes := 384 |})
    by (vm_compute; reflexivity).
  split; [exact E|].
  destruct (CreateGLScreen_plain_request desktop_1080p 496 384 false _
              ltac:(lia) ltac:(lia) E) as (Hx & Hy & _).
  split; [exact Hx | exact Hy].
Defined.

(** X9. For a request of 1 to 65535 pixels on each axis, with or without
    aspect preservation, [CreateGLScreen] fails exactly when the video
    subsystem, the video mode or GLEW fails, and the conversions of the
    resolved size back to [unsigned] are always defined. *)
Theorem CreateGLScreen_fails_iff (env : VideoEnv) (w h : Z)
    (keepAspectRatio fullScreen : bool)
    (Hw : 1 <= w <= 65535) (Hh : 1 <= h <= 65535) :
  (CreateGLScreen env w h keepAspectRatio fullScreen = Fail <->
   video_init_ok env = false \/ video_mode_ok env = false
   \/ glew_ok env = false)
  /\ CreateGLScreen env w h keepAspectRatio fullScreen <> Undefined.
Proof.
  assert (Hconv : exists rw rh,
             F32.to_unsigned
               (fst (if keepAspectRatio
                     then fix_aspect (F32.of_unsigned w) (F32.of_unsigned h)
                     else (F32.of_unsigned w, F32.of_unsigned h))) = Some rw
             /\ F32.to_unsigned
                  (snd (if keepAspectRatio
                        then fix_aspect (F32.of_unsigned w) (F32.of_unsigned h)
                        else (F32.of_unsigned w, F32.of_unsigned h)))
                = Some rh).
  { destruct keepAspectRatio.
    - destruct (fix_aspect_resolved w h Hw Hh) as (rw & rh & Hx & Hy & _).
      exists rw, rh. auto.
    - destruct (width_facts w Hw) as (Wint & _).
      destruct (height_facts h Hh) as (Hint & _).
      destruct (check_int_spec w Wint) as (_ & _ & Wu).
      destruct (check_int_spec h Hint) as (_ & _ & Hu).
      exists w, h. auto. }
  destruct Hconv as (rw & rh & Hx & Hy).
  unfold CreateGLScreen.
  destruct (video_init_ok env);
    [|split; [split; [auto|reflexivity]|discriminate]].
  destruct (video_mode_ok env);
    [|split; [split; [auto|reflexivity]|discriminate]].
  cbn [negb].
  destruct (if keepAspectRatio
            then fix_aspect (F32.of_unsigned w) (F32.of_unsigned h)
            else (F32.of_unsigned w, F32.of_unsigned h)) as [x y].
  cbn [fst snd] in Hx, Hy. rewrite Hx, Hy.
  destruct (glew_ok env); cbn [negb].
  - split; [|discriminate]. split; [discriminate|].
    intros [H|[H|H]]; discriminate H.
  - split; [|discriminate]. split; auto.
Qed.

(** GLEW failing in an otherwise good environment. *)
Lemma CreateGLScreen_fails_iff_witness :
  CreateGLScreen
    {| video_init_ok := true; video_mode_ok := true; current_w := 640;
       current_h := 480; glew_ok := false |} 640 480 true false = Fail.
Proof.
  apply (CreateGLScreen_fails_iff _ 640 480 true false ltac:(lia) ltac:(lia)).
  right. right. reflexivity.
Defined.

(** ** [DisassembleCROM] *)

Lemma byte_val_range (b : Byte.byte) : 0 <= byte_val b <= 255.
Proof.
  unfold byte_val. pose proof (Byte.to_N_bounded b). lia.
Qed.

Lemma lor_shiftl_add (hi lo k : Z) :
  0 <= k -> 0 <= lo < 2 ^ k -> Z.lor (Z.shiftl hi k) lo = hi * 2 ^ k + lo.
Proof.
  intros Hk Hlo.
  assert (Hland : Z.land (Z.shiftl hi k) lo = 0).
  { apply Z.bits_inj'. intros n Hn. rewrite Z.land_spec, Z.bits_0.
    destruct (Z.lt_ge_cases n k) as [Hlt|Hge].
    - rewrite Z.shiftl_spec_low by lia. reflexivity.
    - destruct (Z.eq_dec lo 0) as [->|Hne].
      + rewrite Z.bits_0. apply andb_false_r.
      + rewrite (Z.bits_above_log2 lo n); [apply andb_false_r|lia|].
        assert (Z.log2 lo < k) by (apply Z.log2_lt_pow2; lia). lia. }
  pose proof (Z.add_lor_land (Z.shiftl hi k) lo) as H.
  rewrite Hland in H. rewrite Z.shiftl_mul_pow2 in * by lia. lia.
Qed.

(** The opcode is the big-endian number of the four bytes. *)
Lemma fetch_op_big_endian (crom : Z -> Byte.byte) (addr : Z) :
  0 <= addr -> addr + 3 < U32.modulus ->
  fetch_op crom addr
  = byte_val (crom addr) * 16777216 + byte_val (crom (addr + 1)) * 65536
    + byte_val (crom (addr + 2)) * 256 + byte_val (crom (addr + 3)).
Proof.
  intros H0 H3. unfold fetch_op, U32.add.
  rewrite !(wrap_small (addr + _)) by (unfold U32.modulus in *; lia).
  rewrite Z.add_0_r.
  pose proof (byte_val_range (crom addr)) as B0.
  pose proof (byte_val_range (crom (addr + 1))) as B1.
  pose proof (byte_val_range (crom (addr + 2))) as B2.
  pose proof (byte_val_range (crom (addr + 3))) as B3.
  set (b0 := byte_val (crom addr)) in *.
  set (b1 := byte_val (crom (addr + 1))) in *.
  set (b2 := byte_val (crom (addr + 2))) in *.
  set (b3 := byte_val (crom (addr + 3))) in *.
  assert (S1 : Z.lor (Z.shiftl b0 24) (Z.shiftl b1 16)
               = Z.shiftl (b0 * 256 + b1) 16).
  { replace (Z.shiftl b0 24) with (Z.shiftl (Z.shiftl b0 8) 16)
      by (rewrite Z.shiftl_shiftl by lia; reflexivity).
    rewrite <- Z.shiftl_lor. f_equal.
    rewrite (lor_shiftl_add b0 b1 8) by (change (2 ^ 8) with 256; lia).
    reflexivity. }
  assert (S2 : Z.lor (Z.shiftl (b0 * 256 + b1) 16) (Z.shiftl b2 8)
               = Z.shiftl ((b0 * 256 + b1) * 256 + b2) 8).
  { replace (Z.shiftl (b0 * 256 + b1) 16)
      with (Z.shiftl (Z.shiftl (b0 * 256 + b1) 8) 8)
      by (rewrite Z.shiftl_shiftl by lia; reflexivity).
    rewrite <- Z.shiftl_lor. f_equal.
    rewrite (lor_shiftl_add _ b2 8) by (change (2 ^ 8) with 256; lia).
    reflexivity. }
  rewrite S1, S2.
  rewrite (lor_shiftl_add _ b3 8) by (change (2 ^ 8) with 256; lia).
  change (2 ^ 8) with 256.
  rewrite wrap_small by (unfold U32.modulus; change (2 ^ 32) with 4294967296; lia).
  lia.
Qed.

Section DisassemblerFacts.

Variable DisassemblePowerPC : Z -> Z -> bool * string * string.
Variable CopyRegion : (Z -> Byte.byte) -> Z -> Byte.byte.

Lemma disassemble_line_fields (crom : Z -> Byte.byte) (off : Z) :
  line_addr (disassemble_line DisassemblePowerPC crom off)
  = U32.add off CROM_BASE
  /\ line_op (disassemble_line DisassemblePowerPC crom off)
     = fetch_op crom off.
Proof.
  unfold disassemble_line.
  destruct (DisassemblePowerPC _ _) as [[err mnem] oprs]. auto.
Qed.

(** The loop from an offset inside the window: how many lines, and which
    offsets. *)
Lemma disassemble_loop_spec (crom : Z -> Byte.byte) (n : nat) (off : Z) :
  0 <= off <= CROM_WINDOW ->
  List.length (disassemble_loop DisassemblePowerPC crom n off)
  = Nat.min n (Z.to_nat ((CROM_WINDOW - off) / 4))
  /\ forall k d,
       (k < List.length (disassemble_loop DisassemblePowerPC crom n off))%nat ->
       nth k (disassemble_loop DisassemblePowerPC crom n off) d
       = disassemble_line DisassemblePowerPC crom (off + 4 * Z.of_nat k)
       /\ off + 4 * Z.of_nat k + 4 <= CROM_WINDOW.
Proof.
  revert off. induction n as [|n IH]; intros off Hoff.
  - simpl. split; [reflexivity|]. intros k d Hk. lia.
  - cbn [disassemble_loop]. unfold U32.add.
    rewrite wrap_small by (unfold U32.modulus, CROM_WINDOW in *; lia).
    destruct (Z.leb_spec (off + 4) CROM_WINDOW) as [Hin|Hout].
    + destruct (IH (off + 4) ltac:(lia)) as (Hlen & Hnth).
      cbn [List.length]. rewrite Hlen. split.
      * replace (CROM_WINDOW - off) with ((CROM_WINDOW - (off + 4)) + 1 * 4)
          by lia.
        rewrite Z.div_add by lia.
        rewrite Z2Nat.inj_add by (try apply Z.div_pos; lia).
        change (Z.to_nat 1) with 1%nat. lia.
      * intros [|k] d Hk.
        { cbn [nth]. rewrite Z.mul_0_r, Z.add_0_r. split; [reflexivity|lia]. }
        { cbn [nth]. rewrite <- Hlen in Hk.
          destruct (Hnth k d ltac:(lia)) as (Hline & Hb).
          rewrite Hline, Nat2Z.inj_succ.
          replace (off + 4 + 4 * Z.of_nat k) with (off + 4 * Z.succ (Z.of_nat k))
            in * by lia.
          auto. }
    + cbn [List.length]. split; [|intros k d Hk; lia].
      rewrite Z.div_small by lia. simpl. lia.
Qed.

(** X10. [DisassembleCROM] returns OKAY exactly when the address is in the
    CROM range, the buffer is allocated and the ROM set loads.  It
    allocates for addresses in range only, prints nothing unless it
    returns OKAY, and deletes the buffer only on the path that returns
    OKAY: when the ROM set fails to load the buffer is left allocated. *)
Theorem DisassembleCROM_outcome (env : CromEnv) (zipFile : string)
    (addr n : Z) :
  let r := DisassembleCROM DisassemblePowerPC CopyRegion env zipFile addr n in
  (fst r = true <->
   CROM_BASE <= addr /\ crom_alloc_ok env = true /\ rom_set env <> None)
  /\ List.length (filter is_DisNew (snd r))
     = (if (CROM_BASE <=? addr) && crom_alloc_ok env then 1%nat else 0%nat)
  /\ List.length (filter is_DisDelete (snd r))
     = (if fst r then 1%nat else 0%nat)
  /\ (fst r = false -> dis_lines (snd r) = []).
Proof.
  unfold DisassembleCROM.
  destruct (Z.ltb_spec addr CROM_BASE) as [Hlow|Hin].
  - assert (Hb : (CROM_BASE <=? addr) = false) by (apply Z.leb_gt; lia).
    rewrite Hb. simpl. repeat split; try reflexivity; try discriminate.
    intros (H & _). lia.
  - assert (Hb : (CROM_BASE <=? addr) = true) by (apply Z.leb_le; lia).
    rewrite Hb. destruct (crom_alloc_ok env); cbn [negb andb].
    + destruct (rom_set env) as [[size loaded]|].
      * cbv zeta. cbn [fst snd]. split.
        { split; [intros _; repeat split; [lia|discriminate]|reflexivity]. }
        assert (Hcount : forall (p : DisEvent -> bool) l,
                   (forall x, p (DisPrint x) = false) ->
                   List.length (filter p (map DisPrint l)) = 0%nat).
        { intros p l Hp. induction l as [|x l IHl]; [reflexivity|].
          simpl. rewrite Hp. exact IHl. }
        split; [|split; [|discriminate]].
        { rewrite !filter_app, !length_app, Hcount by reflexivity.
          destruct (size <? CROM_WINDOW); reflexivity. }
        { rewrite !filter_app, !length_app, Hcount by reflexivity.
          destruct (size <? CROM_WINDOW); reflexivity. }
      * simpl. split; [|auto].
        split; [discriminate|]. intros (_ & _ & H). contradiction H. reflexivity.
    + simpl. split; [|auto].
      split; [discriminate|]. intros (_ & H & _). discriminate H.
Qed.

(** X11. When [DisassembleCROM] prints (address in the CROM range, buffer
    allocated, ROM set loaded), it prints min (n, (2^32 - addr) / 4)
    lines; line k carries the address addr + 4k and the opcode that is
    the big-endian number of the four bytes at offsets addr - 0xFF800000
    + 4k, ..., + 4k + 3 of the buffer, all of them below 0x800000: the
    listing stops at the end of the fixed CROM region and the address
    never wraps. *)
Theorem DisassembleCROM_listing (env : CromEnv) (zipFile : string)
    (addr n size : Z) (loaded : Z -> Byte.byte)
    (Haddr : CROM_BASE <= addr < U32.modulus) (Hn : 0 <= n)
    (Halloc : crom_alloc_ok env = true)
    (Hrom : rom_set env = Some (size, loaded)) :
  let crom := if size <? CROM_WINDOW then CopyRegion loaded else loaded in
  let lines :=
    dis_lines
      (snd (DisassembleCROM DisassemblePowerPC CopyRegion env zipFile addr n)) in
  Z.of_nat (List.length lines) = Z.min n ((U32.modulus - addr) / 4)
  /\ forall k d,
       (k < List.length lines)%nat ->
       let off := addr - CROM_BASE + 4 * Z.of_nat k in
       line_addr (nth k lines d) = addr + 4 * Z.of_nat k
       /\ 0 <= off /\ off + 3 < CROM_WINDOW
       /\ line_op (nth k lines d)
          = byte_val (crom off) * 16777216
            + byte_val (crom (off + 1)) * 65536
            + byte_val (crom (off + 2)) * 256 + byte_val (crom (off + 3)).
Proof.
  intros crom lines.
  assert (Hlines : lines
                   = disassemble_loop DisassemblePowerPC crom (Z.to_nat n)
                       (addr - CROM_BASE)).
  { unfold lines, DisassembleCROM.
    assert (Hb : (addr <? CROM_BASE) = false) by (apply Z.ltb_ge; lia).
    rewrite Hb, Halloc, Hrom. cbn [negb snd]. cbv zeta. fold crom.
    unfold U32.sub.
    rewrite wrap_small by (unfold U32.modulus, CROM_BASE in *; lia).
    unfold dis_lines. rewrite !flat_map_app.
    replace (flat_map _ [DisNew; DisLoadROMSet zipFile]) with (@nil DisLine)
      by reflexivity.
    replace (flat_map _ (if size <? CROM_WINDOW then [DisCopyRegion] else []))
      with (@nil DisLine) by (destruct (size <? CROM_WINDOW); reflexivity).
    replace (flat_map _ [DisDelete]) with (@nil DisLine) by reflexivity.
    rewrite app_nil_r. cbn [app].
    induction (disassemble_loop _ _ _ _) as [|x l IHl]; [reflexivity|].
    simpl. rewrite IHl. reflexivity. }
  rewrite Hlines.
  destruct (disassemble_loop_spec crom (Z.to_nat n) (addr - CROM_BASE))
    as (Hlen & Hnth);
    [unfold U32.modulus, CROM_BASE, CROM_WINDOW in *; lia|].
  assert (Hwin : CROM_WINDOW - (addr - CROM_BASE) = U32.modulus - addr)
    by (unfold U32.modulus, CROM_BASE, CROM_WINDOW; lia).
  split.
  - rewrite Hlen, Hwin.
    assert (0 <= (U32.modulus - addr) / 4) by (apply Z.div_pos; lia).
    lia.
  - intros k d Hk off. destruct (Hnth k d Hk) as (Hline & Hb). fold off in Hb.
    rewrite Hline. fold off.
    destruct (disassemble_line_fields crom off) as (-> & ->).
    assert (Hoff : 0 <= off) by (unfold off; lia).
    unfold U32.add.
    rewrite wrap_small by (unfold U32.modulus, CROM_BASE, CROM_WINDOW in *; lia).
    split; [unfold off; lia|]. split; [exact Hoff|]. split; [lia|].
    apply fetch_op_big_endian; [exact Hoff|].
    unfold U32.modulus, CROM_WINDOW in *. lia.
Qed.

End DisassemblerFacts.

(** The last two words of the region: a listing of five instructions from
    0xFFFFFFF8 has two lines, the second one at 0xFFFFFFFC. *)
Lemma DisassembleCROM_listing_witness :
  let lines :=
    dis_lines
      (snd (DisassembleCROM DisBench.decoder DisBench.mirror DisBench.crom_env
              "scud.zip" 4294967288 5)) in
  Z.of_nat (List.length lines) = 2
  /\ line_addr (nth 1 lines DisBench.no_line) = 4294967292
  /\ line_op (nth 1 lines DisBench.no_line) = 16909311.
Proof.
  intros lines.
  destruct (DisassembleCROM_listing DisBench.decoder DisBench.mirror
              DisBench.crom_env "scud.zip" 4294967288 5 CROM_WINDOW DisBench.rom)
    as (Hlen & Hnth).
  - vm_compute. split; [discriminate | reflexivity].
  - lia.
  - reflexivity.
  - reflexivity.
  - assert (Hlen2 : Z.of_nat (List.length lines) = 2) by exact Hlen.
    split; [exact Hlen2|].
    assert (Hk : (1 < List.length lines)%nat) by lia.
    destruct (Hnth 1%nat DisBench.no_line Hk) as (Ha & _ & _ & Hop).
    split; [exact Ha | exact Hop].
Defined.

(** ** The game list *)

Lemma length_spaces (k : nat) : String.length (spaces k) = k.
Proof. induction k as [|k IH]; simpl; [reflexivity|]. rewrite IH. reflexivity. Qed.

Lemma substring_skip (a s : string) (n m : nat) :
  substring (String.length a + n) m (a ++ s) = substring n m s.
Proof. induction a as [|c a IH]; simpl; [reflexivity|]. exact IH. Qed.

Lemma substring_prefix (b c : string) :
  substring 0 (String.length b) (b ++ c) = b.
Proof.
  induction b as [|x b IH]; simpl.
  - destruct c; reflexivity.
  - rewrite IH. reflexivity.
Qed.

Lemma substring_0_0 (s : string) : substring 0 0 s = EmptyString.
Proof. destruct s; reflexivity. Qed.

Lemma substring_field (a b c : string) (k : nat) :
  k = String.length a ->
  substring k (String.length b) (a ++ b ++ c) = b.
Proof.
  intros ->. rewrite <- (Nat.add_0_r (String.length a)).
  rewrite substring_skip. apply substring_prefix.
Qed.

Lemma append_assoc' (a b c : string) :
  ((a ++ b) ++ c)%string = (a ++ b ++ c)%string.
Proof. induction a as [|x a IH]; simpl; [reflexivity|]. rewrite IH. reflexivity. Qed.

Lemma append_empty_r (a : string) : (a ++ "")%string = a.
Proof. induction a as [|x a IH]; simpl; [reflexivity|]. rewrite IH. reflexivity. Qed.

(** X12. [PrintGameList] prints four heading lines and one line for each
    game.  On the line of a game the id stands at column 4, under
    "ROM Set", and the title at column 20, under "Title", when the id has
    at most 9 characters; a longer id pushes its title to the right by the
    excess. *)
Theorem PrintGameList_columns (games : list (string * string)) (k : nat)
    (id title : string)
    (Hk : nth_error games k = Some (id, title)) :
  let heading := nth 2 (PrintGameList games) EmptyString in
  let line := nth (4 + k) (PrintGameList games) EmptyString in
  List.length (PrintGameList games) = (4 + List.length games)%nat
  /\ substring 4 7 heading = "ROM Set"%string
  /\ substring 20 5 heading = "Title"%string
  /\ substring 4 (String.length id) line = id
  /\ substring (20 + (String.length id - 9)) (String.length title) line
     = title.
Proof.
  intros heading line.
  assert (Hline : line = game_line (id, title)).
  { unfold line, PrintGameList. cbn [app nth Nat.add].
    apply nth_error_nth. apply map_nth_error. exact Hk. }
  split; [|split; [|split; [|split]]].
  - unfold PrintGameList. rewrite length_app, length_map. reflexivity.
  - reflexivity.
  - reflexivity.
  - rewrite Hline. cbn [game_line].
    apply (substring_field "    " id). reflexivity.
  - rewrite Hline. cbn [game_line].
    rewrite <- (append_empty_r title) at 2.
    rewrite <- !append_assoc'.
    rewrite (append_assoc' _ title "").
    apply substring_field.
    rewrite !length_append, length_spaces. cbn [String.length]. lia.
Qed.

(** The second of two games, with an id of eight characters. *)
Lemma PrintGameList_columns_witness :
  nth 5 (PrintGameList (game_list ArgBench.env)) EmptyString
  = "    daytona2        Daytona USA 2"%string
  /\ substring 20 13
       (nth 5 (PrintGameList (game_list ArgBench.env)) EmptyString)
     = "Daytona USA 2"%string.
Proof.
  destruct (PrintGameList_columns (game_list ArgBench.env) 1
              "daytona2" "Daytona USA 2" eq_refl)
    as (_ & _ & _ & _ & H).
  split; [reflexivity | exact H].
Defined.

(** ** The option loop *)

Ltac parse_cases :=
  repeat match goal with
         | |- context [if ?b then _ else _] => destruct b eqn:?
         | |- context [match ?x with Some _ => _ | None => _ end] =>
             destruct x eqn:?
         | |- context [let '(_, _) := ?x in _] => destruct x
         end.

Ltac grows :=
  first [ exists (@nil ArgEvent); rewrite app_nil_r; reflexivity
        | eexists; reflexivity
        | eexists; rewrite <- app_assoc; reflexivity ].

Section OptionLoopFacts.

Variable scan_d : string -> option Z.
Variable scan_d_d : string -> option (Z * Z).
Variable scan_X_X : string -> option (Z * option Z).

(** An argument that does not begin with a dash reaches the last branch. *)
Lemma parse_arg_file (argv : list string) (i : Z) (p : Parse) :
  starts_dash (arg argv i) = false ->
  parse_arg scan_d scan_d_d scan_X_X argv i p
  = inr (if negb (fileIdx p =? 0)
         then arg_log
                (ArgError ("Multiple files specified. Using " ++ arg argv i
                           ++ ", ignoring " ++ arg argv (fileIdx p) ++ "."))
                p
         else set_fileIdx i p).
Proof.
  intros H. unfold parse_arg, strncmp_eq. cbv zeta.
  destruct (arg argv i) as [|c a] eqn:Ha.
  - cbn [String.eqb substring orb starts_dash].
    destruct (negb (fileIdx p =? 0)); reflexivity.
  - cbn [starts_dash] in H.
    cbn [String.eqb substring starts_dash]. rewrite H. cbn [andb orb].
    destruct (negb (fileIdx p =? 0)); reflexivity.
Qed.

(** Every pass only adds events, keeps a file index once set, and keeps
    [-dis] ready. *)
Lemma parse_arg_step (argv : list string) (i : Z) (p p' : Parse) :
  parse_arg scan_d scan_d_d scan_X_X argv i p = inr p' ->
  (exists es, arg_events p' = arg_events p ++ es)
  /\ (fileIdx p' = fileIdx p
      \/ (fileIdx p = 0 /\ fileIdx p' = i
          /\ starts_dash (arg argv i) = false))
  /\ (dis_ready p -> dis_ready p').
Proof.
  unfold parse_arg. cbv zeta. parse_cases; intros H;
    try discriminate H; injection H as <-;
    (split; [cbn; grows|split]);
    try (left; reflexivity);
    try (unfold dis_ready; cbn; intros Hr Hd;
         first [ split; discriminate
               | destruct (Hr Hd) as [Ha Hn];
                 split; [exact Ha | first [exact Hn | discriminate]] ]).
  right. cbn. repeat split.
  apply Z.eqb_eq. destruct (fileIdx p =? 0); [reflexivity|discriminate].
Qed.

Lemma files_seen_step (argv : list string) (i : Z) (p p' : Parse) :
  1 <= i ->
  files_seen argv i p ->
  parse_arg scan_d scan_d_d scan_X_X argv i p = inr p' ->
  files_seen argv (i + 1) p'.
Proof.
  intros Hi Hinv H.
  destruct (starts_dash (arg argv i)) eqn:Hd.
  - destruct (parse_arg_step _ _ _ _ H) as ((es & Hes) & [Hf | (_ & _ & Hc)] & _);
      [|congruence].
    destruct Hinv as [(H0 & Hall) | (Hb & Hfile & Hbefore & Hlater)].
    + left. split; [congruence|]. intros j Hj.
      destruct (Z.eq_dec j i) as [-> | Hne]; [exact Hd | apply Hall; lia].
    + right. rewrite Hf. split; [lia|]. split; [exact Hfile|].
      split; [exact Hbefore|]. intros j Hj Hjf.
      destruct (Z.eq_dec j i) as [-> | Hne].
      * unfold is_file in Hjf. rewrite Hd in Hjf. discriminate Hjf.
      * rewrite Hes. apply in_or_app. left. apply Hlater; [lia | exact Hjf].
  - rewrite (parse_arg_file _ _ _ Hd) in H. injection H as <-.
    destruct Hinv as [(H0 & Hall) | (Hb & Hfile & Hbefore & Hlater)].
    + rewrite H0. cbn [Z.eqb negb]. right. cbn [fileIdx set_fileIdx arg_events].
      split; [lia|]. split; [unfold is_file; rewrite Hd; reflexivity|].
      split; [intros j Hj; apply Hall; lia|]. intros j Hj. lia.
    + assert (Hnz : negb (fileIdx p =? 0) = true).
      { destruct (Z.eqb_spec (fileIdx p) 0); [lia | reflexivity]. }
      rewrite Hnz. right. cbn [fileIdx arg_log arg_events].
      split; [lia|]. split; [exact Hfile|]. split; [exact Hbefore|].
      intros j Hj Hjf. apply in_or_app.
      destruct (Z.eq_dec j i) as [-> | Hne].
      * right. left. reflexivity.
      * left. apply Hlater; [lia | exact Hjf].
Qed.

Lemma parse_loop_inv (argv : list string) (count : nat) :
  forall (i : Z) (p p' : Parse),
    1 <= i ->
    parse_loop scan_d scan_d_d scan_X_X argv count i p = inr p' ->
    files_seen argv i p -> dis_ready p ->
    files_seen argv (i + Z.of_nat count) p' /\ dis_ready p'.
Proof.
  induction count as [|count IH]; intros i p p' Hi H Hinv Hr.
  - cbn [parse_loop] in H. injection H as <-.
    rewrite Z.add_0_r. split; assumption.
  - cbn [parse_loop] in H.
    destruct (parse_arg scan_d scan_d_d scan_X_X argv i p) as [h | p1] eqn:Hp;
      [discriminate H|].
    replace (i + Z.of_nat (S count)) with ((i + 1) + Z.of_nat count) by lia.
    apply (IH (i + 1) p1 p'); [lia | exact H | |].
    + exact (files_seen_step _ _ _ _ Hi Hinv Hp).
    + destruct (parse_arg_step _ _ _ _ Hp) as (_ & _ & Hd). exact (Hd Hr).
Qed.

Lemma parse_args_inv (argv : list string) (p : Parse) :
  parse_args scan_d scan_d_d scan_X_X argv = inr p ->
  files_seen argv (Z.of_nat (List.length argv)) p /\ dis_ready p.
Proof.
  intros H. unfold parse_args in H.
  destruct (parse_loop_inv argv _ 1 parse0 p ltac:(lia) H) as (Hf & Hr).
  - left. split; [reflexivity|]. intros j Hj. lia.
  - intros Hd. discriminate Hd.
  - split; [|exact Hr].
    destruct argv as [|a0 argv]; [|replace (Z.of_nat (List.length (a0 :: argv)))
          with (1 + Z.of_nat (List.length (a0 :: argv) - 1))
          by (cbn [List.length]; lia); exact Hf].
    cbn [List.length Nat.sub Z.of_nat] in *.
    destruct Hf as [(H0 & _) | (Hb & _)]; [|lia].
    left. split; [exact H0|]. intros j Hj. lia.
Qed.

Lemma parse_arg_range (argv : list string) (i : Z) (p p' : Parse) :
  parse_arg scan_d scan_d_d scan_X_X argv i p = inr p' ->
  vars_in_range p -> vars_in_range p'.
Proof.
  unfold parse_arg. cbv zeta. parse_cases; intros H;
    try discriminate H; injection H as <-;
    unfold vars_in_range; cbn; intros [Ha Hn];
    (split; intros v Hv;
     first [ apply Ha; exact Hv
           | apply Hn; exact Hv
           | injection Hv as <-;
             first [apply wrap_range | unfold U32.modulus; lia] ]).
Qed.

Lemma parse_loop_range (argv : list string) (count : nat) :
  forall (i : Z) (p p' : Parse),
    parse_loop scan_d scan_d_d scan_X_X argv count i p = inr p' ->
    vars_in_range p -> vars_in_range p'.
Proof.
  induction count as [|count IH]; intros i p p' H Hr.
  - cbn [parse_loop] in H. injection H as <-. exact Hr.
  - cbn [parse_loop] in H.
    destruct (parse_arg scan_d scan_d_d scan_X_X argv i p) as [h | p1] eqn:Hp;
      [discriminate H|].
    exact (IH (i + 1) p1 p' H (parse_arg_range _ _ _ _ Hp Hr)).
Qed.

Lemma parse_args_written (argv : list string) (p : Parse) :
  parse_args scan_d scan_d_d scan_X_X argv = inr p ->
  cmdDis p = true ->
  exists addr n,
    var_addr p = Some addr /\ var_n p = Some n
    /\ 0 <= addr < U32.modulus /\ 0 <= n < U32.modulus.
Proof.
  intros H Hd.
  destruct (parse_args_inv argv p H) as (_ & Hready).
  assert (Hrange : vars_in_range p).
  { apply (parse_loop_range argv _ 1 parse0 p H).
    split; intros v Hv; discriminate Hv. }
  destruct (Hready Hd) as (Ha & Hn).
  destruct (var_addr p) as [addr|] eqn:Eaddr; [|contradiction Ha; reflexivity].
  destruct (var_n p) as [n|] eqn:En; [|contradiction Hn; reflexivity].
  exists addr, n. destruct Hrange as (Hra & Hrn).
  split; [reflexivity|]. split; [reflexivity|].
  split; [apply Hra; exact Eaddr | apply Hrn; exact En].
Qed.

(** X13. When the option loop ends without an option that stops [main],
    [fileIdx] is the index of the first argument that does not begin with
    a dash (0 when there is none), and for every later such argument the
    error log holds a message that names the later one as used and the
    first one as ignored: the loop keeps the first file and reports the
    opposite. *)
Theorem parse_args_keeps_first_file (argv : list string) (p : Parse)
    (H : parse_args scan_d scan_d_d scan_X_X argv = inr p) :
  let argc := Z.of_nat (List.length argv) in
  (fileIdx p = 0
   /\ forall j, 1 <= j < argc -> starts_dash (arg argv j) = true)
  \/ (1 <= fileIdx p < argc
      /\ is_file (arg argv (fileIdx p)) = true
      /\ (forall j, 1 <= j < fileIdx p -> starts_dash (arg argv j) = true)
      /\ forall j, fileIdx p < j < argc -> is_file (arg argv j) = true ->
           In (ArgError ("Multiple files specified. Using " ++ arg argv j
                         ++ ", ignoring " ++ arg argv (fileIdx p) ++ "."))
              (arg_events p)).
Proof.
  intros argc. destruct (parse_args_inv argv p H) as (Hf & _). exact Hf.
Qed.

(** X14. The spelling of the two volume options that [Help] prints,
    [-sound-volume=<v>] and [-music-volume=<v>], is rejected for every
    value: the loop compares the first ten characters and scans from the
    eleventh, where the format asks for [=].  What it accepts is
    [-sound-vol] and [-music-vol] followed by what [sscanf] accepts. *)
Theorem help_spelling_of_volume_options_is_rejected
    (Hliteral : forall s, (forall r, s <> String "=" r) -> scan_d s = None)
    (argv : list string) (i : Z) (p : Parse) (v : string) :
  In "    -sound-volume=<v>      Set volume of sound effects in % [Default: 100]"%string
     Help
  /\ In "    -music-volume=<v>      Set volume of MPEG music in % [Default: 100]"%string
       Help
  /\ (arg argv i = ("-sound-volume=" ++ v)%string ->
      parse_arg scan_d scan_d_d scan_X_X argv i p
      = inr (arg_log (ArgError "-sound-vol requires a volume setting.") p))
  /\ (arg argv i = ("-music-volume=" ++ v)%string ->
      parse_arg scan_d scan_d_d scan_X_X argv i p
      = inr (arg_log (ArgError "-music-vol requires a volume setting.") p))
  /\ (forall k, arg argv i = ("-sound-vol" ++ v)%string ->
      scan_d v = Some k ->
      parse_arg scan_d scan_d_d scan_X_X argv i p
      = inr (set_flag "SoundVolume" (U32.wrap k) p))
  /\ (forall k, arg argv i = ("-music-vol" ++ v)%string ->
      scan_d v = Some k ->
      parse_arg scan_d scan_d_d scan_X_X argv i p
      = inr (set_flag "MusicVolume" (U32.wrap k) p)).
Proof.
  split; [unfold Help; cbn; tauto|].
  split; [unfold Help; cbn; tauto|].
  assert (Hume : scan_d ("ume=" ++ v)%string = None).
  { apply Hliteral. intros r Hr. discriminate Hr. }
  split; [|split; [|split]].
  - intros Ha. unfold parse_arg, strncmp_eq. rewrite Ha. cbn.
    cbn in Hume. rewrite Hume. reflexivity.
  - intros Ha. unfold parse_arg, strncmp_eq. rewrite Ha. cbn.
    cbn in Hume. rewrite Hume. reflexivity.
  - intros k Ha Hk. unfold parse_arg, strncmp_eq. rewrite Ha. cbn.
    rewrite substring_0_0, Hk. reflexivity.
  - intros k Ha Hk. unfold parse_arg, strncmp_eq. rewrite Ha. cbn.
    rewrite substring_0_0, Hk. reflexivity.
Qed.

End OptionLoopFacts.

(** Two files on the command line. *)
Lemma parse_args_keeps_first_file_witness :
  fileIdx ArgBench2.parsed = 2
  /\ In (ArgError
           "Multiple files specified. Using daytona2.zip, ignoring scud.zip.")
        (arg_events ArgBench2.parsed).
Proof.
  assert (Hp : parse_args ArgBench.scan_d ArgBench.scan_d_d ArgBench.scan_X_X
                 ArgBench2.argv = inr ArgBench2.parsed)
    by (vm_compute; reflexivity).
  destruct (parse_args_keeps_first_file _ _ _ _ _ Hp)
    as [(H0 & _) | (_ & _ & _ & Hm)].
  - vm_compute in H0. discriminate H0.
  - split; [reflexivity|].
    apply (Hm 4); [vm_compute; split; reflexivity | reflexivity].
Defined.

Lemma ArgBench_scan_literal (s : string) :
  (forall r, s <> String "=" r) -> ArgBench.scan_d s = None.
Proof.
  intros H. destruct s as [|c r]; [reflexivity|].
  unfold ArgBench.scan_d.
  destruct c as [[] [] [] [] [] [] [] []]; try reflexivity.
  exfalso. apply (H r). reflexivity.
Defined.

(** [-sound-volume=50] with the reference reader. *)
Lemma help_spelling_of_volume_options_is_rejected_witness :
  parse_arg ArgBench.scan_d ArgBench.scan_d_d ArgBench.scan_X_X
    ["supermodel"; "-sound-volume=50"]%string 1 parse0
  = inr (arg_log (ArgError "-sound-vol requires a volume setting.") parse0)
  /\ parse_arg ArgBench.scan_d ArgBench.scan_d_d ArgBench.scan_X_X
       ["supermodel"; "-sound-vol=50"]%string 1 parse0
     = inr (set_flag "SoundVolume" 50 parse0).
Proof.
  split.
  - destruct (help_spelling_of_volume_options_is_rejected
                ArgBench.scan_d ArgBench.scan_d_d ArgBench.scan_X_X
                ArgBench_scan_literal
                ["supermodel"; "-sound-volume=50"]%string 1 parse0 "50")
      as (_ & _ & H & _).
    exact (H eq_refl).
  - destruct (help_spelling_of_volume_options_is_rejected
                ArgBench.scan_d ArgBench.scan_d_d ArgBench.scan_X_X
                ArgBench_scan_literal
                ["supermodel"; "-sound-vol=50"]%string 1 parse0 "=50")
      as (_ & _ & _ & _ & H & _).
    exact (H 50 eq_refl eq_refl).
Defined.

(** ** [ConfigureInputs] and [PrintGLInfo]: the window of 496 by 384 *)

Lemma plain_screen (env : VideoEnv) :
  CreateGLScreen env 496 384 false false
  = if video_init_ok env && video_mode_ok env && glew_ok env
    then Okay {| g_xOffset := center_offset 496 496 (current_w env);
                 g_yOffset := center_offset 384 384 (current_h env);
                 g_xRes := 496; g_yRes := 384 |}
    else Fail.
Proof.
  unfold CreateGLScreen.
  destruct (video_init_ok env); [|reflexivity].
  destruct (video_mode_ok env); [|reflexivity].
  cbn [negb andb].
  assert (Hx : F32.to_unsigned (F32.of_unsigned 496) = Some 496)
    by (vm_compute; reflexivity).
  assert (Hy : F32.to_unsigned (F32.of_unsigned 384) = Some 384)
    by (vm_compute; reflexivity).
  rewrite Hx, Hy. destruct (glew_ok env); reflexivity.
Qed.

(** X15. [ConfigureInputs] always returns.  It reports failure exactly
    when it was asked to configure and the window of 496 by 384 could not
    be created; the window handed to the input configuration has that
    size; the configuration file is written exactly when the user
    completes the configuration in that window; and [INI.Close] is
    reached on every path except the failing one. *)
Theorem ConfigureInputs_outcome (env : CfgEnv) (configure : bool) :
  exists failed t,
    ConfigureInputs env configure = CfgReturned failed t
    /\ failed
       = configure
         && negb (video_init_ok (cfg_video env)
                  && video_mode_ok (cfg_video env)
                  && glew_ok (cfg_video env))
    /\ List.length (filter is_CfgClose t)
       = (if failed then 0%nat else 1%nat)
    /\ List.length (filter is_CfgWrite t)
       = (if configure && negb failed && cfg_completed env
          then 1%nat else 0%nat)
    /\ forall g, In (CfgWindow g) t -> g_xRes g = 496 /\ g_yRes g = 384.
Proof.
  unfold ConfigureInputs. destruct configure; cbn [andb].
  - rewrite plain_screen.
    destruct (video_init_ok (cfg_video env) && video_mode_ok (cfg_video env)
              && glew_ok (cfg_video env)); cbn [negb].
    + eexists; eexists. split; [reflexivity|]. split; [reflexivity|].
      destruct (cfg_completed env), (cfg_write_ok env); cbn;
        (split; [reflexivity|]); (split; [reflexivity|]);
        intros g Hg; repeat (destruct Hg as [Hg | Hg]; try discriminate Hg);
        try contradiction; injection Hg as <-; split; reflexivity.
    + eexists; eexists. split; [reflexivity|]. split; [reflexivity|].
      cbn. split; [reflexivity|]. split; [reflexivity|].
      intros g Hg; repeat (destruct Hg as [Hg | Hg]; try discriminate Hg);
        contradiction.
  - eexists; eexists. split; [reflexivity|]. split; [reflexivity|].
    cbn. split; [reflexivity|]. split; [reflexivity|].
    intros g Hg; repeat (destruct Hg as [Hg | Hg]; try discriminate Hg);
      contradiction.
Qed.

(** ** [main] *)

Lemma PrintGLInfo_defined (env : VideoEnv) :
  PrintGLInfo env
  = Some (if video_init_ok env && video_mode_ok env && glew_ok env
          then [MScreen {| g_xOffset := center_offset 496 496 (current_w env);
                           g_yOffset := center_offset 384 384 (current_h env);
                           g_xRes := 496; g_yRes := 384 |};
                MPuts ("OpenGL information:" ++ newline); MGLInfo; MPuts ""]
          else [MError ("Unable to query OpenGL." ++ newline)]).
Proof.
  unfold PrintGLInfo. rewrite plain_screen.
  destruct (video_init_ok env && video_mode_ok env && glew_ok env);
    reflexivity.
Qed.

Lemma filter_map_none {A B : Type} (f : B -> bool) (g : A -> B)
    (l : list A) :
  (forall x, f (g x) = false) -> filter f (map g l) = [].
Proof.
  intros H. induction l as [|x l IH]; [reflexivity|].
  cbn [map filter]. rewrite H. exact IH.
Qed.

Lemma flat_map_map_none {A B C : Type} (f : B -> list C) (g : A -> B)
    (l : list A) :
  (forall x, f (g x) = []) -> flat_map f (map g l) = [].
Proof.
  intros H. induction l as [|x l IH]; [reflexivity|].
  cbn [map flat_map]. rewrite H. exact IH.
Qed.

Lemma forallb_map_all {A B : Type} (f : B -> bool) (g : A -> B)
    (l : list A) :
  (forall x, f (g x) = true) -> forallb f (map g l) = true.
Proof.
  intros H. induction l as [|x l IH]; [reflexivity|].
  cbn [map forallb]. rewrite H. exact IH.
Qed.

Lemma existsb_map_none {A B : Type} (f : B -> bool) (g : A -> B)
    (l : list A) :
  (forall x, f (g x) = false) -> existsb f (map g l) = false.
Proof.
  intros H. induction l as [|x l IH]; [reflexivity|].
  cbn [map existsb]. rewrite H. exact IH.
Qed.

Lemma disassemble_loop_length (D : Z -> Z -> bool * string * string)
    (crom : Z -> Byte.byte) (n : nat) :
  forall off, (List.length (disassemble_loop D crom n off) <= n)%nat.
Proof.
  induction n as [|n IH]; intros off; cbn [disassemble_loop].
  - cbn. lia.
  - destruct (_ <=? _); cbn [List.length]; [|lia].
    specialize (IH (U32.add off 4)). lia.
Qed.

Lemma dis_lines_prints (l : list DisLine) :
  dis_lines (map DisPrint l) = l.
Proof.
  unfold dis_lines. induction l as [|x l IH]; [reflexivity|].
  cbn [map flat_map app]. rewrite IH. reflexivity.
Qed.

Lemma DisassembleCROM_lines_bound (D : Z -> Z -> bool * string * string)
    (C : (Z -> Byte.byte) -> Z -> Byte.byte) (env : CromEnv) (zip : string)
    (addr n : Z) :
  (List.length (dis_lines (snd (DisassembleCROM D C env zip addr n)))
   <= Z.to_nat n)%nat.
Proof.
  unfold DisassembleCROM.
  destruct (addr <? CROM_BASE); [cbn; lia|].
  destruct (crom_alloc_ok env); cbn [negb]; [|cbn; lia].
  destruct (rom_set env) as [[size loaded]|]; [|cbn; lia].
  cbv zeta. cbn [snd]. unfold dis_lines. rewrite !flat_map_app.
  replace (flat_map _ [DisNew; DisLoadROMSet zip]) with (@nil DisLine)
    by reflexivity.
  replace (flat_map _ (if size <? CROM_WINDOW then [DisCopyRegion] else []))
    with (@nil DisLine) by (destruct (size <? CROM_WINDOW); reflexivity).
  replace (flat_map _ [DisDelete]) with (@nil DisLine) by reflexivity.
  rewrite app_nil_r. cbn [app].
  fold (dis_lines
          (map DisPrint
             (disassemble_loop D
                (if size <? CROM_WINDOW then C loaded else loaded)
                (Z.to_nat n) (U32.sub addr CROM_BASE)))).
  rewrite dis_lines_prints. apply disassemble_loop_length.
Qed.

Lemma MainReturned_inj (c c' : Z) (t t' : list MainEvent) :
  MainReturned c t = MainReturned c' t' -> c = c' /\ t = t'.
Proof. intros H. injection H as -> ->. split; reflexivity. Qed.

Ltac main_paths :=
  unfold main, Exit; rewrite ?PrintGLInfo_defined; cbv beta iota zeta;
  repeat match goal with
         | |- context [if negb ?b then _ else _] =>
             destruct b eqn:?; cbn [negb]
         | |- context [match ?x with _ => _ end] => destruct x eqn:?
         end.

Ltac main_trace :=
  rewrite ?filter_app, ?existsb_app, ?flat_map_app, ?length_app,
    ?(filter_map_none _ MArg), ?(filter_map_none _ MPuts),
    ?(existsb_map_none _ MArg), ?(existsb_map_none _ MPuts),
    ?(flat_map_map_none _ MArg), ?(flat_map_map_none _ MPuts)
    by reflexivity.

Section EntryPointFacts.

Context {M FS BF : Type}.
Context {BFO : BlockFileOps FS BF} {M3O : Model3Ops M BF}.

Variable SUPERMODEL_VERSION : string.
Variable scan_d : string -> option Z.
Variable scan_d_d : string -> option (Z * Z).
Variable scan_X_X : string -> option (Z * option Z).
Variable DisassemblePowerPC : Z -> Z -> bool * string * string.
Variable CopyRegion : (Z -> Byte.byte) -> Z -> Byte.byte.

Lemma parse_arg_halting (argv : list string) (i : Z) (p : Parse) :
  In (arg argv i) halting_options ->
  exists h, parse_arg scan_d scan_d_d scan_X_X argv i p = inl h.
Proof.
  intros H. unfold parse_arg, strncmp_eq. cbv zeta.
  cbn in H. destruct H as [H | [H | [H | [H | []]]]];
    rewrite <- H; eexists; reflexivity.
Qed.

Lemma parse_loop_halts (argv : list string) (count : nat) :
  forall (i : Z) (p : Parse) (j : Z),
    i <= j < i + Z.of_nat count ->
    In (arg argv j) halting_options ->
    exists h p', parse_loop scan_d scan_d_d scan_X_X argv count i p
                 = inl (h, p').
Proof.
  induction count as [|count IH]; intros i p j Hj Hopt; [lia|].
  cbn [parse_loop].
  destruct (parse_arg scan_d scan_d_d scan_X_X argv i p) as [h | p1] eqn:Hp.
  - exists h, p. reflexivity.
  - assert (Hne : j <> i).
    { intros ->. destruct (parse_arg_halting argv i p Hopt) as (h & Hh).
      congruence. }
    apply (IH (i + 1) p1 j); [lia | exact Hopt].
Qed.

(** X16. An option that prints and quits ([-h], [-?], [-print-games],
    [-print-gl-info]) anywhere on the command line makes [main] return 0
    from inside the option loop, whatever else the command line holds:
    [SDL_Init] is not reached, no input system is created, neither
    [Supermodel] nor the disassembler runs, and [SDL_Quit] is not called,
    also after [PrintGLInfo] has opened its window. *)
Theorem main_halting_option_returns_zero (env : MainEnv)
    (argv : list string) (cfg : Config) (fs : FS) (st : Startup)
    (frames : list Frame) (j : Z)
    (Hj : 1 <= j < Z.of_nat (List.length argv))
    (Hopt : In (arg argv j) halting_options) :
  exists t,
    main SUPERMODEL_VERSION scan_d scan_d_d scan_X_X DisassemblePowerPC
      CopyRegion env argv cfg fs st frames
    = MainReturned 0 t
    /\ forallb before_SDL t = true.
Proof.
  unfold main. cbv zeta.
  destruct (Z.leb_spec (Z.of_nat (List.length argv)) 1) as [Hle | _]; [lia|].
  destruct (parse_loop_halts argv (List.length argv - 1) 1 parse0 j
              ltac:(lia) Hopt) as (h & p' & Hp).
  unfold parse_args. rewrite Hp.
  assert (Hargs : forall l, forallb before_SDL (map MArg l) = true)
    by (intros l; apply forallb_map_all; reflexivity).
  assert (Hputs : forall l, forallb before_SDL (map MPuts l) = true)
    by (intros l; apply forallb_map_all; reflexivity).
  destruct h.
  - eexists. split; [reflexivity|].
    rewrite !forallb_app, !Hargs, !Hputs. reflexivity.
  - eexists. split; [reflexivity|].
    rewrite !forallb_app, !Hargs, !Hputs. reflexivity.
  - unfold PrintGLInfo. rewrite plain_screen.
    destruct (video_init_ok (gl_video env) && video_mode_ok (gl_video env)
              && glew_ok (gl_video env));
      (eexists; split; [reflexivity|]);
      rewrite !forallb_app, !Hargs, !Hputs; reflexivity.
Qed.

(** X17. [main] pairs its resources on every path on which it returns:
    [SDL_Quit] is called once when [SDL_Init] was called and succeeded and
    not at all otherwise, and the input system and the inputs are each
    deleted as often as they were created. *)
Theorem main_balances_resources (env : MainEnv) (argv : list string)
    (cfg : Config) (fs : FS) (st : Startup) (frames : list Frame)
    (code : Z) (t : list MainEvent)
    (H : main SUPERMODEL_VERSION scan_d scan_d_d scan_X_X DisassemblePowerPC
           CopyRegion env argv cfg fs st frames
         = MainReturned code t) :
  List.length (filter is_SDLQuit t)
  = (if existsb is_SDLInit t && sdl_init_ok env then 1%nat else 0%nat)
  /\ forall o,
       List.length (filter (is_NewObj o) t)
       = List.length (filter (is_DeleteObj o) t)
       /\ (List.length (filter (is_NewObj o) t) <= 1)%nat.
Proof.
  revert H.
  set (P := fun t =>
         List.length (filter is_SDLQuit t)
         = (if existsb is_SDLInit t && sdl_init_ok env then 1%nat else 0%nat)
         /\ forall o,
              List.length (filter (is_NewObj o) t)
              = List.length (filter (is_DeleteObj o) t)
              /\ (List.length (filter (is_NewObj o) t) <= 1)%nat).
  change (main SUPERMODEL_VERSION scan_d scan_d_d scan_X_X DisassemblePowerPC
            CopyRegion env argv cfg fs st frames = MainReturned code t -> P t).
  main_paths; intros H; try discriminate H;
    apply MainReturned_inj in H; destruct H as [Hc Ht]; subst code t;
    subst P; cbv beta.
  all: try match goal with Hs : sdl_init_ok _ = _ |- _ => rewrite Hs end.
  all: split; [|intros o; destruct o].
  all: main_trace.
  all: cbn.
  all: try reflexivity.
  all: try (split; [reflexivity | lia]).
Qed.

(** X18. When [main] runs [Supermodel] it does so once, with the save
    slot at 0, on the first argument that does not begin with a dash, and
    after nothing has been disassembled; the value [main] returns is the
    one [Supermodel] returned. *)
Theorem main_runs_first_file (env : MainEnv) (argv : list string)
    (cfg : Config) (fs : FS) (st : Startup) (frames : list Frame)
    (code : Z) (t : list MainEvent) (zip : string) (c : Z)
    (tr : list Event)
    (H : main SUPERMODEL_VERSION scan_d scan_d_d scan_X_X DisassemblePowerPC
           CopyRegion env argv cfg fs st frames
         = MainReturned code t)
    (Hin : In (zip, c, tr) (supermodel_calls t)) :
  c = code
  /\ supermodel_calls t = [(zip, c, tr)]
  /\ main_dis_lines t = []
  /\ (exists s,
        Supermodel SUPERMODEL_VERSION cfg 0 fs (with_zipFile zip st) frames
        = Returned c s
        /\ trace s = tr)
  /\ exists k,
       1 <= k < Z.of_nat (List.length argv)
       /\ zip = arg argv k
       /\ is_file zip = true
       /\ forall j, 1 <= j < k -> starts_dash (arg argv j) = true.
Proof.
  revert H Hin.
  set (P := fun code t =>
         In (zip, c, tr) (supermodel_calls t) ->
         c = code
         /\ supermodel_calls t = [(zip, c, tr)]
         /\ main_dis_lines t = []
         /\ (exists s,
               Supermodel SUPERMODEL_VERSION cfg 0 fs (with_zipFile zip st)
                 frames
               = Returned c s
               /\ trace s = tr)
         /\ exists k,
              1 <= k < Z.of_nat (List.length argv)
              /\ zip = arg argv k
              /\ is_file zip = true
              /\ forall j, 1 <= j < k -> starts_dash (arg argv j) = true).
  change (main SUPERMODEL_VERSION scan_d scan_d_d scan_X_X DisassemblePowerPC
            CopyRegion env argv cfg fs st frames = MainReturned code t
          -> P code t).
  main_paths; intros H; try discriminate H;
    apply MainReturned_inj in H; destruct H as [Hc Ht]; subst code t;
    subst P; cbv beta.
  all: unfold supermodel_calls, main_dis_lines; main_trace.
  all: cbn [flat_map app]; intros Hin.
  all: try contradiction.
  all: destruct Hin as [Hin | []]; injection Hin as <- <- <-.
  all: match goal with
       | Hp : parse_args _ _ _ _ = inr ?p, Hf : (fileIdx ?p =? 0) = false
         |- _ =>
           destruct (parse_args_inv _ _ _ _ _ Hp)
             as ([(H0 & _) | (Hb & Hfile & Hbefore & _)] & _);
           [apply Z.eqb_neq in Hf; contradiction|]
       end.
  all: split; [reflexivity|]; split; [reflexivity|]; split; [reflexivity|].
  all: split; [eexists; split; [eassumption | reflexivity]|].
  all: eexists; split; [exact Hb|]; split; [reflexivity|];
    split; [exact Hfile | exact Hbefore].
Qed.

Ltac in_trace Hin :=
  repeat match type of Hin with
         | In _ (_ ++ _) =>
             apply in_app_or in Hin; destruct Hin as [Hin | Hin]
         | In _ (map _ _) =>
             let Hx := fresh in
             apply in_map_iff in Hin; destruct Hin as (? & Hx & _);
             discriminate Hx
         | In _ [] => destruct Hin
         | In _ (_ :: _) =>
             destruct Hin as [Hin | Hin]; [try discriminate Hin|]
         end.

(** X19. [DisassembleCROM] is never handed an unwritten variable.  When
    the option loop ends with [cmdDis] set, [addr] and [n] have both been
    written, by the [sscanf] of a [-dis] option or, for [n], by a later
    flag, and each holds a value of 32 bits; these two values are the ones
    every call of [DisassembleCROM] in a run of [main] receives.  (Of the
    runs in which [sscanf] answers: a conversion that C leaves undefined
    is outside the statement.) *)
Theorem dis_reads_written_variables (argv : list string) (p : Parse)
    (Hparse : parse_args scan_d scan_d_d scan_X_X argv = inr p)
    (Hdis : cmdDis p = true) :
  exists addr n,
    var_addr p = Some addr /\ var_n p = Some n
    /\ 0 <= addr < U32.modulus /\ 0 <= n < U32.modulus
    /\ forall (env : MainEnv) (cfg : Config) (fs : FS) (st : Startup)
         (frames : list Frame) (code : Z) (t : list MainEvent)
         (a m : Z) (dt : list DisEvent),
         main SUPERMODEL_VERSION scan_d scan_d_d scan_X_X DisassemblePowerPC
           CopyRegion env argv cfg fs st frames
         = MainReturned code t ->
         In (MDisassembleCROM a m dt) t ->
         a = addr /\ m = n
         /\ dt = snd (DisassembleCROM DisassemblePowerPC CopyRegion
                        (disassembler_env env) (arg argv (fileIdx p))
                        addr n).
Proof.
  destruct (parse_args_written _ _ _ argv p Hparse Hdis)
    as (addr & n & Haddr & Hn & Hra & Hrn).
  exists addr, n.
  split; [exact Haddr|]. split; [exact Hn|].
  split; [exact Hra|]. split; [exact Hrn|].
  intros env cfg fs st frames code t a m dt Hmain Hin.
  revert Hmain. unfold main. rewrite Hparse, Hdis, Haddr, Hn.
  main_paths; intros H; try discriminate H;
    apply MainReturned_inj in H; destruct H as [Hc Ht]; subst code t.
  all: in_trace Hin.
  all: injection Hin as <- <- <-.
  all: split; [reflexivity|]; split; reflexivity.
Qed.

Lemma parse_loop_snoc (argv : list string) (count : nat) :
  forall (i : Z) (p p' : Parse),
    parse_loop scan_d scan_d_d scan_X_X argv (S count) i p = inr p' ->
    exists p1,
      parse_arg scan_d scan_d_d scan_X_X argv (i + Z.of_nat count) p1
      = inr p'.
Proof.
  induction count as [|count IH]; intros i p p' H.
  - cbn [parse_loop] in H.
    destruct (parse_arg scan_d scan_d_d scan_X_X argv i p) as [h|p1] eqn:Hp;
      [discriminate H|].
    injection H as <-. exists p. rewrite Z.add_0_r. exact Hp.
  - remember (S count) as c eqn:Hc. cbn [parse_loop] in H.
    destruct (parse_arg scan_d scan_d_d scan_X_X argv i p) as [h|p1] eqn:Hp;
      [discriminate H|].
    subst c. destruct (IH (i + 1) p1 p' H) as (p2 & H2).
    exists p2. rewrite <- H2. f_equal. lia.
Qed.

Lemma parse_arg_last_flag (argv : list string) (i : Z) (p p' : Parse) :
  parse_arg scan_d scan_d_d scan_X_X argv i p = inr p' ->
  (In (arg argv i) clearing_options -> var_n p' = Some 0)
  /\ (In (arg argv i) raising_options -> var_n p' = Some 1).
Proof.
  intros H. split; intros Hopt; cbn in Hopt;
    destruct Hopt as [Ho | [Ho | [Ho | []]]];
    unfold parse_arg, strncmp_eq in H; rewrite <- Ho in H; cbn in H;
    injection H as <-; reflexivity.
Qed.

Lemma main_dis_lines_bound (env : MainEnv) (argv : list string)
    (cfg : Config) (fs : FS) (st : Startup) (frames : list Frame)
    (code : Z) (t : list MainEvent) :
  main SUPERMODEL_VERSION scan_d scan_d_d scan_X_X DisassemblePowerPC
    CopyRegion env argv cfg fs st frames
  = MainReturned code t ->
  main_dis_lines t = []
  \/ exists p n,
       parse_args scan_d scan_d_d scan_X_X argv = inr p
       /\ var_n p = Some n
       /\ (List.length (main_dis_lines t) <= Z.to_nat n)%nat.
Proof.
  set (P := fun t =>
         main_dis_lines t = []
         \/ exists p n,
              parse_args scan_d scan_d_d scan_X_X argv = inr p
              /\ var_n p = Some n
              /\ (List.length (main_dis_lines t) <= Z.to_nat n)%nat).
  change (main SUPERMODEL_VERSION scan_d scan_d_d scan_X_X DisassemblePowerPC
            CopyRegion env argv cfg fs st frames = MainReturned code t
          -> P t).
  main_paths; intros H; try discriminate H;
    apply MainReturned_inj in H; destruct H as [Hc Ht]; subst code t;
    subst P; cbv beta.
  all: unfold main_dis_lines; main_trace; cbn [flat_map app].
  all: try (left; reflexivity).
  all: right; eexists; eexists; split; [reflexivity|]; split; [eassumption|].
  all: match goal with
       | Hd : DisassembleCROM ?D ?C ?e ?z ?a ?n = (_, ?dt) |- _ =>
           pose proof (DisassembleCROM_lines_bound D C e z a n) as Hb;
           rewrite Hd in Hb; cbn [snd] in Hb;
           rewrite app_nil_r; cbn [List.length Nat.add]; lia
       end.
Qed.

(** X20. The instruction count of [-dis] lives in the variable that every
    flag uses on its way to [CmdLine.Set]: when the last argument is one
    of [-no-scsp], [-no-dsb], [-no-throttle], a run of [main] disassembles
    nothing, and when it is one of [-multi-threaded], [-fullscreen],
    [-show-fps], at most one instruction, whatever count [-dis] asked
    for. *)
Theorem last_flag_sets_instruction_count (env : MainEnv)
    (argv : list string) (cfg : Config) (fs : FS) (st : Startup)
    (frames : list Frame) (code : Z) (t : list MainEvent)
    (Hargc : 2 <= Z.of_nat (List.length argv))
    (H : main SUPERMODEL_VERSION scan_d scan_d_d scan_X_X DisassemblePowerPC
           CopyRegion env argv cfg fs st frames
         = MainReturned code t) :
  let last := arg argv (Z.of_nat (List.length argv) - 1) in
  (In last clearing_options -> main_dis_lines t = [])
  /\ (In last raising_options ->
      (List.length (main_dis_lines t) <= 1)%nat).
Proof.
  intros last.
  destruct (main_dis_lines_bound _ _ _ _ _ _ _ _ H)
    as [Hnone | (p & n & Hp & Hn & Hb)].
  - rewrite Hnone. split; intros _; [reflexivity | cbn; lia].
  - unfold parse_args in Hp.
    destruct (List.length argv - 1)%nat as [|count] eqn:Hcount; [lia|].
    destruct (parse_loop_snoc argv count 1 parse0 p Hp) as (p1 & H1).
    replace (1 + Z.of_nat count) with (Z.of_nat (List.length argv) - 1)
      in H1 by lia.
    destruct (parse_arg_last_flag _ _ _ _ H1) as (Hclear & Hraise).
    split; intros Hopt.
    + rewrite (Hclear Hopt) in Hn. injection Hn as <-.
      destruct (main_dis_lines t); [reflexivity | cbn in Hb; lia].
    + rewrite (Hraise Hopt) in Hn. injection Hn as <-.
      change (Z.to_nat 1) with 1%nat in Hb. exact Hb.
Qed.

End EntryPointFacts.

(** [-print-games] after a file. *)
Lemma main_halting_option_returns_zero_witness :
  exists t,
    main "0.2a" ArgBench.scan_d ArgBench.scan_d_d ArgBench.scan_X_X
      DisBench.decoder DisBench.mirror ArgBench.env ["supermodel"; "scud.zip"; "-print-games"]%string
      Bench.config Bench.empty_disk Bench.startup
      [Bench.idle 102; Bench.press_exit 118]
    = MainReturned 0 t
    /\ forallb before_SDL t = true.
Proof.
  apply (main_halting_option_returns_zero "0.2a" ArgBench.scan_d
           ArgBench.scan_d_d ArgBench.scan_X_X DisBench.decoder
           DisBench.mirror ArgBench.env
           ["supermodel"; "scud.zip"; "-print-games"]%string Bench.config
           Bench.empty_disk Bench.startup
           [Bench.idle 102; Bench.press_exit 118] 2).
  - cbn. lia.
  - right. right. left. reflexivity.
Defined.

(** A run on one game. *)
Lemma main_balances_resources_witness :
  List.length (filter is_SDLQuit MainBench.game_trace) = 1%nat
  /\ List.length (filter (is_NewObj ObjInputs) MainBench.game_trace)
     = List.length (filter (is_DeleteObj ObjInputs) MainBench.game_trace).
Proof.
  assert (Hrun : main "0.2a" ArgBench.scan_d ArgBench.scan_d_d ArgBench.scan_X_X
      DisBench.decoder DisBench.mirror ArgBench.env MainBench.game_argv
      Bench.config Bench.empty_disk Bench.startup
      [Bench.idle 102; Bench.press_exit 118]
                 = MainReturned 0 MainBench.game_trace)
    by (vm_compute; reflexivity).
  destruct (main_balances_resources _ _ _ _ _ _ _ _ _ _ _ _ _ _ Hrun)
    as (Hq & Ho).
  split; [exact Hq|].
  destruct (Ho ObjInputs) as (Hn & _). exact Hn.
Defined.

Lemma main_runs_first_file_witness :
  supermodel_calls MainBench.game_trace
  = [("scud.zip"%string, 0, trace Bench.final_session)].
Proof.
  assert (Hrun : main "0.2a" ArgBench.scan_d ArgBench.scan_d_d ArgBench.scan_X_X
      DisBench.decoder DisBench.mirror ArgBench.env MainBench.game_argv
      Bench.config Bench.empty_disk Bench.startup
      [Bench.idle 102; Bench.press_exit 118]
                 = MainReturned 0 MainBench.game_trace)
    by (vm_compute; reflexivity).
  assert (Hin : In ("scud.zip"%string, 0, trace Bench.final_session)
                  (supermodel_calls MainBench.game_trace))
    by (left; reflexivity).
  destruct (main_runs_first_file _ _ _ _ _ _ _ _ _ _ _ _ _ _ _ _ _
              Hrun Hin) as (_ & Hc & _).
  exact Hc.
Defined.

(** [-dis=FFFFFFF8,5] writes the address and the count. *)
Lemma dis_reads_written_variables_witness :
  exists addr n,
    var_addr MainBench.dis_parsed = Some addr
    /\ var_n MainBench.dis_parsed = Some n
    /\ 0 <= addr < U32.modulus /\ 0 <= n < U32.modulus.
Proof.
  assert (Hp : parse_args ArgBench.scan_d ArgBench.scan_d_d ArgBench.scan_X_X
                 MainBench.dis_argv = inr MainBench.dis_parsed)
    by (vm_compute; reflexivity).
  assert (Hd : cmdDis MainBench.dis_parsed = true) by reflexivity.
  destruct (dis_reads_written_variables (M := Bench.Machine)
              (FS := Bench.Disk) "0.2a" ArgBench.scan_d ArgBench.scan_d_d
              ArgBench.scan_X_X DisBench.decoder DisBench.mirror
              MainBench.dis_argv MainBench.dis_parsed Hp Hd)
    as (addr & n & Ha & Hn & Hra & Hrn & _).
  exists addr, n.
  split; [exact Ha|]. split; [exact Hn|]. split; [exact Hra | exact Hrn].
Defined.

(** [-dis=FFFFFFF8,5] lists two instructions, and none when
    [-no-throttle] follows it. *)
Lemma last_flag_sets_instruction_count_witness :
  List.length (main_dis_lines MainBench.dis_trace) = 2%nat
  /\ main_dis_lines MainBench.dis_flag_trace = [].
Proof.
  assert (Hrun : main "0.2a" ArgBench.scan_d ArgBench.scan_d_d ArgBench.scan_X_X
      DisBench.decoder DisBench.mirror ArgBench.env MainBench.dis_flag_argv
      Bench.config Bench.empty_disk Bench.startup
      [Bench.idle 102; Bench.press_exit 118]
                 = MainReturned 0 MainBench.dis_flag_trace)
    by (vm_compute; reflexivity).
  assert (Hargc : 2 <= Z.of_nat (List.length MainBench.dis_flag_argv))
    by (cbn; lia).
  split; [reflexivity|].
  destruct (last_flag_sets_instruction_count _ _ _ _ _ _ _ _ _ _ _ _ _ _
              Hargc Hrun) as (Hclear & _).
  apply Hclear. right. right. left. reflexivity.
Defined.
